(** * SCSI attach / mount / unplug of the guest agent (package [scsi])

    The three exported operations of the package, [Mount],
    [ControllerLunToName] and [UnplugDevice], talk to the guest kernel
    (sysfs listings, the mount system call, a control file) and poll it in
    loops that have no bound of their own.  They are embedded here as
    interaction trees over the calls they make; a world (any state machine
    that answers those calls) gives them meaning, and an interpreter with
    fuel runs a tree against a world and records the calls and answers in
    order. *)

From Stdlib Require Import ZArith NArith List String Ascii Bool Lia.
From Stdlib Require Import Strings.Byte DecimalString.
From ITree Require Import ITree Eq.Shallow.
Import ListNotations.
Import ITreeNotations.
Local Open Scope string_scope.
Local Open Scope itree_scope.

(** ** Values of the Go runtime and standard library *)

Module Go.

(** [uint8]: one of 256 values. *)
Definition uint8 : Type := Byte.byte.

(** The [%d] verb of [fmt.Sprintf] at a [uint8]. *)
Definition fmt_d (n : uint8) : string :=
  NilZero.string_of_uint (N.to_uint (Byte.to_N n)).

(** Error values.  [Errno] is [syscall.Errno]; [PathError], [LinkError] and
    [SyscallError] are the wrappers of package [os]; [Canceled] and
    [DeadlineExceeded] are the two errors of package [context];
    [Fundamental] is what [errors.Errorf] of github.com/pkg/errors builds. *)
Inductive Err : Type :=
| Errno (n : Z)
| PathError (op path : string) (e : Err)
| LinkError (op old new : string) (e : Err)
| SyscallError (call : string) (e : Err)
| ErrNotExist
| Canceled
| DeadlineExceeded
| Fundamental (msg : string)
| ErrorString (msg : string).

(** A Go [error] is an interface value: [None] is [nil]. *)
Definition error : Type := option Err.

Definition ENOENT : Err := Errno 2.
Definition EACCES : Err := Errno 13.
Definition EIO : Err := Errno 5.
Definition EINVAL : Err := Errno 22.

Fixpoint Err_eqb (a b : Err) : bool :=
  match a, b with
  | Errno n, Errno m => Z.eqb n m
  | PathError o p e, PathError o' p' e' =>
      String.eqb o o' && String.eqb p p' && Err_eqb e e'
  | LinkError o p q e, LinkError o' p' q' e' =>
      String.eqb o o' && String.eqb p p' && String.eqb q q' && Err_eqb e e'
  | SyscallError c e, SyscallError c' e' => String.eqb c c' && Err_eqb e e'
  | ErrNotExist, ErrNotExist => true
  | Canceled, Canceled => true
  | DeadlineExceeded, DeadlineExceeded => true
  | Fundamental m, Fundamental m' => String.eqb m m'
  | ErrorString m, ErrorString m' => String.eqb m m'
  | _, _ => false
  end.

(** [os.underlyingError]: one level of unwrapping. *)
Definition underlyingError (e : Err) : Err :=
  match e with
  | PathError _ _ e' => e'
  | LinkError _ _ _ e' => e'
  | SyscallError _ e' => e'
  | _ => e
  end.

(** [os.IsNotExist]: the underlying error is [ErrNotExist], or is the
    [syscall.Errno] [ENOENT]. *)
Definition IsNotExist (err : error) : bool :=
  match err with
  | None => false
  | Some e =>
      match underlyingError e with
      | ErrNotExist => true
      | Errno n => Z.eqb n 2
      | _ => false
      end
  end.

(** A function that returns [(T, error)]. *)
Inductive result (T : Type) : Type :=
| Ok (v : T)
| Fail (e : Err).
Arguments Ok {T} v.
Arguments Fail {T} e.

End Go.
Import Go.

(** ** Package [path/filepath] on Linux *)

Module filepath.

Definition Separator : ascii := "/"%char.

(** The components of a path: the text between separators. *)
Fixpoint components (s : string) : list string :=
  match s with
  | EmptyString => [EmptyString]
  | String c s' =>
      if Ascii.eqb c Separator then EmptyString :: components s'
      else match components s' with
           | [] => [String c EmptyString]
           | h :: t => String c h :: t
           end
  end.

Definition rooted (path : string) : bool :=
  match path with
  | String c _ => Ascii.eqb c Separator
  | EmptyString => false
  end.

(** One component pushed on the cleaned prefix [out] (last component
    first): empty and [.] components vanish, [..] removes the component
    before it, or vanishes at the root, or stays if there is nothing to
    remove. *)
Definition push (isroot : bool) (out : list string) (c : string) : list string :=
  if String.eqb c EmptyString then out
  else if String.eqb c "." then out
  else if String.eqb c ".." then
    match out with
    | top :: rest =>
        if String.eqb top ".." then c :: out else rest
    | [] => if isroot then out else [c]
    end
  else c :: out.

(** [filepath.Clean]: the shortest path equivalent to [path] by purely
    lexical processing. *)
Definition Clean (path : string) : string :=
  match path with
  | EmptyString => "."
  | _ =>
      let out := rev (fold_left (push (rooted path)) (components path) []) in
      let body := String.concat "/" out in
      if rooted path then String Separator body
      else match body with EmptyString => "." | _ => body end
  end.

(** [filepath.Join]: leading empty elements are ignored, the rest is
    joined with the separator and cleaned. *)
Fixpoint Join (elem : list string) : string :=
  match elem with
  | [] => EmptyString
  | e :: rest =>
      if String.eqb e EmptyString then Join rest
      else Clean (String.concat "/" elem)
  end.

(** A name a directory listing can hold: not empty, no separator in it,
    and neither [.] nor [..]. *)
Definition entry_name (s : string) : bool :=
  negb (String.eqb s EmptyString) && negb (String.eqb s ".")
  && negb (String.eqb s "..")
  && forallb (fun c => negb (Ascii.eqb c Separator)) (list_ascii_of_string s).

End filepath.

(** ** Contexts, spans and the calls of the package *)

(** A [context.Context] as the package uses it: [cancel] names the
    cancellation source the context stands on (its [Done] channel and its
    [Err]), [spans] the spans it carries as values.  Deriving a context
    with a new value keeps the cancellation source. *)
Record Context : Type := mkContext { cancel : nat; spans : list string }.

Definition Span : Type := string.
Definition File : Type := nat.
Definition Time : Type := Z.
(** [time.Duration]: nanoseconds. *)
Definition Duration : Type := Z.
Definition Millisecond : Duration := 1000000%Z.

(** [os.FileInfo], of which only [Name] is read. *)
Record FileInfo : Type := mkFileInfo { Name : string }.

Variant logvalue : Type :=
| VString (s : string)
| VDuration (d : Duration).

(** What the package tells the tracing and logging layers.  None of it is
    answered, and none of it reaches the kernel. *)
Variant obs : Type :=
| SpanStart (parent : Context) (name : string)
| SpanAttrs (span : Span) (controller lun : Z)
| SpanStatus (span : Span) (err : error)
| SpanEnd (span : Span)
| LogDebug (ctx : Context) (field : string) (value : logvalue) (msg : string).

Variant obsE : Type -> Type :=
| Emit (o : obs) : obsE unit.

(** The calls that are answered from outside the package: the file system
    and the kernel, the clock, and the state of a cancellation source. *)
Variant sysE : Type -> Type :=
| MkdirAll (path : string) (perm : Z) : sysE error
| RemoveAll (path : string) : sysE error
| UnixMount (source target fstype : string) (flags : Z) (data : string) : sysE error
| ReadDir (dirname : string) : sysE (result (list FileInfo))
| OpenFile (name : string) (flag : Z) (perm : Z) : sysE (result File)
| FileWrite (f : File) (b : string) : sysE (Z * error)
| FileClose (f : File) : sysE error
| WriteFile (filename : string) (data : string) (perm : Z) : sysE error
| TimeNow : sysE Time
| TimeSince (t : Time) : sysE Duration
| TimeSleep (d : Duration) : sysE unit
| CtxDone (c : nat) : sysE bool
| CtxErr (c : nat) : sysE error.

Definition scsiE : Type -> Type := obsE +' sysE.

Definition emit (o : obs) : itree scsiE unit := ITree.trigger (inl1 (Emit o)).
Definition sys {T : Type} (e : sysE T) : itree scsiE T := ITree.trigger (inr1 e).

(** [defer]: the deferred call runs when the rest of the function has
    produced the function's results, and sees them. *)
Definition defer {R : Type} (deferred : R -> itree scsiE unit)
  (rest : itree scsiE R) : itree scsiE R :=
  r <- rest;; deferred r;; Ret r.

(** [trace.StartSpan]: the new context carries the span and stands on the
    cancellation source of its parent. *)
Definition StartSpan (ctx : Context) (name : string) : itree scsiE (Context * Span) :=
  emit (SpanStart ctx name);;
  Ret (mkContext (cancel ctx) (name :: spans ctx), name).

(** [select { case <-ctx.Done(): ... default: ... }]: whether the [Done]
    channel is closed, without waiting. *)
Definition Done (ctx : Context) : itree scsiE bool := sys (CtxDone (cancel ctx)).
Definition CtxErrOf (ctx : Context) : itree scsiE error := sys (CtxErr (cancel ctx)).

Definition int64 (n : uint8) : Z := Z.of_N (Byte.to_N n).

Definition MS_RDONLY : Z := 1.
Definition O_WRONLY : Z := 1.
Definition dquote : string := String "034"%char EmptyString.
Definition newline : string := String "010"%char EmptyString.

(** ** The package *)

Module scsi.

Definition scsiID (controller lun : uint8) : string :=
  "0:0:" ++ fmt_d controller ++ ":" ++ fmt_d lun.

Definition blockPath (controller lun : uint8) : string :=
  filepath.Join ["/sys/bus/scsi/devices"; scsiID controller lun; "block"].

Definition deletePath (controller lun : uint8) : string :=
  filepath.Join ["/sys/bus/scsi/devices"; scsiID controller lun; "delete"].

Definition errNoMatch (id : string) : Err :=
  Fundamental ("no matching device names found for SCSI ID " ++ dquote ++ id ++ dquote).

Definition errAmbiguous (id : string) : Err :=
  Fundamental ("more than one block device could match SCSI ID " ++ dquote ++ id ++ dquote).

(** One turn of the [for] loop of [ControllerLunToName]: [inl tt] is
    [continue], [inr (inl err)] is [return "", err] and [inr (inr names)]
    is [break] with the listing read. *)
Definition readBlock (ctx : Context) (blockPath : string) (_ : unit)
  : itree scsiE (unit + (error + list FileInfo)) :=
  r <- sys (ReadDir blockPath);;
  let '(deviceNames, err) :=
    match r with
    | Ok names => (names, None)
    | Fail e => ([], Some e)
    end in
  if match err with Some _ => negb (IsNotExist err) | None => false end
  then Ret (inr (inl err))
  else
    match deviceNames with
    | [] =>
        d <- Done ctx;;
        if d then e <- CtxErrOf ctx;; Ret (inr (inl e))
        else sys (TimeSleep (10 * Millisecond)%Z);; Ret (inl tt)
    | _ :: _ => Ret (inr (inr deviceNames))
    end.

(** [ControllerLunToName] finds the [/dev/sd*] path to the SCSI device on
    [controller] index [lun]. *)
Definition ControllerLunToName (ctx : Context) (controller lun : uint8)
  : itree scsiE (string * error) :=
  '(ctx, span) <- StartSpan ctx "scsi::ControllerLunToName";;
  defer (fun _ => emit (SpanEnd span))
 (defer (fun results => emit (SpanStatus span (snd results)))
   (emit (SpanAttrs span (int64 controller) (int64 lun));;
    let scsiID := scsiID controller lun in
    let blockPath := blockPath controller lun in
    r <- ITree.iter (readBlock ctx blockPath) tt;;
    match r with
    | inl err => Ret (EmptyString, err)
    | inr deviceNames =>
        match deviceNames with
        | [] => Ret (EmptyString, Some (errNoMatch scsiID))
        | [first] =>
            let devicePath := filepath.Join ["/dev"; Name first] in
            emit (LogDebug ctx "devicePath" (VString devicePath) "found device path");;
            Ret (devicePath, None)
        | _ :: _ :: _ => Ret (EmptyString, Some (errAmbiguous scsiID))
        end
    end)).

(** One turn of the [for] loop of [Mount]: [inl tt] is [continue],
    [inr err] leaves the loop with the function's result. *)
Definition mountOnce (ctx : Context) (source target : string) (flags : Z)
  (data : string) (_ : unit) : itree scsiE (unit + error) :=
  err <- sys (UnixMount source target "ext4" flags data);;
  match err with
  | Some e =>
      if Err_eqb e ENOENT then
        d <- Done ctx;;
        if d then e' <- CtxErrOf ctx;; Ret (inr e')
        else sys (TimeSleep (10 * Millisecond)%Z);; Ret (inl tt)
      else Ret (inr (Some e))
  | None => Ret (inr None)
  end.

Definition mountFlags (readonly : bool) : Z :=
  if readonly then Z.lor 0 MS_RDONLY else 0.

Definition mountData (readonly : bool) : string :=
  if readonly then "noload" else EmptyString.

(** [Mount] creates a mount from the SCSI device on [controller] index
    [lun] to [target]. *)
Definition Mount (ctx : Context) (controller lun : uint8) (target : string)
  (readonly : bool) : itree scsiE error :=
  '(ctx, span) <- StartSpan ctx "scsi::Mount";;
  defer (fun _ => emit (SpanEnd span))
 (defer (fun err => emit (SpanStatus span err))
   (emit (SpanAttrs span (int64 controller) (int64 lun));;
    err <- sys (MkdirAll target 448);;
    match err with
    | Some _ => Ret err
    | None =>
        defer (fun err : error =>
                 match err with
                 | Some _ => sys (RemoveAll target);; Ret tt
                 | None => Ret tt
                 end)
          ('(source, err) <- ControllerLunToName ctx controller lun;;
           match err with
           | Some _ => Ret err
           | None =>
               let flags := mountFlags readonly in
               let data := mountData readonly in
               ITree.iter (mountOnce ctx source target flags data) tt
           end)
    end)).

(** [UnplugDevice] finds the SCSI device on [controller] index [lun] and
    issues a guest initiated unplug. *)
Definition UnplugDevice (Duration_String : Duration -> string)
  (ctx : Context) (controller lun : uint8) : itree scsiE error :=
  '(_, span) <- StartSpan ctx "scsi::UnplugDevice";;
  defer (fun _ => emit (SpanEnd span))
 (defer (fun err => emit (SpanStatus span err))
   (emit (SpanAttrs span (int64 controller) (int64 lun));;
    let scsiID := scsiID controller lun in
    t <- sys TimeNow;;
    r <- sys (OpenFile (deletePath controller lun) O_WRONLY 420);;
    match r with
    | Fail e => if IsNotExist (Some e) then Ret None else Ret (Some e)
    | Ok f =>
        d <- sys (TimeSince t);;
        emit (LogDebug ctx "Time3" (VDuration d) "Time for opening scsi device file");;
        defer (fun _ => sys (FileClose f);; Ret tt)
          (t <- sys TimeNow;;
           '(_, err) <- sys (FileWrite f ("1" ++ newline));;
           match err with
           | Some _ => Ret err
           | None =>
               d <- sys (TimeSince t);;
               let scsiMsg := "Time for scsi unplug: " ++ Duration_String d in
               err <- sys (WriteFile "/dev/kmsg" scsiMsg 420);;
               match err with
               | Some _ => Ret err
               | None =>
                   d <- sys (TimeSince t);;
                   emit (LogDebug ctx "Time3" (VDuration d)
                           "Time for writing to scsi device file");;
                   Ret None
               end
           end)
    end)).

End scsi.

(** ** Running the package against a world *)

(** One line of the record of a run: something told to the tracing and
    logging layers, or a call with the answer it got. *)
Inductive entry : Type :=
| Obs (o : obs)
| Sys {T : Type} (e : sysE T) (a : T).

Definition trace : Type := list entry.

Section World.

(** A world is a state and a way to answer each call from a state, moving
    to the next state.  Nothing is assumed of it: a listing may change
    between two reads, a cancellation source may fire at any poll. *)
Variable W : Type.
Variable answer : forall T : Type, sysE T -> W -> T * W.

(** [run fuel t w]: the tree [t] run from state [w] for at most [fuel]
    steps; [None] when the fuel runs out before [t] returns. *)
Fixpoint run {R : Type} (fuel : nat) (t : itree scsiE R) (w : W)
  : option (trace * W * R) :=
  match fuel with
  | O => None
  | S fuel' =>
      match observe t with
      | RetF r => Some ([], w, r)
      | TauF t' => run fuel' t' w
      | VisF e k =>
          match e with
          | inl1 o =>
              match o in obsE T return (T -> itree scsiE R) -> _ with
              | Emit o' => fun k =>
                  match run fuel' (k tt) w with
                  | Some (tr, w', r) => Some (Obs o' :: tr, w', r)
                  | None => None
                  end
              end k
          | inr1 s =>
              let (a, w1) := answer _ s w in
              match run fuel' (k a) w1 with
              | Some (tr, w', r) => Some (Sys s a :: tr, w', r)
              | None => None
              end
          end
      end
  end.

(** [calls fuel t w]: the record of the first [fuel] steps of [t] run from
    state [w], whether [t] has returned by then or not. *)
Fixpoint calls {R : Type} (fuel : nat) (t : itree scsiE R) (w : W) : trace :=
  match fuel with
  | O => []
  | S fuel' =>
      match observe t with
      | RetF _ => []
      | TauF t' => calls fuel' t' w
      | VisF e k =>
          match e with
          | inl1 o =>
              match o in obsE T return (T -> itree scsiE R) -> _ with
              | Emit o' => fun k => Obs o' :: calls fuel' (k tt) w
              end k
          | inr1 s =>
              let (a, w1) := answer _ s w in
              Sys s a :: calls fuel' (k a) w1
          end
      end
  end.

(** Every line of every record of [t] run from [w] satisfies [P], however
    long the run. *)
Definition always {R : Type} (P : entry -> Prop) (t : itree scsiE R) (w : W) : Prop :=
  forall fuel, Forall P (calls fuel t w).

(** The call [t], made in state [w], returns [r], leaves the world in
    [w'] and the record [tr] behind. *)
Definition returns {R : Type} (t : itree scsiE R) (w : W)
  (tr : trace) (w' : W) (r : R) : Prop :=
  exists fuel, run fuel t w = Some (tr, w', r).

(** The call never returns. *)
Definition diverges {R : Type} (t : itree scsiE R) (w : W) : Prop :=
  forall fuel, run fuel t w = None.

End World.

Arguments run {W} answer {R} fuel t w.
Arguments returns {W} answer {R} t w tr w' r.
Arguments diverges {W} answer {R} t w.
Arguments calls {W} answer {R} fuel t w.
Arguments always {W} answer {R} P t w.

(** ** Reading a record *)

Definition is_RemoveAll (en : entry) : bool :=
  match en with
  | Sys (RemoveAll _) _ => true
  | _ => false
  end.

Definition is_Sleep (en : entry) : bool :=
  match en with
  | Sys (TimeSleep _) _ => true
  | _ => false
  end.

Definition is_ReadDir (en : entry) : bool :=
  match en with
  | Sys (ReadDir _) _ => true
  | _ => false
  end.

Definition is_UnixMount (en : entry) : bool :=
  match en with
  | Sys (UnixMount _ _ _ _ _) _ => true
  | _ => false
  end.

Definition is_write (en : entry) : bool :=
  match en with
  | Sys (FileWrite _ _) _ => true
  | Sys (WriteFile _ _ _) _ => true
  | _ => false
  end.

Definition is_ctx (en : entry) : bool :=
  match en with
  | Sys (CtxDone _) _ => true
  | Sys (CtxErr _) _ => true
  | _ => false
  end.

Definition is_Sys (en : entry) : bool :=
  match en with
  | Sys _ _ => true
  | Obs _ => false
  end.

Definition count (p : entry -> bool) (tr : trace) : nat :=
  List.length (filter p tr).

(** ** A scripted guest, for running the package on concrete inputs *)

Module Guest.

(** The state of a small guest: the directories that exist, the answers
    the sysfs listing at [block] will give to the coming reads, the
    answers of the coming mount calls, what opening the control file at
    [control] gives, what writing gives, the clock, and the number of
    polls after which the one cancellation source fires ([None]: it never
    does, as for [context.Background]). *)
Record state : Type := mk {
  dirs : list string;
  mkdir : error;
  block : string;
  listing : list (result (list FileInfo));
  mounts : list error;
  control : string;
  opening : result File;
  writing : Z * error;
  kmsg : error;
  clock : Z;
  polls : option nat;
  reason : Err
}.

Definition set_dirs (d : list string) (g : state) : state :=
  mk d (mkdir g) (block g) (listing g) (mounts g) (control g) (opening g)
     (writing g) (kmsg g) (clock g) (polls g) (reason g).
Definition set_listing (l : list (result (list FileInfo))) (g : state) : state :=
  mk (dirs g) (mkdir g) (block g) l (mounts g) (control g) (opening g)
     (writing g) (kmsg g) (clock g) (polls g) (reason g).
Definition set_mounts (m : list error) (g : state) : state :=
  mk (dirs g) (mkdir g) (block g) (listing g) m (control g) (opening g)
     (writing g) (kmsg g) (clock g) (polls g) (reason g).
Definition set_clock (c : Z) (g : state) : state :=
  mk (dirs g) (mkdir g) (block g) (listing g) (mounts g) (control g) (opening g)
     (writing g) (kmsg g) c (polls g) (reason g).
Definition set_polls (n : option nat) (g : state) : state :=
  mk (dirs g) (mkdir g) (block g) (listing g) (mounts g) (control g) (opening g)
     (writing g) (kmsg g) (clock g) n (reason g).

Definition absent (op path : string) : Err := PathError op path ENOENT.

Definition answer (T : Type) (e : sysE T) (g : state) : T * state :=
  match e in sysE T return T * state with
  | MkdirAll path _ =>
      match mkdir g with
      | Some err => (Some err, g)
      | None =>
          (None, if existsb (String.eqb path) (dirs g) then g
                 else set_dirs (path :: dirs g) g)
      end
  | RemoveAll path =>
      (None, set_dirs (filter (fun d => negb (String.eqb path d)) (dirs g)) g)
  | UnixMount _ _ _ _ _ =>
      match mounts g with
      | [] => (None, g)
      | a :: rest => (a, set_mounts rest g)
      end
  | ReadDir dirname =>
      if String.eqb dirname (block g) then
        match listing g with
        | [] => (Fail (absent "open" dirname), g)
        | a :: rest => (a, set_listing rest g)
        end
      else (Fail (absent "open" dirname), g)
  | OpenFile name _ _ =>
      if String.eqb name (control g) then (opening g, g)
      else (Fail (absent "open" name), g)
  | FileWrite _ _ => (writing g, g)
  | FileClose _ => (None, g)
  | WriteFile _ _ _ => (kmsg g, g)
  | TimeNow => (clock g, set_clock (clock g + 1)%Z g)
  | TimeSince t => ((clock g - t)%Z, set_clock (clock g + 1)%Z g)
  | TimeSleep d => (tt, set_clock (clock g + d)%Z g)
  | CtxDone _ =>
      match polls g with
      | None => (false, g)
      | Some O => (true, g)
      | Some (S n) => (false, set_polls (Some n) g)
      end
  | CtxErr _ =>
      match polls g with
      | Some O => (Some (reason g), g)
      | _ => (None, g)
      end
  end.

(** A duration printed as its count of nanoseconds. *)
Definition nanoseconds (d : Duration) : string :=
  match d with
  | Z0 => "0ns"
  | Zpos p => NilZero.string_of_uint (Pos.to_uint p) ++ "ns"
  | Zneg p => "-" ++ NilZero.string_of_uint (Pos.to_uint p) ++ "ns"
  end.

Definition background : Context := mkContext 0 [].

Definition sda : FileInfo := mkFileInfo "sda".
Definition sdb : FileInfo := mkFileInfo "sdb".

(** Controller 0, lun 3; the disk shows up at the third read of the
    listing and its node at the second mount call. *)
Definition boot : state :=
  mk ["/run"] None "/sys/bus/scsi/devices/0:0:0:3/block"
     [Fail (absent "open" "/sys/bus/scsi/devices/0:0:0:3/block"); Ok []; Ok [sda]]
     [Some ENOENT; None]
     "/sys/bus/scsi/devices/0:0:0:3/delete" (Ok 7) (2%Z, None) None 100%Z (Some 5)
     DeadlineExceeded.

(** The same guest once the disk is detached: the control file is gone. *)
Definition detached : state :=
  mk ["/run"] None "/sys/bus/scsi/devices/0:0:0:3/block" [] []
     "/sys/bus/scsi/devices/0:0:0:3/delete"
     (Fail (absent "open" "/sys/bus/scsi/devices/0:0:0:3/delete"))
     (0%Z, None) None 100%Z (Some 5) DeadlineExceeded.

(** The same guest with a kernel log that refuses writes. *)
Definition kmsg_closed : state :=
  mk ["/run"] None "/sys/bus/scsi/devices/0:0:0:3/block" [Ok [sda]] []
     "/sys/bus/scsi/devices/0:0:0:3/delete" (Ok 7) (2%Z, None)
     (Some (PathError "open" "/dev/kmsg" EACCES)) 100%Z (Some 5) DeadlineExceeded.

(** A guest where the disk never shows up, under a deadline of one poll. *)
Definition late : state :=
  mk ["/run"] None "/sys/bus/scsi/devices/0:0:0:3/block" [Ok []] [] 
     "/sys/bus/scsi/devices/0:0:0:3/delete" (Ok 7) (2%Z, None) None 100%Z
     (Some 1) DeadlineExceeded.

(** A guest where the disk never shows up, and no deadline. *)
Definition never : state :=
  mk ["/run"] None "/sys/bus/scsi/devices/0:0:0:3/block" [] [] 
     "/sys/bus/scsi/devices/0:0:0:3/delete" (Ok 7) (2%Z, None) None 100%Z
     None Canceled.

(** A guest where two block devices answer to the address. *)
Definition doubled : state :=
  mk ["/run"] None "/sys/bus/scsi/devices/0:0:0:3/block" [Ok []; Ok [sda; sdb]] []
     "/sys/bus/scsi/devices/0:0:0:3/delete" (Ok 7) (2%Z, None) None 100%Z
     (Some 5) DeadlineExceeded.

(** A guest where the listing cannot be read. *)
Definition unreadable : state :=
  mk ["/run"] None "/sys/bus/scsi/devices/0:0:0:3/block"
     [Ok []; Fail (PathError "open" "/sys/bus/scsi/devices/0:0:0:3/block" EACCES)] []
     "/sys/bus/scsi/devices/0:0:0:3/delete" (Ok 7) (2%Z, None) None 100%Z
     (Some 5) DeadlineExceeded.

(** A guest where the disk is there at the first read. *)
Definition attached : state :=
  mk ["/run"] None "/sys/bus/scsi/devices/0:0:0:3/block" [Ok [sda]] []
     "/sys/bus/scsi/devices/0:0:0:3/delete" (Ok 7) (2%Z, None) None 100%Z
     (Some 5) DeadlineExceeded.

(** A guest where the target of the mount is a directory that exists
    already, and the listing cannot be read. *)
Definition occupied : state :=
  mk ["/run/c1"; "/run"] None "/sys/bus/scsi/devices/0:0:0:3/block"
     [Fail (PathError "open" "/sys/bus/scsi/devices/0:0:0:3/block" EACCES)] []
     "/sys/bus/scsi/devices/0:0:0:3/delete" (Ok 7) (2%Z, None) None 100%Z
     (Some 5) DeadlineExceeded.

End Guest.

(** ** Auxiliary definitions *)

(** One turn of [ITree.iter]: the body, then the loop again or its result. *)
Definition turn {A B : Type} (f : A -> itree scsiE (A + B)) (x : A) : itree scsiE B :=
  ITree.bind (f x) (fun lr =>
    match lr with
    | inl l => Tau (ITree.iter f l)
    | inr r => Ret r
    end).

(** The 256 values of [uint8]. *)
Definition all_uint8 : list uint8 :=
  flat_map (fun n => match Byte.of_nat n with Some b => [b] | None => [] end)
    (seq 0 256).

(** The sysfs paths of an address, written out. *)
Definition sysfs (controller lun : uint8) (leaf : string) : string :=
  "/sys/bus/scsi/devices/0:0:" ++ fmt_d controller ++ ":" ++ fmt_d lun
  ++ "/" ++ leaf.

(** [n] calls in succession, and their results in order. *)
Fixpoint successive {R : Type} (n : nat) (call : itree scsiE R) : itree scsiE (list R) :=
  match n with
  | O => Ret []
  | S n' => r <- call;; rs <- successive n' call;; Ret (r :: rs)
  end.

Definition unplug_span : Span := "scsi::UnplugDevice".

Definition open_delete (controller lun : uint8) : sysE (result File) :=
  OpenFile (sysfs controller lun "delete") O_WRONLY 420.

Definition write_trigger (f : File) : sysE (Z * error) :=
  FileWrite f ("1" ++ newline).

(** The record of a call of [UnplugDevice] that opened the control file,
    up to and including the write of the trigger. *)
Definition unplug_opened (ctx : Context) (controller lun : uint8) (t : Time)
  (f : File) (d : Duration) (t' : Time) (written : Z * error) : trace :=
  [Obs (SpanStart ctx unplug_span);
   Obs (SpanAttrs unplug_span (int64 controller) (int64 lun));
   Sys TimeNow t;
   Sys (open_delete controller lun) (Ok f);
   Sys (TimeSince t) d;
   Obs (LogDebug ctx "Time3" (VDuration d) "Time for opening scsi device file");
   Sys TimeNow t';
   Sys (write_trigger f) written].

(** The control file of the address is gone in state [w]: opening it, once
    [UnplugDevice] has read the clock, fails with an error for which
    [os.IsNotExist] holds. *)
Definition gone {W : Type} (answer : forall T : Type, sysE T -> W -> T * W)
  (controller lun : uint8) (w : W) : Prop :=
  exists e,
    fst (answer _ (open_delete controller lun) (snd (answer _ TimeNow w))) = Fail e /\
    IsNotExist (Some e) = true.

(** The state a call of [UnplugDevice] that finds the control file gone
    leaves behind: the clock was read and the open was tried. *)
Definition tried {W : Type} (answer : forall T : Type, sysE T -> W -> T * W)
  (controller lun : uint8) (w : W) : W :=
  snd (answer _ (open_delete controller lun) (snd (answer _ TimeNow w))).

(** A read of the listing that calls for another read: the path is absent,
    or the listing is empty. *)
Definition transient (r : result (list FileInfo)) : bool :=
  match r with
  | Ok [] => true
  | Ok (_ :: _) => false
  | Fail e => IsNotExist (Some e)
  end.

(** A mount that calls for another mount: it failed with [ENOENT]. *)
Definition not_yet (err : error) : bool :=
  match err with
  | Some e => Err_eqb e ENOENT
  | None => false
  end.

(** The record of one turn that waits: the call and its answer [a], the
    cancellation source [c] found not done, a sleep of 10 ms. *)
Definition waited {T : Type} (q : sysE T) (a : T) (c : nat) : trace :=
  [Sys q a; Sys (CtxDone c) false; Sys (TimeSleep (10 * Millisecond)%Z) tt].

(** [waits answer q again c k w]: from state [w] the call [q] is made [k]
    times in a row, each time with an answer that calls for another try,
    each time with the cancellation source [c] not done, each time followed
    by a sleep of 10 ms.  The result is the record of these [k] turns and
    the state after them, or [None] if the world does not go that way. *)
Fixpoint waits {W T : Type} (answer : forall T : Type, sysE T -> W -> T * W)
  (q : sysE T) (again : T -> bool) (c : nat) (k : nat) (w : W)
  : option (trace * W) :=
  match k with
  | O => Some ([], w)
  | S k' =>
      let (a, w1) := answer _ q w in
      if again a then
        let (d, w2) := answer _ (CtxDone c) w1 in
        if d then None
        else
          let (_, w3) := answer _ (TimeSleep (10 * Millisecond)%Z) w2 in
          match waits answer q again c k' w3 with
          | Some (tr, w') => Some ((waited q a c ++ tr)%list, w')
          | None => None
          end
      else None
  end.

Definition resolve_span : Span := "scsi::ControllerLunToName".
Definition mount_span : Span := "scsi::Mount".

(** The context a function works with once it has started its span. *)
Definition in_span (ctx : Context) (span : Span) : Context :=
  mkContext (cancel ctx) (span :: spans ctx).

(** How every record of [ControllerLunToName] starts. *)
Definition resolve_start (ctx : Context) (controller lun : uint8) : trace :=
  [Obs (SpanStart ctx resolve_span);
   Obs (SpanAttrs resolve_span (int64 controller) (int64 lun))].

(** How every record of [ControllerLunToName] ends, on result [(_, err)]. *)
Definition resolve_end (err : error) : trace :=
  [Obs (SpanStatus resolve_span err); Obs (SpanEnd resolve_span)].

(** What [ControllerLunToName] makes of the way its loop ended: what it
    logs, and its results. *)
Definition resolved (ctx : Context) (id : string) (r : error + list FileInfo)
  : trace * (string * error) :=
  match r with
  | inl err => ([], (EmptyString, err))
  | inr [] => ([], (EmptyString, Some (scsi.errNoMatch id)))
  | inr [first] =>
      ([Obs (LogDebug ctx "devicePath"
               (VString (filepath.Join ["/dev"; Name first])) "found device path")],
       (filepath.Join ["/dev"; Name first], None))
  | inr (_ :: _ :: _) => ([], (EmptyString, Some (scsi.errAmbiguous id)))
  end.

(** How every record of [Mount] starts. *)
Definition mount_start (ctx : Context) (controller lun : uint8) : trace :=
  [Obs (SpanStart ctx mount_span);
   Obs (SpanAttrs mount_span (int64 controller) (int64 lun))].

(** How every record of [Mount] ends, on result [err]. *)
Definition mount_end (err : error) : trace :=
  [Obs (SpanStatus mount_span err); Obs (SpanEnd mount_span)].

(** The part of [Mount] that runs under the deferred removal. *)
Definition mounting (ctx : Context) (controller lun : uint8) (target : string)
  (readonly : bool) : itree scsiE error :=
  '(source, err) <- scsi.ControllerLunToName ctx controller lun;;
  match err with
  | Some _ => Ret err
  | None =>
      ITree.iter
        (scsi.mountOnce ctx source target (scsi.mountFlags readonly)
           (scsi.mountData readonly)) tt
  end.

(** The deferred removal of [Mount]. *)
Definition rollback (target : string) (err : error) : itree scsiE unit :=
  match err with
  | Some _ => sys (RemoveAll target);; Ret tt
  | None => Ret tt
  end.

(** The mount call of [Mount]. *)
Definition mount_call (source target : string) (readonly : bool) : sysE error :=
  UnixMount source target "ext4" (scsi.mountFlags readonly) (scsi.mountData readonly).

(** The calls [ControllerLunToName] makes. *)
Definition resolver_entry (en : entry) : bool :=
  match en with
  | Obs _ => true
  | Sys (ReadDir _) _ => true
  | Sys (CtxDone _) _ => true
  | Sys (CtxErr _) _ => true
  | Sys (TimeSleep _) _ => true
  | _ => false
  end.

(** The calls the loop of [Mount] makes. *)
Definition mounter_entry (en : entry) : bool :=
  match en with
  | Obs _ => true
  | Sys (UnixMount _ _ _ _ _) _ => true
  | Sys (CtxDone _) _ => true
  | Sys (CtxErr _) _ => true
  | Sys (TimeSleep _) _ => true
  | _ => false
  end.

(** What [Mount] with [target] and [readonly] is to ask of the kernel: a
    mount call, if that is what the line holds, has [target] for target,
    [ext4] for type, and the read-only flag and the [noload] option exactly
    when [readonly] is set. *)
Definition issued_as (target : string) (readonly : bool) (en : entry) : Prop :=
  match en with
  | Sys (UnixMount _ t fstype flags data) _ =>
      t = target /\ fstype = "ext4" /\
      flags = (if readonly then MS_RDONLY else 0%Z) /\
      data = (if readonly then "noload" else EmptyString)
  | _ => True
  end.

(** The record of [t] run from [w] begins with [tr]: some finite run of
    [t], returned or not, has made the calls of [tr], in this order, before
    any other. *)
Definition begins {W R : Type} (answer : forall T : Type, sysE T -> W -> T * W)
  (t : itree scsiE R) (w : W) (tr : trace) : Prop :=
  exists fuel rest, calls answer fuel t w = (tr ++ rest)%list.

(** ** What the lines of a record may be *)

(** A line of a record of [ControllerLunToName] for a context on the
    cancellation source [c] and the listing at [path]: a read of that
    listing, a question to that source, a sleep of 10 ms, or something
    told to the tracing and logging layers. *)
Definition resolver_line (c : nat) (path : string) (en : entry) : Prop :=
  match en with
  | Obs _ => True
  | Sys (ReadDir p) _ => p = path
  | Sys (CtxDone k) _ => k = c
  | Sys (CtxErr k) _ => k = c
  | Sys (TimeSleep d) _ => d = (10 * Millisecond)%Z
  | _ => False
  end.


(** A line of a record of [UnplugDevice]: a reading of the clock, the
    opening of the control file at [path] for writing, a write of the
    trigger, the closing of a file, a write to the kernel log, or something
    told to the tracing and logging layers. *)
Definition unplug_line (path : string) (en : entry) : Prop :=
  match en with
  | Obs _ => True
  | Sys TimeNow _ => True
  | Sys (TimeSince _) _ => True
  | Sys (OpenFile p flag _) _ => p = path /\ flag = O_WRONLY
  | Sys (FileWrite _ b) _ => b = "1" ++ newline
  | Sys (FileClose _) _ => True
  | Sys (WriteFile p _ _) _ => p = "/dev/kmsg"
  | _ => False
  end.

Definition is_FileClose (en : entry) : bool :=
  match en with
  | Sys (FileClose _) _ => true
  | _ => false
  end.

(** The number a decimal numeral stands for, read up to the first
    character that is no digit, and what follows that character. *)
Fixpoint read_decimal (acc : N) (s : string) : N * string :=
  match s with
  | EmptyString => (acc, EmptyString)
  | String ch rest =>
      let d := N_of_ascii ch in
      if (N.leb 48 d && N.leb d 57)%bool
      then read_decimal (acc * 10 + (d - 48))%N rest
      else (acc, rest)
  end.

(** The address a sysfs path of the package stands for: the two numerals
    after the prefix of 26 characters, as one number. *)
Definition address_of (path : string) : N :=
  let (controller, rest) :=
    read_decimal 0 (substring 26 (String.length path - 26) path) in
  let (lun, _) := read_decimal 0 rest in
  (controller * 256 + lun)%N.

(** ** Package [strconv] and package [strings] *)

Module strconv.

Variant NumError : Type := ErrSyntax | ErrRange.

(** What reading a string of digits gives: its value, or that a character
    is no digit, or that the value has passed the largest one. *)
Variant scanned : Type :=
| Value (n : Z)
| NoDigit
| TooLarge.

(** The loop of [strconv.ParseUint] in base 10, from the value [n] read so
    far: the characters are read in order, and the scan ends at the first
    one that is no digit, or at the first digit that takes the value past
    [maxVal], whatever follows it. *)
Fixpoint ParseUint (maxVal : Z) (n : Z) (s : string) : scanned :=
  match s with
  | EmptyString => Value n
  | String ch rest =>
      let c := Z.of_N (N_of_ascii ch) in
      if ((48 <=? c) && (c <=? 57))%Z then
        let n1 := (n * 10 + (c - 48))%Z in
        if (maxVal <? n1)%Z then TooLarge else ParseUint maxVal n1 rest
      else NoDigit
  end.

(** [strconv.Atoi] for an [int] of [intSize] bits: an optional sign and
    at least one decimal digit.  A character that is no digit gives zero
    and [ErrSyntax]; a value out of range is clamped and comes with
    [ErrRange], also when a character that is no digit follows the digit
    that overflows. *)
Definition Atoi (intSize : Z) (s : string) : Z * option NumError :=
  let cutoff := (2 ^ (intSize - 1))%Z in
  let maxVal := (2 ^ intSize - 1)%Z in
  let '(neg, body) :=
    match s with
    | String "-" rest => (true, rest)
    | String "+" rest => (false, rest)
    | _ => (false, s)
    end in
  match body with
  | EmptyString => (0%Z, Some ErrSyntax)
  | _ =>
      match ParseUint maxVal 0 body with
      | NoDigit => (0%Z, Some ErrSyntax)
      | TooLarge =>
          if neg then ((- cutoff)%Z, Some ErrRange) else ((cutoff - 1)%Z, Some ErrRange)
      | Value un =>
          if neg then
            if (cutoff <? un)%Z then ((- cutoff)%Z, Some ErrRange) else ((- un)%Z, None)
          else
            if (cutoff <=? un)%Z then ((cutoff - 1)%Z, Some ErrRange) else (un, None)
      end
  end.

End strconv.

Module strings.

(** [strings.SplitN s sep 2] for a separator of one byte: [s] alone when
    the separator does not occur, else what is before its first occurrence
    and what is after. *)
Fixpoint SplitN_2 (s : string) (sep : ascii) : list string :=
  match s with
  | EmptyString => [EmptyString]
  | String ch rest =>
      if Ascii.eqb ch sep then [EmptyString; rest]
      else match SplitN_2 rest sep with
           | [a; b] => [String ch a; b]
           | _ => [s]
           end
  end.

(** Lower case for the letters of ASCII, which is what [strings.ToLower]
    does to a string of ASCII. *)
Definition lower_ascii (ch : ascii) : ascii :=
  let n := N_of_ascii ch in
  if ((65 <=? n) && (n <=? 90))%N then ascii_of_N (n + 32) else ch.

Fixpoint ToLowerASCII (s : string) : string :=
  match s with
  | EmptyString => EmptyString
  | String ch rest => String (lower_ascii ch) (ToLowerASCII rest)
  end.

End strings.

(** ** Package [os] on Windows, where package [client] builds *)

Module windows.

Definition ERROR_FILE_NOT_FOUND : Err := Errno 2.
Definition ERROR_PATH_NOT_FOUND : Err := Errno 3.
Definition ERROR_BAD_NETPATH : Err := Errno 53.

(** [os.IsNotExist] on Windows: the underlying error is one of the three
    system errors for a file, a directory or a network path that is not
    there, or is [ErrNotExist]. *)
Definition IsNotExist (err : error) : bool :=
  match err with
  | None => false
  | Some e =>
      let e := underlyingError e in
      Err_eqb e ERROR_FILE_NOT_FOUND || Err_eqb e ERROR_BAD_NETPATH ||
      Err_eqb e ERROR_PATH_NOT_FOUND || Err_eqb e ErrNotExist
  end.

End windows.

(** ** Package [client]: the configuration of a utility VM *)

Module client.

(** What the package takes from the host it runs on: [strings.ToLower],
    the environment, [filepath.Join] of Windows, the size of [int], and
    what [os.Stat] says of a path. *)
Record Host : Type := mkHost {
  ToLower : string -> string;
  Getenv : string -> string;
  Join : list string -> string;
  intSize : Z;
  Stat : string -> error
}.

Definition defaultUvmTimeoutSeconds : Z := 5 * 60.

(** [Options]: the configurable options of a utility VM. *)
Record Options : Type := mkOptions {
  KirdPath : string;
  TimeoutSeconds : Z;
  BootParameters : string
}.

(** [hcsshim.MappedVirtualDisk], of which the package reads two fields. *)
Record MappedVirtualDisk : Type := mkDisk {
  HostPath : string;
  ContainerPath : string
}.

Definition Container : Type := nat.

(** [Config]: the structure used to configure a utility VM. *)
Record Config : Type := mkConfig {
  Opts : Options;
  Name : string;
  UvmTimeoutSeconds : Z;
  Uvm : option Container;
  MappedVirtualDisks : list MappedVirtualDisk
}.

Definition set_KirdPath (v : string) (o : Options) : Options :=
  mkOptions v (TimeoutSeconds o) (BootParameters o).
Definition set_TimeoutSeconds (n : Z) (o : Options) : Options :=
  mkOptions (KirdPath o) n (BootParameters o).
Definition set_BootParameters (v : string) (o : Options) : Options :=
  mkOptions (KirdPath o) (TimeoutSeconds o) v.
Definition set_Opts (o : Options) (c : Config) : Config :=
  mkConfig o (Name c) (UvmTimeoutSeconds c) (Uvm c) (MappedVirtualDisks c).
Definition set_UvmTimeoutSeconds (n : Z) (c : Config) : Config :=
  mkConfig (Opts c) (Name c) n (Uvm c) (MappedVirtualDisks c).
Definition set_Uvm (u : option Container) (c : Config) : Config :=
  mkConfig (Opts c) (Name c) (UvmTimeoutSeconds c) u (MappedVirtualDisks c).

Definition errTimeoutNotInteger : Err :=
  ErrorString "lcow.timeout option could not be interpreted as an integer".
Definition errTimeoutNegative : Err :=
  ErrorString "lcow.timeout option cannot be negative".
Definition errEnvNotInteger : Err :=
  ErrorString "OPENGCS_UVM_TIMEOUT_SECONDS could not be interpreted as an integer".
Definition errEnvNegative : Err :=
  ErrorString "OPENGCS_UVM_TIMEOUT_SECONDS cannot be negative".

(** The [for] loop of [ParseOptions]: [inl] is the options once the loop
    is through, [inr] a [return] from inside the loop. *)
Fixpoint parseLoop (h : Host) (rOpts : Options) (options : list string)
  : Options + Options * Err :=
  match options with
  | [] => inl rOpts
  | v :: rest =>
      match strings.SplitN_2 v "=" with
      | [key; value] =>
          let k := ToLower h key in
          if String.eqb k "lcow.kirdpath" then
            parseLoop h (set_KirdPath value rOpts) rest
          else if String.eqb k "lcow.bootparameters" then
            parseLoop h (set_BootParameters value rOpts) rest
          else if String.eqb k "lcow.timeout" then
            let (n, err) := strconv.Atoi (intSize h) value in
            let rOpts := set_TimeoutSeconds n rOpts in
            match err with
            | Some _ => inr (rOpts, errTimeoutNotInteger)
            | None =>
                if (n <? 0)%Z then inr (rOpts, errTimeoutNegative)
                else parseLoop h rOpts rest
            end
          else parseLoop h rOpts rest
      | _ => parseLoop h rOpts rest
      end
  end.

Definition defaultKirdPath (h : Host) : string :=
  Join h [Getenv h "ProgramFiles"; "Linux Containers"].

(** [ParseOptions] parses a set of K-V pairs into options used by
    opengcs. *)
Definition ParseOptions (h : Host) (options : list string) : Options * error :=
  match parseLoop h (mkOptions EmptyString 0 EmptyString) options with
  | inr (rOpts, err) => (rOpts, Some err)
  | inl rOpts =>
      (if String.eqb (KirdPath rOpts) EmptyString
       then set_KirdPath (defaultKirdPath h) rOpts
       else rOpts,
       None)
  end.

(** [GenerateDefault] generates a default config from a set of options:
    the configuration as the method leaves it, and the error. *)
Definition GenerateDefault (h : Host) (config : Config) (options : list string)
  : Config * error :=
  let (opts, err) := ParseOptions h options in
  let config := set_Opts opts config in
  match err with
  | Some _ => (config, err)
  | None =>
      let envTimeout := Getenv h "OPENGCS_UVM_TIMEOUT_SECONDS" in
      let envResult : Z * error :=
        if (0 <? String.length envTimeout)%nat then
          let (n, err) := strconv.Atoi (intSize h) envTimeout in
          match err with
          | Some _ => (n, Some errEnvNotInteger)
          | None => if (n <? 0)%Z then (n, Some errEnvNegative) else (n, None)
          end
        else (0%Z, None) in
      let (envTimeoutSeconds, err) := envResult in
      match err with
      | Some _ => (config, err)
      | None =>
          if negb (TimeoutSeconds (Opts config) =? 0)%Z then
            (set_UvmTimeoutSeconds (TimeoutSeconds (Opts config)) config, None)
          else if negb (envTimeoutSeconds =? 0)%Z then
            (set_UvmTimeoutSeconds envTimeoutSeconds config, None)
          else
            (set_UvmTimeoutSeconds defaultUvmTimeoutSeconds config, None)
      end
  end.

Definition errDiskNotFound (hostPath : string) : Err :=
  ErrorString ("mapped virtual disk '" ++ hostPath ++ "' not found").
Definition errDiskNoContainerPath (hostPath : string) : Err :=
  ErrorString ("mapped virtual disk '" ++ hostPath
               ++ "' requested without a container path").

(** The [for] loop of [Validate] over the mapped virtual disks. *)
Fixpoint validateDisks (h : Host) (disks : list MappedVirtualDisk) : error :=
  match disks with
  | [] => None
  | mvd :: rest =>
      match Stat h (HostPath mvd) with
      | Some _ => Some (errDiskNotFound (HostPath mvd))
      | None =>
          if String.eqb (ContainerPath mvd) EmptyString
          then Some (errDiskNoContainerPath (HostPath mvd))
          else validateDisks h rest
      end
  end.

(** [Validate] validates a [Config] structure for starting a utility VM. *)
Definition Validate (h : Host) (config : Config) : error :=
  if windows.IsNotExist (Stat h (Join h [KirdPath (Opts config); "kernel"])) then
    Some (ErrorString ("kernel not found in " ++ KirdPath (Opts config)))
  else if windows.IsNotExist (Stat h (Join h [KirdPath (Opts config); "initrd.img"])) then
    Some (ErrorString ("initrd not found in " ++ KirdPath (Opts config)))
  else validateDisks h (MappedVirtualDisks config).

(** [hcsshim.HvRuntime] and [hcsshim.ContainerConfig], with the fields
    [StartUtilityVM] sets. *)
Record HvRuntime : Type := mkHvRuntime {
  ImagePath : string;
  LinuxInitrdFile : string;
  LinuxKernelFile : string;
  LinuxBootParameters : string
}.

Record ContainerConfig : Type := mkContainerConfig {
  HvPartition : bool;
  cfgName : string;
  SystemType : string;
  ContainerType : string;
  TerminateOnLastHandleClosed : bool;
  cfgMappedVirtualDisks : list MappedVirtualDisk;
  cfgHvRuntime : HvRuntime
}.

(** What [StartUtilityVM] asks of the host compute service, with the
    answers, and what it logs. *)
Variant logarg : Type :=
| AConfig (c : Config)
| AJSON (c : ContainerConfig)
| AString (s : string)
| AErr (e : Err).

Variant line : Type :=
| Debugf (format : string) (args : list logarg)
| Created (name : string) (c : ContainerConfig) (answer : result Container)
| Started (c : Container) (answer : error)
| Terminated (c : Container) (answer : error).

(** The host compute service: a state and its three calls. *)
Record HCS (W : Type) : Type := mkHCS {
  CreateContainer : string -> ContainerConfig -> W -> result Container * W;
  Start : Container -> W -> error * W;
  Terminate : Container -> W -> error * W
}.
Arguments CreateContainer {W}.
Arguments Start {W}.
Arguments Terminate {W}.

Definition configuration (config : Config) : ContainerConfig :=
  mkContainerConfig true (Name config) "container" "linux" true
    (MappedVirtualDisks config)
    (mkHvRuntime (KirdPath (Opts config)) "initrd.img" "kernel"
       (BootParameters (Opts config))).

(** [StartUtilityVM] creates and starts a utility VM from a configuration:
    the configuration as the method leaves it, the error, the state of the
    service, and the record of the calls and log lines in order. *)
Definition StartUtilityVM {W : Type} (h : Host) (hcs : HCS W) (config : Config) (w : W)
  : Config * error * W * list line :=
  let log0 := [Debugf "opengcs: StartUtilityVM: %+v" [AConfig config]] in
  match Validate h config with
  | Some err => (config, Some err, w, log0)
  | None =>
      let configuration := configuration config in
      let log1 :=
        (log0 ++ [Debugf "opengcs: StartUtilityVM: calling HCS with '%s'"
                    [AJSON configuration]])%list in
      let (r, w1) := CreateContainer hcs (Name config) configuration w in
      let log2 := (log1 ++ [Created (Name config) configuration r])%list in
      match r with
      | Fail err => (config, Some err, w1, log2)
      | Ok uvm =>
          let log3 :=
            (log2 ++ [Debugf "opengcs: StartUtilityVM: uvm created, starting..." []])%list in
          let (err, w2) := Start hcs uvm w1 in
          let log4 := (log3 ++ [Started uvm err])%list in
          match err with
          | Some e =>
              let log5 :=
                (log4 ++ [Debugf "opengcs: StartUtilityVM: uvm failed to start: %s"
                            [AErr e]])%list in
              let (terr, w3) := Terminate hcs uvm w2 in
              (config, Some e, w3, (log5 ++ [Terminated uvm terr])%list)
          | None =>
              let config := set_Uvm (Some uvm) config in
              (config, None, w2,
               (log4 ++ [Debugf "opengcs StartUtilityVM: uvm %s is running"
                           [AString (Name config)]])%list)
          end
      end
  end.

End client.

(** ** Reading a list of options *)

(** The value of the option [v] if it is [k=value] with a key that reads
    [key] in lower case. *)
Definition option_value (h : client.Host) (key : string) (v : string) : option string :=
  match strings.SplitN_2 v "=" with
  | [k; value] => if String.eqb (client.ToLower h k) key then Some value else None
  | _ => None
  end.

(** The value of the last option of the list with the key [key]. *)
Definition last_value (h : client.Host) (key : string) (options : list string)
  : option string :=
  fold_left (fun acc v =>
               match option_value h key v with
               | Some value => Some value
               | None => acc
               end) options None.

(** A value that is a numeral of a non-negative integer. *)
Definition timeout_ok (h : client.Host) (value : string) : bool :=
  match strconv.Atoi (client.intSize h) value with
  | (n, None) => (0 <=? n)%Z
  | (_, Some _) => false
  end.

(** A small host: ASCII, 64 bits, one environment variable set, two files
    and one directory missing. *)
Definition a_host : client.Host :=
  client.mkHost strings.ToLowerASCII
    (fun name => if String.eqb name "ProgramFiles" then "C:\Program Files"
                 else EmptyString)
    (String.concat "\")
    64
    (fun path => if String.eqb path "C:\lcow\initrd.img"
                 then Some (PathError "CreateFile" path windows.ERROR_FILE_NOT_FOUND)
                 else if String.eqb path "D:\gone.vhdx"
                 then Some (PathError "CreateFile" path windows.ERROR_FILE_NOT_FOUND)
                 else if String.eqb path "C:\nodir\kernel"
                 then Some (PathError "CreateFile" path windows.ERROR_PATH_NOT_FOUND)
                 else if String.eqb path "C:\nodir\initrd.img"
                 then Some (PathError "CreateFile" path windows.ERROR_PATH_NOT_FOUND)
                 else None).

(** The timeout the environment asks for: zero when the variable is not
    set or empty. *)
Definition env_timeout (h : client.Host) : Z :=
  match client.Getenv h "OPENGCS_UVM_TIMEOUT_SECONDS" with
  | EmptyString => 0%Z
  | value => fst (strconv.Atoi (client.intSize h) value)
  end.

(** The environment asks for no timeout, or for a non-negative one. *)
Definition env_ok (h : client.Host) : bool :=
  match client.Getenv h "OPENGCS_UVM_TIMEOUT_SECONDS" with
  | EmptyString => true
  | value => timeout_ok h value
  end.

(** The fields of a configuration that [GenerateDefault] leaves alone. *)
Definition same_vm (c c' : client.Config) : Prop :=
  client.Name c' = client.Name c /\ client.Uvm c' = client.Uvm c /\
  client.MappedVirtualDisks c' = client.MappedVirtualDisks c.

(** A disk that [Validate] accepts: it is there on the host, and it has a
    path in the container. *)
Definition disk_ok (h : client.Host) (mvd : client.MappedVirtualDisk) : Prop :=
  client.Stat h (client.HostPath mvd) = None /\
  client.ContainerPath mvd <> EmptyString.

Definition is_Created (l : client.line) : bool :=
  match l with
  | client.Created _ _ _ => true
  | _ => false
  end.

(** ** More of the scripted guest, and a scripted service *)

(** A guest where the control file is there and cannot be opened. *)
Definition locked : Guest.state :=
  Guest.mk ["/run"] None "/sys/bus/scsi/devices/0:0:0:3/block" [Ok [Guest.sda]] []
     "/sys/bus/scsi/devices/0:0:0:3/delete"
     (Fail (PathError "open" "/sys/bus/scsi/devices/0:0:0:3/delete" EACCES))
     (0%Z, None) None 100%Z (Some 5) DeadlineExceeded.

(** A guest where the disk never shows up, under a context that is done. *)
Definition expired : Guest.state :=
  Guest.mk ["/run"] None "/sys/bus/scsi/devices/0:0:0:3/block" [] []
     "/sys/bus/scsi/devices/0:0:0:3/delete" (Ok 7) (2%Z, None) None 100%Z
     (Some 0) Canceled.

(** A service that numbers the VMs it creates and starts them all. *)
Definition a_service : client.HCS nat :=
  client.mkHCS nat (fun _ _ n => (Ok n, S n)) (fun _ n => (None, n))
    (fun _ n => (None, n)).

(** A configuration whose kernel directory is not there on [a_host]. *)
Definition no_kird : client.Config :=
  client.mkConfig (client.mkOptions "C:\nodir" 0 EmptyString) "uvm2" 0 None [].

Definition a_config : client.Config :=
  client.mkConfig (client.mkOptions "C:\kird" 0 "console=ttyS0") "uvm1" 0 None
    [client.mkDisk "D:\scratch.vhdx" "/tmp/scratch"].

(** * Properties *)

Local Open Scope list_scope.

(** ** The interpreter *)

Section RunFacts.

Variable W : Type.
Variable answer : forall T : Type, sysE T -> W -> T * W.

Local Abbreviation run := (run answer).
Local Abbreviation returns := (returns answer).
Local Abbreviation diverges := (diverges answer).

Lemma run_observe {R} (t u : itree scsiE R) n w :
  observe t = observe u -> run n t w = run n u w.
Proof. intros H. destruct n; simpl; [reflexivity | now rewrite H]. Qed.

Lemma run_Tau {R} (t : itree scsiE R) n w :
  run (S n) (Tau t) w = run n t w.
Proof. reflexivity. Qed.

Lemma run_mono {R} n : forall m (t : itree scsiE R) w out,
  run n t w = Some out -> n <= m -> run m t w = Some out.
Proof.
  induction n as [|n IH]; intros m t w out H Hle; [discriminate|].
  destruct m as [|m]; [lia|]. simpl in *.
  destruct (observe t) as [r | t' | X e k]; auto.
  - apply IH; [assumption | lia].
  - destruct e as [o | s].
    + destruct o.
      destruct (run n (k tt) w) as [[[tr w'] r]|] eqn:E; [|discriminate].
      now rewrite (IH m _ _ _ E) by lia.
    + destruct (answer _ s w) as [a w1].
      destruct (run n (k a) w1) as [[[tr w'] r]|] eqn:E; [|discriminate].
      now rewrite (IH m _ _ _ E) by lia.
Qed.

Lemma run_bind_inv {R U} n : forall (t : itree scsiE R) (k : R -> itree scsiE U) w out,
  run n (ITree.bind t k) w = Some out ->
  exists n1 n2 tr1 w1 r tr2 w2 x,
    out = (tr1 ++ tr2, w2, x) /\ run n1 t w = Some (tr1, w1, r) /\
    run n2 (k r) w1 = Some (tr2, w2, x) /\ n2 <= n.
Proof.
  induction n as [|n IH]; intros t k w out H; [discriminate|].
  rewrite (run_observe _ _ _ _ (observe_bind t k)) in H.
  destruct (observe t) as [r | t' | X e ke] eqn:Et.
  - destruct out as [[tr w2] x].
    exists 1, (S n), [], w, r, tr, w2, x. repeat split; auto.
    simpl. now rewrite Et.
  - rewrite run_Tau in H. apply IH in H.
    destruct H as (n1 & n2 & tr1 & w1 & r & tr2 & w2 & x & -> & H1 & H2 & Hle).
    exists (S n1), n2, tr1, w1, r, tr2, w2, x. repeat split; auto.
    simpl. now rewrite Et.
  - simpl in H. destruct e as [o | s].
    + destruct o.
      destruct (run n (ITree.bind (ke tt) k) w) as [[[tr w'] r]|] eqn:E; [|discriminate].
      injection H as <-. apply IH in E.
      destruct E as (n1 & n2 & tr1 & w1 & r0 & tr2 & w2 & x & [= -> -> ->] & H1 & H2 & Hle).
      exists (S n1), n2, (Obs o :: tr1), w1, r0, tr2, w2, x. repeat split; auto.
      simpl. now rewrite Et, H1.
    + destruct (answer _ s w) as [a wa] eqn:Ea.
      destruct (run n (ITree.bind (ke a) k) wa) as [[[tr w'] r]|] eqn:E; [|discriminate].
      injection H as <-. apply IH in E.
      destruct E as (n1 & n2 & tr1 & w1 & r0 & tr2 & w2 & x & [= -> -> ->] & H1 & H2 & Hle).
      exists (S n1), n2, (Sys s a :: tr1), w1, r0, tr2, w2, x. repeat split; auto.
      simpl. now rewrite Et, Ea, H1.
Qed.

Lemma run_bind {R U} n : forall (t : itree scsiE R) (k : R -> itree scsiE U) w tr1 w1 r m tr2 w2 x,
  run n t w = Some (tr1, w1, r) ->
  run m (k r) w1 = Some (tr2, w2, x) ->
  run (n + m) (ITree.bind t k) w = Some (tr1 ++ tr2, w2, x).
Proof.
  induction n as [|n IH]; intros t k w tr1 w1 r m tr2 w2 x H1 H2; [discriminate|].
  rewrite (run_observe _ _ _ _ (observe_bind t k)).
  simpl in H1.
  destruct (observe t) as [r0 | t' | X e ke] eqn:Et.
  - injection H1 as <- <- <-. simpl app.
    apply run_mono with (n := m); [assumption | lia].
  - change (S n + m) with (S (n + m)). rewrite run_Tau. eapply IH; eauto.
  - change (S n + m) with (S (n + m)). simpl. destruct e as [o | s].
    + destruct o.
      destruct (run n (ke tt) w) as [[[tr w'] r']|] eqn:E; [|discriminate].
      injection H1 as <- <- <-.
      now rewrite (IH _ _ _ _ _ _ _ _ _ _ E H2).
    + destruct (answer _ s w) as [a wa].
      destruct (run n (ke a) wa) as [[[tr w'] r']|] eqn:E; [|discriminate].
      injection H1 as <- <- <-.
      now rewrite (IH _ _ _ _ _ _ _ _ _ _ E H2).
Qed.

Lemma run_det {R} n m (t : itree scsiE R) w out out' :
  run n t w = Some out -> run m t w = Some out' -> out = out'.
Proof.
  intros H1 H2.
  apply run_mono with (m := n + m) in H1; [|lia].
  apply run_mono with (m := n + m) in H2; [|lia].
  congruence.
Qed.

Lemma returns_det {R} (t : itree scsiE R) w tr1 w1 r1 tr2 w2 r2 :
  returns t w tr1 w1 r1 -> returns t w tr2 w2 r2 ->
  tr1 = tr2 /\ w1 = w2 /\ r1 = r2.
Proof.
  intros [n H1] [m H2].
  pose proof (run_det _ _ _ _ _ _ H1 H2) as E. injection E as -> -> ->. auto.
Qed.

Lemma returns_Ret {R} (r : R) w : returns (Ret r) w [] w r.
Proof. now exists 1. Qed.

Lemma returns_Ret_inv {R} (r : R) w tr w' r' :
  returns (Ret r) w tr w' r' -> tr = [] /\ w' = w /\ r' = r.
Proof. intros H. apply (returns_det _ _ _ _ _ _ _ _ H (returns_Ret r w)). Qed.

Lemma returns_emit o w : returns (emit o) w [Obs o] w tt.
Proof. now exists 2. Qed.

Lemma returns_sys {T} (e : sysE T) w :
  returns (sys e) w [Sys e (fst (answer _ e w))] (snd (answer _ e w))
    (fst (answer _ e w)).
Proof. exists 2. simpl. now destruct (answer T e w). Qed.

Lemma returns_bind {R U} (t : itree scsiE R) (k : R -> itree scsiE U)
  w tr1 w1 r tr2 w2 x :
  returns t w tr1 w1 r -> returns (k r) w1 tr2 w2 x ->
  returns (ITree.bind t k) w (tr1 ++ tr2) w2 x.
Proof. intros [n H1] [m H2]. exists (n + m). eapply run_bind; eauto. Qed.

Lemma returns_bind_inv {R U} (t : itree scsiE R) (k : R -> itree scsiE U)
  w tr w2 x :
  returns (ITree.bind t k) w tr w2 x ->
  exists tr1 w1 r tr2,
    tr = tr1 ++ tr2 /\ returns t w tr1 w1 r /\ returns (k r) w1 tr2 w2 x.
Proof.
  intros [n H]. apply run_bind_inv in H.
  destruct H as (n1 & n2 & tr1 & w1 & r & tr2 & w2' & x' & [= -> -> ->] & H1 & H2 & _).
  exists tr1, w1, r, tr2. repeat split; [now exists n1 | now exists n2].
Qed.

Lemma returns_Tau {R} (t : itree scsiE R) w tr w' r :
  returns (Tau t) w tr w' r <-> returns t w tr w' r.
Proof.
  split; intros [n H].
  - destruct n; [discriminate|]. now exists n.
  - now exists (S n).
Qed.

Lemma returns_observe {R} (t u : itree scsiE R) w tr w' r :
  observe t = observe u -> returns t w tr w' r -> returns u w tr w' r.
Proof. intros E [n H]. exists n. now rewrite <- (run_observe _ _ _ _ E). Qed.

Lemma observe_iter {A B} (f : A -> itree scsiE (A + B)) (x : A) :
  observe (ITree.iter f x) = observe (turn f x).
Proof. reflexivity. Qed.

Lemma returns_iter_stop {A B} (f : A -> itree scsiE (A + B)) x w tr w1 r :
  returns (f x) w tr w1 (inr r) -> returns (ITree.iter f x) w tr w1 r.
Proof.
  intros H. apply (returns_observe (turn f x)); [symmetry; apply observe_iter|].
  rewrite <- (app_nil_r tr). eapply returns_bind; [exact H|]. apply returns_Ret.
Qed.

Lemma returns_iter_again {A B} (f : A -> itree scsiE (A + B)) x w tr1 w1 l tr2 w2 r :
  returns (f x) w tr1 w1 (inl l) -> returns (ITree.iter f l) w1 tr2 w2 r ->
  returns (ITree.iter f x) w (tr1 ++ tr2) w2 r.
Proof.
  intros H1 H2. apply (returns_observe (turn f x)); [symmetry; apply observe_iter|].
  eapply returns_bind; [exact H1|]. now apply returns_Tau.
Qed.

(** The rule of the loop: what holds of a last turn, and is carried from
    the rest of the loop over one more turn, holds of every run of the
    loop that returns. *)
Lemma returns_iter_ind {A B} (f : A -> itree scsiE (A + B))
  (P : A -> W -> trace -> W -> B -> Prop) :
  (forall x w tr w1 r, returns (f x) w tr w1 (inr r) -> P x w tr w1 r) ->
  (forall x w tr1 w1 l tr2 w2 r,
      returns (f x) w tr1 w1 (inl l) ->
      returns (ITree.iter f l) w1 tr2 w2 r ->
      P l w1 tr2 w2 r -> P x w (tr1 ++ tr2) w2 r) ->
  forall x w tr w' r, returns (ITree.iter f x) w tr w' r -> P x w tr w' r.
Proof.
  intros Hstop Hagain x w tr w' r [n H]. revert x w tr w' r H.
  induction n as [n IH] using lt_wf_ind. intros x w tr w' r H.
  rewrite (run_observe _ _ _ _ (observe_iter f x)) in H.
  apply run_bind_inv in H.
  destruct H as (n1 & n2 & tr1 & w1 & lr & tr2 & w2 & x' & [= -> -> ->] & H1 & H2 & Hle).
  destruct lr as [l | r0].
  - destruct n2 as [|n2]; [discriminate|]. rewrite run_Tau in H2.
    eapply Hagain; [exists n1; exact H1 | exists n2; exact H2 |].
    apply (IH n2); [lia | assumption].
  - destruct n2 as [|n2]; [discriminate|].
    injection H2 as <- <- <-. rewrite app_nil_r. apply Hstop. now exists n1.
Qed.

(** A loop that always takes one more turn never returns. *)
Lemma diverges_iter {A B} (f : A -> itree scsiE (A + B)) (I : A -> W -> Prop) :
  (forall x w, I x w -> exists tr w1 l, returns (f x) w tr w1 (inl l) /\ I l w1) ->
  forall x w, I x w -> diverges (ITree.iter f x : itree scsiE B) w.
Proof.
  intros Hstep x w Hi n. revert x w Hi.
  induction n as [n IH] using lt_wf_ind. intros x w Hi.
  destruct (run n (ITree.iter f x) w) as [out|] eqn:H; [exfalso | reflexivity].
  rewrite (run_observe _ _ _ _ (observe_iter f x)) in H.
  apply run_bind_inv in H.
  destruct H as (n1 & n2 & tr1 & w1 & lr & tr2 & w2 & x' & -> & H1 & H2 & Hle).
  destruct (Hstep x w Hi) as (tr & w1' & l & [m Hr] & Hi').
  pose proof (run_det _ _ _ _ _ _ H1 Hr) as E. injection E as -> -> ->.
  destruct n2 as [|n2]; [discriminate|]. rewrite run_Tau in H2.
  rewrite (IH n2) in H2; [discriminate | lia | assumption].
Qed.

Lemma diverges_bind {R U} (t : itree scsiE R) (k : R -> itree scsiE U) w tr w1 r :
  returns t w tr w1 r -> diverges (k r) w1 -> diverges (ITree.bind t k) w.
Proof.
  intros [m Hr] Hd n.
  destruct (run n (ITree.bind t k) w) as [out|] eqn:H; [exfalso | reflexivity].
  apply run_bind_inv in H.
  destruct H as (n1 & n2 & tr1 & w1' & r' & tr2 & w2 & x' & -> & H1 & H2 & Hle).
  pose proof (run_det _ _ _ _ _ _ H1 Hr) as E. injection E as -> -> ->.
  now rewrite Hd in H2.
Qed.

Lemma diverges_not_returns {R} (t : itree scsiE R) w tr w' r :
  diverges t w -> ~ returns t w tr w' r.
Proof. intros Hd [n H]. now rewrite Hd in H. Qed.

Lemma returns_iter_inv {A B} (f : A -> itree scsiE (A + B)) x w tr w' r :
  returns (ITree.iter f x) w tr w' r ->
  exists tr1 w1 lr tr2,
    tr = tr1 ++ tr2 /\ returns (f x) w tr1 w1 lr /\
    match lr with
    | inl l => returns (ITree.iter f l) w1 tr2 w' r
    | inr r0 => tr2 = [] /\ w' = w1 /\ r = r0
    end.
Proof.
  intros H. apply (returns_observe _ (turn f x)) in H; [|apply observe_iter].
  apply returns_bind_inv in H. destruct H as (tr1 & w1 & lr & tr2 & -> & H1 & H2).
  exists tr1, w1, lr, tr2. repeat split; [exact H1|].
  destruct lr as [l|r0].
  - now apply (proj1 (returns_Tau _ _ _ _ _)) in H2.
  - apply returns_Ret_inv in H2. exact H2.
Qed.

End RunFacts.

(** ** The definitions at work *)

Example Join_dev : filepath.Join ["/dev"; "sda"] = "/dev/sda".
Proof. reflexivity. Qed.

Example Join_cleans : filepath.Join ["/dev"; ".."; ".."; "x"; "."; "y/"] = "/x/y".
Proof. reflexivity. Qed.

Example Join_relative : filepath.Join [EmptyString; "a"; "../../b"] = "../b".
Proof. reflexivity. Qed.

Example blockPath_0_3 :
  scsi.blockPath Byte.x00 Byte.x03 = "/sys/bus/scsi/devices/0:0:0:3/block".
Proof. reflexivity. Qed.

Example scsiID_255_10 : scsi.scsiID Byte.xff Byte.x0a = "0:0:255:10".
Proof. reflexivity. Qed.

Example IsNotExist_wrapped : IsNotExist (Some (PathError "open" "/x" ENOENT)) = true.
Proof. reflexivity. Qed.

Example IsNotExist_denied : IsNotExist (Some (PathError "open" "/x" EACCES)) = false.
Proof. reflexivity. Qed.

Example mountFlags_readonly : Z.testbit (scsi.mountFlags true) 0 = true.
Proof. reflexivity. Qed.

(** On the guest that boots with the disk showing up at the third read and
    its node at the second mount: two waits for the listing, one for the
    node, and the target is there at the end. *)
Example Mount_boot :
  exists tr g',
    returns Guest.answer (scsi.Mount Guest.background Byte.x00 Byte.x03 "/run/c1" true)
      Guest.boot tr g' None /\
    count is_ReadDir tr = 3 /\ count is_UnixMount tr = 2 /\ count is_Sleep tr = 3 /\
    Guest.dirs g' = ["/run/c1"; "/run"].
Proof.
  do 2 eexists. split; [exists 40; vm_compute; reflexivity|].
  repeat split; vm_compute; reflexivity.
Qed.

(** On the guest whose listing never fills, under a deadline: the call ends
    with the error of the deadline, and the target is gone again. *)
Example Mount_late :
  exists tr g',
    returns Guest.answer (scsi.Mount Guest.background Byte.x00 Byte.x03 "/run/c1" false)
      Guest.late tr g' (Some DeadlineExceeded) /\
    Guest.dirs g' = ["/run"].
Proof.
  do 2 eexists. split; [exists 40; vm_compute; reflexivity|].
  vm_compute; reflexivity.
Qed.

(** ** Paths *)

Lemma all_uint8_complete (b : uint8) : In b all_uint8.
Proof.
  unfold all_uint8. apply in_flat_map. exists (Byte.to_nat b). split.
  - apply in_seq. pose proof (Byte.to_nat_bounded b). lia.
  - rewrite Byte.of_to_nat. now left.
Qed.

Lemma forall_uint8 (P : uint8 -> bool) :
  forallb P all_uint8 = true -> forall b, P b = true.
Proof. intros H b. eapply forallb_forall in H; [exact H | apply all_uint8_complete]. Qed.

Lemma blockPath_eq controller lun :
  scsi.blockPath controller lun = sysfs controller lun "block".
Proof.
  apply String.eqb_eq.
  revert lun. apply forall_uint8. revert controller.
  apply (forall_uint8 (fun c => forallb (fun l =>
    String.eqb (scsi.blockPath c l) (sysfs c l "block")) all_uint8)).
  vm_compute. reflexivity.
Qed.

Lemma deletePath_eq controller lun :
  scsi.deletePath controller lun = sysfs controller lun "delete".
Proof.
  apply String.eqb_eq.
  revert lun. apply forall_uint8. revert controller.
  apply (forall_uint8 (fun c => forallb (fun l =>
    String.eqb (scsi.deletePath c l) (sysfs c l "delete")) all_uint8)).
  vm_compute. reflexivity.
Qed.

Lemma components_entry (s : string) :
  forallb (fun c => negb (Ascii.eqb c filepath.Separator)) (list_ascii_of_string s) = true ->
  s <> EmptyString -> filepath.components s = [s].
Proof.
  induction s as [|c s IH]; intros H Hne; [congruence|].
  simpl in H. apply andb_true_iff in H as [Hc Hs].
  simpl. apply negb_true_iff in Hc. rewrite Hc.
  destruct s as [|c' s']; [reflexivity|].
  rewrite IH; [reflexivity | assumption | discriminate].
Qed.

Lemma components_cons_entry c (s : string) :
  Ascii.eqb c filepath.Separator = false ->
  filepath.components (String c s) =
    match filepath.components s with
    | [] => [String c EmptyString]
    | h :: t => String c h :: t
    end.
Proof. intros H. simpl. now rewrite H. Qed.

Lemma Join_dev_entry (name : string) :
  filepath.entry_name name = true ->
  filepath.Join ["/dev"; name] = ("/dev/" ++ name)%string.
Proof.
  unfold filepath.entry_name. intros H.
  apply andb_true_iff in H as [H Hs]. apply andb_true_iff in H as [H Hdd].
  apply andb_true_iff in H as [He Hd].
  apply negb_true_iff in He, Hd, Hdd.
  assert (Hne : name <> EmptyString) by (intros ->; discriminate).
  pose proof (components_entry name Hs Hne) as Hc.
  unfold filepath.Join. change (String.eqb "/dev" EmptyString) with false. cbv iota.
  change (String.concat "/" ["/dev"; name]) with ("/dev/" ++ name)%string.
  unfold filepath.Clean.
  change ("/dev/" ++ name)%string
    with (String "/" (String "d" (String "e" (String "v" (String "/" name))))).
  cbv beta iota zeta.
  change (filepath.rooted (String "/" (String "d" (String "e" (String "v" (String "/" name))))))
    with true.
  cbv iota.
  assert (Hcomp : filepath.components
            (String "/" (String "d" (String "e" (String "v" (String "/" name)))))
          = [EmptyString; "dev"; name]).
  { simpl. rewrite Hc. reflexivity. }
  rewrite Hcomp. simpl fold_left.
  unfold filepath.push at 1. rewrite He, Hd, Hdd.
  reflexivity.
Qed.

(** ** One call at a time *)

Section Steps.

Variable W : Type.
Variable answer : forall T : Type, sysE T -> W -> T * W.

Local Abbreviation run := (run answer).
Local Abbreviation returns := (returns answer).

Lemma returns_Ret_bind {R U} (r : R) (k : R -> itree scsiE U) w tr w' x :
  returns (ITree.bind (Ret r) k) w tr w' x <-> returns (k r) w tr w' x.
Proof. split; apply returns_observe; reflexivity. Qed.

Lemma returns_emit_bind {U} o (k : unit -> itree scsiE U) w tr w' x :
  returns (ITree.bind (emit o) k) w tr w' x <->
  exists tr', tr = Obs o :: tr' /\ returns (k tt) w tr' w' x.
Proof.
  split.
  - intros H. apply returns_bind_inv in H.
    destruct H as (tr1 & w1 & [] & tr2 & -> & H1 & H2).
    destruct (returns_det _ _ _ _ _ _ _ _ _ _ H1 (returns_emit _ answer o w))
      as (-> & -> & _).
    now exists tr2.
  - intros (tr' & -> & H).
    change (Obs o :: tr') with ([Obs o] ++ tr').
    eapply returns_bind; [apply returns_emit | exact H].
Qed.

Lemma returns_sys_bind {T U} (e : sysE T) (k : T -> itree scsiE U) w a w1 tr w' x :
  answer _ e w = (a, w1) ->
  returns (ITree.bind (sys e) k) w tr w' x <->
  exists tr', tr = Sys e a :: tr' /\ returns (k a) w1 tr' w' x.
Proof.
  intros Ha. pose proof (returns_sys _ answer e w) as Hs. rewrite Ha in Hs. simpl in Hs.
  split.
  - intros H. apply returns_bind_inv in H.
    destruct H as (tr1 & w2 & a' & tr2 & -> & H1 & H2).
    destruct (returns_det _ _ _ _ _ _ _ _ _ _ H1 Hs) as (-> & -> & ->).
    now exists tr2.
  - intros (tr' & -> & H).
    change (Sys e a :: tr') with ([Sys e a] ++ tr').
    eapply returns_bind; [exact Hs | exact H].
Qed.

Lemma returns_bind_bind {R U V} (t : itree scsiE R) (k : R -> itree scsiE U)
  (h : U -> itree scsiE V) w tr w' x :
  returns (ITree.bind (ITree.bind t k) h) w tr w' x <->
  returns (ITree.bind t (fun r => ITree.bind (k r) h)) w tr w' x.
Proof.
  split; intros H.
  - apply returns_bind_inv in H. destruct H as (tr1 & w1 & u & tr2 & -> & H1 & H2).
    apply returns_bind_inv in H1. destruct H1 as (tr3 & w3 & r & tr4 & -> & H3 & H4).
    rewrite <- app_assoc. eapply returns_bind; [exact H3|].
    eapply returns_bind; eassumption.
  - apply returns_bind_inv in H. destruct H as (tr1 & w1 & r & tr2 & -> & H1 & H2).
    apply returns_bind_inv in H2. destruct H2 as (tr3 & w3 & u & tr4 & -> & H3 & H4).
    rewrite app_assoc. eapply returns_bind; [|exact H4].
    eapply returns_bind; eassumption.
Qed.

Lemma returns_defer {R} (d : R -> itree scsiE unit) (rest : itree scsiE R) w tr w' r :
  returns (defer d rest) w tr w' r <->
  exists tr1 w1 tr2,
    tr = tr1 ++ tr2 /\ returns rest w tr1 w1 r /\ returns (d r) w1 tr2 w' tt.
Proof.
  unfold defer. split.
  - intros H. apply returns_bind_inv in H.
    destruct H as (tr1 & w1 & r1 & tr2 & -> & H1 & H2).
    apply returns_bind_inv in H2.
    destruct H2 as (tr3 & w3 & [] & tr4 & -> & H3 & H4).
    apply returns_Ret_inv in H4 as (-> & -> & ->).
    exists tr1, w1, tr3. rewrite app_nil_r. auto.
  - intros (tr1 & w1 & tr2 & -> & H1 & H2).
    eapply returns_bind; [exact H1|].
    rewrite <- (app_nil_r tr2). eapply returns_bind; [exact H2 | apply returns_Ret].
Qed.

Lemma returns_emit_iff o w tr w' u :
  returns (emit o) w tr w' u <-> tr = [Obs o] /\ w' = w.
Proof.
  split.
  - intros H.
    destruct (returns_det _ _ _ _ _ _ _ _ _ _ H (returns_emit _ answer o w)) as (-> & -> & _).
    auto.
  - intros (-> & ->). destruct u. apply returns_emit.
Qed.

Lemma returns_StartSpan_bind {U} ctx name (k : Context * Span -> itree scsiE U) w tr w' x :
  returns (ITree.bind (StartSpan ctx name) k) w tr w' x <->
  exists tr', tr = Obs (SpanStart ctx name) :: tr' /\
    returns (k (mkContext (cancel ctx) (name :: spans ctx), name)) w tr' w' x.
Proof.
  unfold StartSpan. rewrite returns_bind_bind, returns_emit_bind.
  split; intros (tr' & -> & H); exists tr'; (split; [reflexivity|]);
    revert H; apply returns_Ret_bind.
Qed.

(** A function whose two outermost deferred calls close and mark its span. *)
Lemma returns_spanned {R} (span : Span) (status : R -> error) (rest : itree scsiE R)
  w tr w' r :
  returns (defer (fun _ => emit (SpanEnd span))
             (defer (fun r => emit (SpanStatus span (status r))) rest)) w tr w' r <->
  exists tr', tr = tr' ++ [Obs (SpanStatus span (status r)); Obs (SpanEnd span)] /\
    returns rest w tr' w' r.
Proof.
  rewrite returns_defer. split.
  - intros (tr1 & w1 & tr2 & -> & H1 & H2).
    apply returns_emit_iff in H2 as (-> & ->).
    apply returns_defer in H1. destruct H1 as (tr3 & w3 & tr4 & -> & H3 & H4).
    apply returns_emit_iff in H4 as (-> & ->).
    exists tr3. rewrite <- app_assoc. auto.
  - intros (tr' & -> & H).
    exists (tr' ++ [Obs (SpanStatus span (status r))]), w', [Obs (SpanEnd span)].
    rewrite <- app_assoc. repeat split; [|apply returns_emit].
    apply returns_defer. exists tr', w', [Obs (SpanStatus span (status r))].
    repeat split; [assumption | apply returns_emit].
Qed.

End Steps.

Section StepsForward.

Variable W : Type.
Variable answer : forall T : Type, sysE T -> W -> T * W.
Local Abbreviation returns := (returns answer).

Lemma emit_then {U} o (k : unit -> itree scsiE U) w tr w' x :
  returns (k tt) w tr w' x -> returns (ITree.bind (emit o) k) w (Obs o :: tr) w' x.
Proof. intros H. apply returns_emit_bind. eauto. Qed.

Lemma sys_then {T U} (e : sysE T) (k : T -> itree scsiE U) w a w1 tr w' x :
  answer _ e w = (a, w1) -> returns (k a) w1 tr w' x ->
  returns (ITree.bind (sys e) k) w (Sys e a :: tr) w' x.
Proof. intros Ha H. apply (returns_sys_bind _ answer e k w a w1); eauto. Qed.

Lemma StartSpan_then {U} ctx name (k : Context * Span -> itree scsiE U) w tr w' x :
  returns (k (mkContext (cancel ctx) (name :: spans ctx), name)) w tr w' x ->
  returns (ITree.bind (StartSpan ctx name) k) w (Obs (SpanStart ctx name) :: tr) w' x.
Proof. intros H. apply returns_StartSpan_bind. eauto. Qed.

Lemma spanned_then {R} (span : Span) (status : R -> error) (rest : itree scsiE R)
  w tr w' r :
  returns rest w tr w' r ->
  returns (defer (fun _ => emit (SpanEnd span))
             (defer (fun r => emit (SpanStatus span (status r))) rest)) w
    (tr ++ [Obs (SpanStatus span (status r)); Obs (SpanEnd span)]) w' r.
Proof. intros H. apply returns_spanned. eauto. Qed.

Lemma defer_then {R} (d : R -> itree scsiE unit) (rest : itree scsiE R)
  w tr1 w1 r tr2 w' :
  returns rest w tr1 w1 r -> returns (d r) w1 tr2 w' tt ->
  returns (defer d rest) w (tr1 ++ tr2) w' r.
Proof. intros H1 H2. apply returns_defer. exists tr1, w1, tr2. auto. Qed.

Lemma returns_eq {R} (t : itree scsiE R) w tr tr' w' r :
  returns t w tr w' r -> tr = tr' -> returns t w tr' w' r.
Proof. now intros H <-. Qed.

End StepsForward.

(** ** [UnplugDevice] *)

Section Unplug.

Variable W : Type.
Variable answer : forall T : Type, sysE T -> W -> T * W.
Variable Duration_String : Duration -> string.
Local Abbreviation returns := (returns answer).
Local Abbreviation UnplugDevice := (scsi.UnplugDevice Duration_String).

Lemma Unplug_open_fails ctx controller lun w t w1 e w2 :
  answer _ TimeNow w = (t, w1) ->
  answer _ (OpenFile (sysfs controller lun "delete") O_WRONLY 420) w1 = (Fail e, w2) ->
  returns (UnplugDevice ctx controller lun) w
    [Obs (SpanStart ctx unplug_span);
     Obs (SpanAttrs unplug_span (int64 controller) (int64 lun));
     Sys TimeNow t;
     Sys (OpenFile (sysfs controller lun "delete") O_WRONLY 420) (Fail e);
     Obs (SpanStatus unplug_span (if IsNotExist (Some e) then None else Some e));
     Obs (SpanEnd unplug_span)]
    w2 (if IsNotExist (Some e) then None else Some e).
Proof.
  intros Ht Ho. unfold scsi.UnplugDevice.
  apply StartSpan_then. cbv beta iota.
  apply (spanned_then _ answer unplug_span (fun r => r) _ w
           [_; _; _]).
  apply emit_then. cbv zeta. eapply sys_then; [eassumption|].
  rewrite deletePath_eq. eapply sys_then; [eassumption|]. cbv beta iota.
  destruct (IsNotExist (Some e)); apply returns_Ret.
Qed.

Section Opened.

Variables (ctx : Context) (controller lun : uint8).
Variables (w w1 w2 w3 w4 w5 : W) (t t' : Time) (f : File) (d : Duration)
  (n : Z) (werr : error).
Hypothesis Hnow : answer _ TimeNow w = (t, w1).
Hypothesis Hopen :
  answer _ (OpenFile (sysfs controller lun "delete") O_WRONLY 420) w1 = (Ok f, w2).
Hypothesis Hsince : answer _ (TimeSince t) w2 = (d, w3).
Hypothesis Hnow' : answer _ TimeNow w3 = (t', w4).
Hypothesis Hwrite : answer _ (FileWrite f ("1" ++ newline)%string) w4 = ((n, werr), w5).

Lemma Unplug_opened (rest : trace) (w6 w7 : W) cerr (res : error) :
  returns
    (match werr with
     | Some _ => Ret werr
     | None =>
         d <- sys (TimeSince t');;
         err <- sys (WriteFile "/dev/kmsg"
                       ("Time for scsi unplug: " ++ Duration_String d)%string 420);;
         match err with
         | Some _ => Ret err
         | None =>
             d <- sys (TimeSince t');;
             emit (LogDebug ctx "Time3" (VDuration d)
                     "Time for writing to scsi device file");;
             Ret None
         end
     end) w5 rest w6 res ->
  answer _ (FileClose f) w6 = (cerr, w7) ->
  returns (UnplugDevice ctx controller lun) w
    (unplug_opened ctx controller lun t f d t' (n, werr) ++ rest ++
     [Sys (FileClose f) cerr; Obs (SpanStatus unplug_span res);
      Obs (SpanEnd unplug_span)])
    w7 res.
Proof.
  intros Hrest Hclose. unfold scsi.UnplugDevice.
  eapply returns_eq.
  - apply StartSpan_then. cbv beta iota.
    apply (spanned_then _ answer unplug_span (fun r => r)).
    apply emit_then. cbv zeta. eapply sys_then; [exact Hnow|].
    rewrite deletePath_eq. eapply sys_then; [exact Hopen|]. cbv beta iota.
    eapply sys_then; [exact Hsince|]. apply emit_then.
    eapply defer_then.
    + eapply sys_then; [exact Hnow'|]. eapply sys_then; [exact Hwrite|].
      cbv beta iota. exact Hrest.
    + eapply sys_then; [exact Hclose|]. apply returns_Ret.
  - unfold unplug_opened. simpl. rewrite <- app_assoc. reflexivity.
Qed.

End Opened.

End Unplug.

Lemma Unplug_gone {W} (answer : forall T : Type, sysE T -> W -> T * W)
  Duration_String ctx controller lun w :
  gone answer controller lun w ->
  exists tr,
    returns answer (scsi.UnplugDevice Duration_String ctx controller lun) w tr
      (tried answer controller lun w) None /\
    existsb is_write tr = false.
Proof.
  intros (e & He & Hne). unfold tried.
  destruct (answer _ TimeNow w) as [t w1] eqn:Hnow. cbn [fst snd] in *.
  destruct (answer _ (open_delete controller lun) w1) as [r w2] eqn:Hopen.
  cbn [fst snd] in *. subst r.
  pose proof (Unplug_open_fails _ answer Duration_String ctx _ _ _ _ _ _ _ Hnow Hopen) as H.
  rewrite Hne in H. eexists. split; [exact H | reflexivity].
Qed.

(** C8: when the removal-control file of the address does not exist,
    [UnplugDevice] returns no error and attempts no write; and as long as
    the file stays gone, any number of calls in succession return no error
    each and write nothing. *)
Theorem UnplugDevice_gone_is_success {W} (answer : forall T : Type, sysE T -> W -> T * W)
  Duration_String ctx controller lun (n : nat) (w : W) :
  (forall i, i < n -> gone answer controller lun (Nat.iter i (tried answer controller lun) w)) ->
  exists tr,
    returns answer
      (successive n (scsi.UnplugDevice Duration_String ctx controller lun)) w tr
      (Nat.iter n (tried answer controller lun) w) (repeat None n) /\
    existsb is_write tr = false.
Proof.
  revert w. induction n as [|n IH]; intros w Hgone.
  - exists []. split; [apply returns_Ret | reflexivity].
  - assert (H0 : gone answer controller lun w) by (apply (Hgone 0); lia).
    destruct (Unplug_gone answer Duration_String ctx controller lun w H0) as (tr1 & Hr1 & Hw1).
    destruct (IH (tried answer controller lun w)) as (tr2 & Hr2 & Hw2).
    { intros i Hi. specialize (Hgone (S i) ltac:(lia)).
      now rewrite <- Nat.iter_succ_r. }
    exists (tr1 ++ tr2). split.
    + rewrite Nat.iter_succ_r. simpl successive.
      eapply returns_bind; [exact Hr1|].
      rewrite <- (app_nil_r tr2).
      eapply returns_bind; [exact Hr2 | apply returns_Ret].
    + rewrite existsb_app, Hw1, Hw2. reflexivity.
Qed.

(** C10: the calls [UnplugDevice] makes, the state it leaves and its result
    are the same for every context it is given, and no call asks a
    cancellation source anything: a context whose source has fired gets
    the result of one whose source has not. *)
Theorem UnplugDevice_ignores_context {W} (answer : forall T : Type, sysE T -> W -> T * W)
  Duration_String controller lun (w : W) :
  exists calls w' res, forall ctx, exists tr,
    returns answer (scsi.UnplugDevice Duration_String ctx controller lun) w tr w' res /\
    filter is_Sys tr = calls /\ existsb is_ctx tr = false.
Proof.
  destruct (answer _ TimeNow w) as [t w1] eqn:Hnow.
  destruct (answer _ (OpenFile (sysfs controller lun "delete") O_WRONLY 420) w1)
    as [[f|e] w2] eqn:Hopen.
  2:{ do 3 eexists. intros ctx. eexists. split; [|split].
      - eapply (Unplug_open_fails _ answer Duration_String ctx); eassumption.
      - simpl. reflexivity.
      - reflexivity. }
  destruct (answer _ (TimeSince t) w2) as [d w3] eqn:Hsince.
  destruct (answer _ TimeNow w3) as [t' w4] eqn:Hnow'.
  destruct (answer _ (FileWrite f ("1" ++ newline)%string) w4) as [[n werr] w5] eqn:Hwrite.
  destruct werr as [e|].
  { destruct (answer _ (FileClose f) w5) as [cerr w6] eqn:Hclose.
    do 3 eexists. intros ctx. eexists. split; [|split].
    - eapply (Unplug_opened _ answer Duration_String ctx); try eassumption. apply returns_Ret.
    - unfold unplug_opened; simpl; reflexivity.
    - reflexivity. }
  destruct (answer _ (TimeSince t') w5) as [d2 w6] eqn:Hsince2.
  destruct (answer _ (WriteFile "/dev/kmsg"
              ("Time for scsi unplug: " ++ Duration_String d2)%string 420) w6)
    as [kerr w7] eqn:Hkmsg.
  destruct kerr as [e|].
  { destruct (answer _ (FileClose f) w7) as [cerr w8] eqn:Hclose.
    do 3 eexists. intros ctx. eexists. split; [|split].
    - eapply (Unplug_opened _ answer Duration_String ctx); try eassumption.
      eapply sys_then; [exact Hsince2|]. eapply sys_then; [exact Hkmsg|].
      apply returns_Ret.
    - unfold unplug_opened; simpl; reflexivity.
    - reflexivity. }
  destruct (answer _ (TimeSince t') w7) as [d3 w8] eqn:Hsince3.
  destruct (answer _ (FileClose f) w8) as [cerr w9] eqn:Hclose.
  do 3 eexists. intros ctx. eexists. split; [|split].
  - eapply (Unplug_opened _ answer Duration_String ctx); try eassumption.
    eapply sys_then; [exact Hsince2|]. eapply sys_then; [exact Hkmsg|].
    cbv beta iota.
    eapply sys_then; [exact Hsince3|]. apply emit_then. apply returns_Ret.
  - unfold unplug_opened; simpl; reflexivity.
  - reflexivity.
Qed.


(** C4, as the code has it: once the control file is open, the trigger is
    written once.  If that write fails, its error is the result and nothing
    is written again.  If it succeeds, the time it took is written to
    [/dev/kmsg]: the error of that second write, if any, is the result, and
    only when both writes succeed is the result no error.  The file is
    closed on every path. *)
Theorem UnplugDevice_write {W} (answer : forall T : Type, sysE T -> W -> T * W)
  Duration_String ctx controller lun (w w1 w2 w3 w4 w5 : W)
  (t t' : Time) (f : File) (d : Duration) (n : Z) (werr : error) :
  answer _ TimeNow w = (t, w1) ->
  answer _ (OpenFile (sysfs controller lun "delete") O_WRONLY 420) w1 = (Ok f, w2) ->
  answer _ (TimeSince t) w2 = (d, w3) ->
  answer _ TimeNow w3 = (t', w4) ->
  answer _ (FileWrite f ("1" ++ newline)%string) w4 = ((n, werr), w5) ->
  match werr with
  | Some e =>
      forall cerr w6,
        answer _ (FileClose f) w5 = (cerr, w6) ->
        returns answer (scsi.UnplugDevice Duration_String ctx controller lun) w
          (unplug_opened ctx controller lun t f d t' (n, Some e) ++
           [Sys (FileClose f) cerr;
            Obs (SpanStatus unplug_span (Some e)); Obs (SpanEnd unplug_span)])
          w6 (Some e)
  | None =>
      forall d2 w6 kerr w7,
        answer _ (TimeSince t') w5 = (d2, w6) ->
        answer _ (WriteFile "/dev/kmsg"
                    ("Time for scsi unplug: " ++ Duration_String d2)%string 420) w6
          = (kerr, w7) ->
        match kerr with
        | Some e =>
            forall cerr w8,
              answer _ (FileClose f) w7 = (cerr, w8) ->
              returns answer (scsi.UnplugDevice Duration_String ctx controller lun) w
                (unplug_opened ctx controller lun t f d t' (n, None) ++
                 [Sys (TimeSince t') d2;
                  Sys (WriteFile "/dev/kmsg"
                         ("Time for scsi unplug: " ++ Duration_String d2)%string 420)
                    (Some e);
                  Sys (FileClose f) cerr;
                  Obs (SpanStatus unplug_span (Some e)); Obs (SpanEnd unplug_span)])
                w8 (Some e)
        | None =>
            forall d3 w8 cerr w9,
              answer _ (TimeSince t') w7 = (d3, w8) ->
              answer _ (FileClose f) w8 = (cerr, w9) ->
              returns answer (scsi.UnplugDevice Duration_String ctx controller lun) w
                (unplug_opened ctx controller lun t f d t' (n, None) ++
                 [Sys (TimeSince t') d2;
                  Sys (WriteFile "/dev/kmsg"
                         ("Time for scsi unplug: " ++ Duration_String d2)%string 420)
                    None;
                  Sys (TimeSince t') d3;
                  Obs (LogDebug ctx "Time3" (VDuration d3)
                         "Time for writing to scsi device file");
                  Sys (FileClose f) cerr;
                  Obs (SpanStatus unplug_span None); Obs (SpanEnd unplug_span)])
                w9 None
        end
  end.
Proof.
  intros Hnow Hopen Hsince Hnow' Hwrite.
  destruct werr as [e|].
  - intros cerr w6 Hclose.
    apply (Unplug_opened _ answer Duration_String ctx controller lun
             w w1 w2 w3 w4 w5 t t' f d n (Some e) Hnow Hopen Hsince Hnow' Hwrite
             [] w5 w6 cerr (Some e)); [apply returns_Ret | exact Hclose].
  - intros d2 w6 kerr w7 Hsince2 Hkmsg. destruct kerr as [e|].
    + intros cerr w8 Hclose.
      apply (Unplug_opened _ answer Duration_String ctx controller lun
               w w1 w2 w3 w4 w5 t t' f d n None Hnow Hopen Hsince Hnow' Hwrite
               [_; _] w7 w8 cerr (Some e)); [|exact Hclose].
      eapply sys_then; [exact Hsince2|]. eapply sys_then; [exact Hkmsg|].
      apply returns_Ret.
    + intros d3 w8 cerr w9 Hsince3 Hclose.
      apply (Unplug_opened _ answer Duration_String ctx controller lun
               w w1 w2 w3 w4 w5 t t' f d n None Hnow Hopen Hsince Hnow' Hwrite
               [_; _; _; _] w8 w9 cerr None); [|exact Hclose].
      eapply sys_then; [exact Hsince2|]. eapply sys_then; [exact Hkmsg|].
      cbv beta iota.
      eapply sys_then; [exact Hsince3|]. apply emit_then. apply returns_Ret.
Qed.

(** ** Loops that wait *)

Section Waiting.

Variable W : Type.
Variable answer : forall T : Type, sysE T -> W -> T * W.
Local Abbreviation returns := (returns answer).
Local Abbreviation waits := (waits answer).

Variables (T B : Type) (q : sysE T) (again : T -> bool) (c : nat).
Variable body : unit -> itree scsiE (unit + B).

(** The body of the loop takes a turn that waits whenever the world does. *)
Hypothesis body_waits : forall w a w1 w2 w3 u,
  answer _ q w = (a, w1) -> again a = true ->
  answer _ (CtxDone c) w1 = (false, w2) ->
  answer _ (TimeSleep (10 * Millisecond)%Z) w2 = (u, w3) ->
  returns (body tt) w (waited q a c) w3 (inl tt).

Lemma waits_one w a w1 w2 w3 u :
  answer _ q w = (a, w1) -> again a = true ->
  answer _ (CtxDone c) w1 = (false, w2) ->
  answer _ (TimeSleep (10 * Millisecond)%Z) w2 = (u, w3) ->
  waits q again c 1 w = Some (waited q a c, w3).
Proof.
  intros Ha Hg Hd Hs. cbn -[Z.mul]. rewrite Ha, Hg, Hd, Hs. reflexivity.
Qed.

Lemma waits_S k w :
  waits q again c (S k) w =
  match waits q again c 1 w with
  | Some (tr1, w1) =>
      match waits q again c k w1 with
      | Some (tr, w') => Some (tr1 ++ tr, w')
      | None => None
      end
  | None => None
  end.
Proof.
  cbn -[Z.mul].
  destruct (answer _ q w) as [a w1]. destruct (again a); [|reflexivity].
  destruct (answer _ (CtxDone c) w1) as [[|] w2]; [reflexivity|].
  destruct (answer _ (TimeSleep (10 * Millisecond)%Z) w2) as [u w3].
  destruct (waits q again c k w3) as [[tr w']|]; reflexivity.
Qed.

Lemma waits_add j : forall k w tr1 w1 tr2 w2,
  waits q again c j w = Some (tr1, w1) ->
  waits q again c k w1 = Some (tr2, w2) ->
  waits q again c (j + k) w = Some (tr1 ++ tr2, w2).
Proof.
  induction j as [|j IH]; intros k w tr1 w1 tr2 w2 H1 H2.
  - injection H1 as <- <-. exact H2.
  - change (S j + k) with (S (j + k)). rewrite waits_S in H1 |- *.
    destruct (waits q again c 1 w) as [[tr0 w0]|]; [|discriminate].
    destruct (waits q again c j w0) as [[tr w']|] eqn:E; [|discriminate].
    injection H1 as <- <-.
    rewrite (IH _ _ _ _ _ _ E H2), app_assoc. reflexivity.
Qed.

(** After [k] turns that wait, one more. *)
Lemma waits_snoc k w tr w1 a w2 w3 w4 u :
  waits q again c k w = Some (tr, w1) ->
  answer _ q w1 = (a, w2) -> again a = true ->
  answer _ (CtxDone c) w2 = (false, w3) ->
  answer _ (TimeSleep (10 * Millisecond)%Z) w3 = (u, w4) ->
  waits q again c (S k) w = Some (tr ++ waited q a c, w4).
Proof.
  intros Hk Ha Hg Hd Hs. replace (S k) with (k + 1) by lia.
  eapply waits_add; [exact Hk|]. eapply waits_one; eassumption.
Qed.

(** The loop after [k] turns that wait is the loop. *)
Lemma iter_waits k : forall w tr w1 tr2 w2 r,
  waits q again c k w = Some (tr, w1) ->
  returns (ITree.iter body tt) w1 tr2 w2 r ->
  returns (ITree.iter body tt) w (tr ++ tr2) w2 r.
Proof.
  induction k as [|k IH]; intros w tr w1 tr2 w2 r Hk Hr.
  - injection Hk as <- <-. exact Hr.
  - cbn -[Z.mul] in Hk.
    destruct (answer _ q w) as [a wa] eqn:Ha.
    destruct (again a) eqn:Hg; [|discriminate].
    destruct (answer _ (CtxDone c) wa) as [[|] wd] eqn:Hd; [discriminate|].
    destruct (answer _ (TimeSleep (10 * Millisecond)%Z) wd) as [u ws] eqn:Hs.
    destruct (waits q again c k ws) as [[tr' w']|] eqn:E; [|discriminate].
    injection Hk as <- <-.
    change (returns (ITree.iter body tt) w (waited q a c ++ (tr' ++ tr2)) w2 r).
    eapply returns_iter_again.
    + eapply body_waits; eassumption.
    + eapply IH; eassumption.
Qed.

(** A world that always calls for one more turn keeps the loop turning. *)
Lemma iter_waits_forever (I : W -> Prop) :
  (forall w, I w -> exists tr w', waits q again c 1 w = Some (tr, w') /\ I w') ->
  forall w, I w -> diverges answer (ITree.iter body tt) w.
Proof.
  intros Hinv w Hw.
  apply (diverges_iter _ answer body (fun _ w => I w)); [|exact Hw].
  clear w Hw. intros [] w Hw.
  destruct (Hinv w Hw) as (tr & w' & H1 & Hw').
  cbn -[Z.mul] in H1.
  destruct (answer _ q w) as [a wa] eqn:Ha.
  destruct (again a) eqn:Hg; [|discriminate].
  destruct (answer _ (CtxDone c) wa) as [[|] wd] eqn:Hd; [discriminate|].
  destruct (answer _ (TimeSleep (10 * Millisecond)%Z) wd) as [u ws] eqn:Hs.
  injection H1 as <- <-.
  exists (waited q a c), ws, tt. split; [|exact Hw'].
  eapply body_waits; eassumption.
Qed.

Lemma waits_S_inv k w tr w' :
  waits q again c (S k) w = Some (tr, w') ->
  exists a w1 w2 u w3 trk,
    answer _ q w = (a, w1) /\ again a = true /\
    answer _ (CtxDone c) w1 = (false, w2) /\
    answer _ (TimeSleep (10 * Millisecond)%Z) w2 = (u, w3) /\
    waits q again c k w3 = Some (trk, w') /\ tr = waited q a c ++ trk.
Proof.
  cbn -[Z.mul]. intros H.
  destruct (answer _ q w) as [a w1] eqn:Ha.
  destruct (again a) eqn:Hg; [|discriminate].
  destruct (answer _ (CtxDone c) w1) as [[|] w2] eqn:Hd; [discriminate|].
  destruct (answer _ (TimeSleep (10 * Millisecond)%Z) w2) as [[] w3] eqn:Hs.
  destruct (waits q again c k w3) as [[trk wk]|] eqn:E; [|discriminate].
  injection H as <- <-. exists a, w1, w2, tt, w3, trk. repeat split; assumption.
Qed.

(** A run of the loop that returns after the world has waited [k] turns
    went through these turns. *)
Lemma iter_waited k : forall w tr w1 tr' w' r,
  waits q again c k w = Some (tr, w1) ->
  returns (ITree.iter body tt) w tr' w' r ->
  exists tr2, tr' = tr ++ tr2 /\ returns (ITree.iter body tt) w1 tr2 w' r.
Proof.
  induction k as [|k IH]; intros w tr w1 tr' w' r Hk Hr.
  - injection Hk as <- <-. now exists tr'.
  - apply waits_S_inv in Hk.
    destruct Hk as (a & wa & wd & u & ws & trk & Ha & Hg & Hd & Hs & E & ->).
    apply returns_iter_inv in Hr.
    destruct Hr as (tr1 & w1' & lr & tr2 & -> & H1 & H2).
    pose proof (body_waits _ _ _ _ _ _ Ha Hg Hd Hs) as Hw.
    destruct (returns_det _ _ _ _ _ _ _ _ _ _ H1 Hw) as (-> & -> & ->).
    destruct (IH _ _ _ _ _ _ E H2) as (tr3 & -> & H3).
    exists tr3. split; [now rewrite app_assoc | exact H3].
Qed.

End Waiting.

(** ** [ControllerLunToName] *)

Section Resolver.

Variable W : Type.
Variable answer : forall T : Type, sysE T -> W -> T * W.
Local Abbreviation returns := (returns answer).

Section ReadBlock.

Variables (ctx : Context) (path : string).

Lemma readBlock_waits w r w1 w2 w3 u :
  answer _ (ReadDir path) w = (r, w1) -> transient r = true ->
  answer _ (CtxDone (cancel ctx)) w1 = (false, w2) ->
  answer _ (TimeSleep (10 * Millisecond)%Z) w2 = (u, w3) ->
  returns (scsi.readBlock ctx path tt) w (waited (ReadDir path) r (cancel ctx)) w3 (inl tt).
Proof.
  intros Hr Ht Hd Hs. unfold scsi.readBlock, waited, Done.
  eapply sys_then; [exact Hr|].
  destruct r as [[|fi rest]|e]; try discriminate; cbn [transient] in Ht;
    cbv beta iota; try rewrite Ht; cbv beta iota;
    (eapply sys_then; [exact Hd|]); cbv iota; destruct u;
    (eapply sys_then; [exact Hs|]); apply returns_Ret.
Qed.

Lemma readBlock_done w r w1 w2 e w3 :
  answer _ (ReadDir path) w = (r, w1) -> transient r = true ->
  answer _ (CtxDone (cancel ctx)) w1 = (true, w2) ->
  answer _ (CtxErr (cancel ctx)) w2 = (e, w3) ->
  returns (scsi.readBlock ctx path tt) w
    [Sys (ReadDir path) r; Sys (CtxDone (cancel ctx)) true; Sys (CtxErr (cancel ctx)) e]
    w3 (inr (inl e)).
Proof.
  intros Hr Ht Hd He. unfold scsi.readBlock, Done, CtxErrOf.
  eapply sys_then; [exact Hr|].
  destruct r as [[|fi rest]|e0]; try discriminate; cbn [transient] in Ht;
    cbv beta iota; try rewrite Ht; cbv beta iota;
    (eapply sys_then; [exact Hd|]); cbv iota;
    (eapply sys_then; [exact He|]); apply returns_Ret.
Qed.

Lemma readBlock_fails w e w1 :
  answer _ (ReadDir path) w = (Fail e, w1) -> IsNotExist (Some e) = false ->
  returns (scsi.readBlock ctx path tt) w [Sys (ReadDir path) (Fail e)] w1
    (inr (inl (Some e))).
Proof.
  intros Hr Hn. unfold scsi.readBlock.
  eapply sys_then; [exact Hr|]. cbv beta iota. rewrite Hn. apply returns_Ret.
Qed.

Lemma readBlock_finds w first rest w1 :
  answer _ (ReadDir path) w = (Ok (first :: rest), w1) ->
  returns (scsi.readBlock ctx path tt) w [Sys (ReadDir path) (Ok (first :: rest))] w1
    (inr (inr (first :: rest))).
Proof.
  intros Hr. unfold scsi.readBlock.
  eapply sys_then; [exact Hr|]. apply returns_Ret.
Qed.

(** Every turn starts with a read of the listing. *)
Lemma readBlock_reads w tr w' x :
  returns (scsi.readBlock ctx path tt) w tr w' x ->
  exists r rest, tr = Sys (ReadDir path) r :: rest.
Proof.
  intros H. unfold scsi.readBlock in H.
  destruct (answer _ (ReadDir path) w) as [r w1] eqn:Hr.
  apply (returns_sys_bind _ answer _ _ _ _ _ _ _ _ Hr) in H.
  destruct H as (rest & -> & _). now exists r, rest.
Qed.

End ReadBlock.

Section Resolve.

Variables (ctx : Context) (controller lun : uint8).

Let ctx' : Context := in_span ctx resolve_span.
Let path : string := sysfs controller lun "block".
Let id : string := scsi.scsiID controller lun.

(** [ControllerLunToName] is its loop, between the opening and the closing
    of its span. *)
Lemma ControllerLunToName_iff w tr w' res :
  returns (scsi.ControllerLunToName ctx controller lun) w tr w' res <->
  exists trl r,
    returns (ITree.iter (scsi.readBlock ctx' path) tt) w trl w' r /\
    res = snd (resolved ctx' id r) /\
    tr = resolve_start ctx controller lun ++ trl ++ fst (resolved ctx' id r)
         ++ resolve_end (snd res).
Proof.
  unfold scsi.ControllerLunToName. rewrite returns_StartSpan_bind.
  cbv beta iota. fold resolve_span. fold ctx'. split.
  - intros (tr1 & -> & H).
    apply (returns_spanned _ answer resolve_span snd) in H.
    destruct H as (tr2 & -> & H).
    apply returns_emit_bind in H. destruct H as (tr3 & -> & H).
    cbv zeta in H. rewrite blockPath_eq in H. fold path id in H.
    apply returns_bind_inv in H. destruct H as (trl & w1 & r & tr4 & -> & Hl & H).
    exists trl, r.
    assert (Hfin : tr4 = fst (resolved ctx' id r) /\ w' = w1 /\ res = snd (resolved ctx' id r)).
    { destruct r as [err | [|first [|second rest]]]; cbn [resolved fst snd].
      - now apply returns_Ret_inv in H.
      - now apply returns_Ret_inv in H.
      - apply returns_emit_bind in H. destruct H as (tr5 & -> & H).
        apply returns_Ret_inv in H. destruct H as (-> & -> & ->). auto.
      - now apply returns_Ret_inv in H. }
    destruct Hfin as (-> & -> & ->). repeat split; [exact Hl|].
    unfold resolve_start, resolve_end. cbn [app]. now rewrite <- !app_assoc.
  - intros (trl & r & Hl & -> & ->).
    exists (Obs (SpanAttrs resolve_span (int64 controller) (int64 lun))
            :: trl ++ fst (resolved ctx' id r) ++ resolve_end (snd (snd (resolved ctx' id r)))).
    split; [reflexivity|].
    eapply returns_eq.
    + apply (spanned_then _ answer resolve_span snd). apply emit_then.
      cbv zeta. rewrite blockPath_eq. fold path id.
      eapply returns_bind; [exact Hl|].
      instantiate (1 := fst (resolved ctx' id r)).
      destruct r as [err | [|first [|second rest]]]; cbn [resolved fst snd];
        try apply returns_Ret.
      apply emit_then. apply returns_Ret.
    + unfold resolve_end. cbn [app]. now rewrite <- !app_assoc.
Qed.

End Resolve.

End Resolver.

Section ResolverRuns.

Variable W : Type.
Variable answer : forall T : Type, sysE T -> W -> T * W.
Local Abbreviation returns := (returns answer).
Variables (ctx : Context) (controller lun : uint8).

Local Abbreviation path := (sysfs controller lun "block").
Local Abbreviation ctx' := (in_span ctx resolve_span).
Local Abbreviation loop := (ITree.iter (scsi.readBlock ctx' path) tt).

(** The loop after [k] turns that wait. *)
Lemma resolve_loop_waits k w tr w1 tr2 w2 r :
  waits answer (ReadDir path) transient (cancel ctx) k w = Some (tr, w1) ->
  returns loop w1 tr2 w2 r -> returns loop w (tr ++ tr2) w2 r.
Proof.
  apply (iter_waits _ answer _ _ (ReadDir path) transient (cancel ctx)
           (scsi.readBlock ctx' path)).
  intros. eapply (readBlock_waits _ answer ctx' path); eassumption.
Qed.

(** [k] turns that wait and a turn that leaves the loop make a call. *)
Lemma resolve_after_waits k w tr w1 last w2 r :
  waits answer (ReadDir path) transient (cancel ctx) k w = Some (tr, w1) ->
  returns (scsi.readBlock ctx' path tt) w1 last w2 (inr r) ->
  returns (scsi.ControllerLunToName ctx controller lun) w
    (resolve_start ctx controller lun ++ tr ++ last
     ++ fst (resolved ctx' (scsi.scsiID controller lun) r)
     ++ resolve_end (snd (snd (resolved ctx' (scsi.scsiID controller lun) r))))
    w2 (snd (resolved ctx' (scsi.scsiID controller lun) r)).
Proof.
  intros Hk Hlast. apply ControllerLunToName_iff.
  exists (tr ++ last), r. split; [|split].
  - eapply resolve_loop_waits; [exact Hk|]. now apply returns_iter_stop.
  - reflexivity.
  - now rewrite <- !app_assoc.
Qed.

(** A call that returns after the world has waited [k] turns went through
    these turns. *)
Lemma resolve_loop_waited k w tr w1 tr' w' r :
  waits answer (ReadDir path) transient (cancel ctx) k w = Some (tr, w1) ->
  returns loop w tr' w' r ->
  exists tr2, tr' = tr ++ tr2 /\ returns loop w1 tr2 w' r.
Proof.
  apply (iter_waited _ answer _ _ (ReadDir path) transient (cancel ctx)
           (scsi.readBlock ctx' path)).
  intros. eapply (readBlock_waits _ answer ctx' path); eassumption.
Qed.

End ResolverRuns.

(** C2: when the first read of the listing of the address holds exactly one
    entry, a well-formed name, [ControllerLunToName] returns [/dev/] followed
    by that name and no error; the read is the only call it makes: no sleep,
    no second read. *)
Theorem ControllerLunToName_single {W} (answer : forall T : Type, sysE T -> W -> T * W)
  ctx controller lun (w w1 : W) (name : string) :
  answer _ (ReadDir (sysfs controller lun "block")) w = (Ok [mkFileInfo name], w1) ->
  filepath.entry_name name = true ->
  returns answer (scsi.ControllerLunToName ctx controller lun) w
    (resolve_start ctx controller lun ++
     [Sys (ReadDir (sysfs controller lun "block")) (Ok [mkFileInfo name]);
      Obs (LogDebug (in_span ctx resolve_span) "devicePath"
             (VString ("/dev/" ++ name)%string) "found device path")] ++
     resolve_end None)
    w1 (("/dev/" ++ name)%string, None).
Proof.
  intros Hread Hname.
  pose proof (resolve_after_waits _ answer ctx controller lun 0 w [] w _ w1
                (inr [mkFileInfo name]) eq_refl
                (readBlock_finds _ answer _ _ _ _ _ _ Hread)) as H.
  cbn [resolved fst snd Name] in H. rewrite (Join_dev_entry name Hname) in H.
  exact H.
Qed.

(** C3: when a read of the listing, the first or one after any number of
    turns that waited, holds two entries or more, [ControllerLunToName]
    returns the ambiguous-device error; that read is its last call: no
    sleep and no read follow it. *)
Theorem ControllerLunToName_ambiguous {W} (answer : forall T : Type, sysE T -> W -> T * W)
  ctx controller lun (k : nat) (w w1 w2 : W) (tr : trace)
  (first second : FileInfo) (rest : list FileInfo) :
  waits answer (ReadDir (sysfs controller lun "block")) transient (cancel ctx) k w
    = Some (tr, w1) ->
  answer _ (ReadDir (sysfs controller lun "block")) w1
    = (Ok (first :: second :: rest), w2) ->
  returns answer (scsi.ControllerLunToName ctx controller lun) w
    (resolve_start ctx controller lun ++ tr ++
     [Sys (ReadDir (sysfs controller lun "block")) (Ok (first :: second :: rest))] ++
     resolve_end (Some (scsi.errAmbiguous (scsi.scsiID controller lun))))
    w2 (EmptyString, Some (scsi.errAmbiguous (scsi.scsiID controller lun))).
Proof.
  intros Hk Hread.
  exact (resolve_after_waits _ answer ctx controller lun k w tr w1 _ w2
           (inr (first :: second :: rest)) Hk
           (readBlock_finds _ answer _ _ _ _ _ _ Hread)).
Qed.

(** C9: when a read of the listing, the first or one after any number of
    turns that waited, fails with an error for which [os.IsNotExist] does
    not hold, [ControllerLunToName] returns that very error; that read is
    its last call: no sleep and no read follow it. *)
Theorem ControllerLunToName_read_error {W} (answer : forall T : Type, sysE T -> W -> T * W)
  ctx controller lun (k : nat) (w w1 w2 : W) (tr : trace) (e : Err) :
  waits answer (ReadDir (sysfs controller lun "block")) transient (cancel ctx) k w
    = Some (tr, w1) ->
  answer _ (ReadDir (sysfs controller lun "block")) w1 = (Fail e, w2) ->
  IsNotExist (Some e) = false ->
  returns answer (scsi.ControllerLunToName ctx controller lun) w
    (resolve_start ctx controller lun ++ tr ++
     [Sys (ReadDir (sysfs controller lun "block")) (Fail e)] ++
     resolve_end (Some e))
    w2 (EmptyString, Some e).
Proof.
  intros Hk Hread Hne.
  exact (resolve_after_waits _ answer ctx controller lun k w tr w1 _ w2
           (inl (Some e)) Hk
           (readBlock_fails _ answer _ _ _ _ _ Hread Hne)).
Qed.

Lemma never_returns_diverges {W R} (answer : forall T : Type, sysE T -> W -> T * W)
  (t : itree scsiE R) w :
  (forall tr w' r, ~ returns answer t w tr w' r) -> diverges answer t w.
Proof.
  intros H n. destruct (run answer n t w) as [[[tr w'] r]|] eqn:E; [|reflexivity].
  exfalso. apply (H tr w' r). now exists n.
Qed.

(** [ControllerLunToName] waits for ever in a world that has it wait for
    ever: [I] holds of states from which one more turn waits and leads to a
    state of [I]. *)
Lemma ControllerLunToName_forever {W} (answer : forall T : Type, sysE T -> W -> T * W)
  ctx controller lun (I : W -> Prop) :
  (forall w, I w -> exists t w',
      waits answer (ReadDir (sysfs controller lun "block")) transient (cancel ctx) 1 w
        = Some (t, w') /\ I w') ->
  forall k w tr w1,
    waits answer (ReadDir (sysfs controller lun "block")) transient (cancel ctx) k w
      = Some (tr, w1) ->
    I w1 -> diverges answer (scsi.ControllerLunToName ctx controller lun) w.
Proof.
  intros Hinv k w tr w1 Hk Hw1. apply never_returns_diverges.
  intros tr' w' res H. apply ControllerLunToName_iff in H.
  destruct H as (trl & r & Hl & _ & _).
  destruct (resolve_loop_waited _ answer ctx controller lun k _ _ _ _ _ _ Hk Hl)
    as (tr2 & _ & Hl2).
  revert Hl2. apply diverges_not_returns.
  apply (iter_waits_forever _ answer _ _
           (ReadDir (sysfs controller lun "block")) transient (cancel ctx)
           (scsi.readBlock (in_span ctx resolve_span) (sysfs controller lun "block"))
           ltac:(intros; eapply (readBlock_waits _ answer (in_span ctx resolve_span));
                 eassumption)
           I Hinv w1 Hw1).
Qed.

(** C5: when a read of the listing, the first or one after any number of
    turns that waited, finds the path absent or the listing empty,
    [ControllerLunToName] asks the cancellation source of its context next.
    If the source is done, the error of the source is the result, as it is,
    and nothing sleeps.  If not, the call sleeps 10 ms and reads the listing
    again: the world has waited one more turn.  Nothing else ends the
    waiting: in a world that has the call wait turn after turn, the call
    never returns. *)
Theorem ControllerLunToName_waits {W} (answer : forall T : Type, sysE T -> W -> T * W)
  ctx controller lun (k : nat) (w w1 w2 : W) (tr : trace)
  (r : result (list FileInfo)) :
  waits answer (ReadDir (sysfs controller lun "block")) transient (cancel ctx) k w
    = Some (tr, w1) ->
  answer _ (ReadDir (sysfs controller lun "block")) w1 = (r, w2) ->
  transient r = true ->
  (forall w3 e w4,
      answer _ (CtxDone (cancel ctx)) w2 = (true, w3) ->
      answer _ (CtxErr (cancel ctx)) w3 = (e, w4) ->
      returns answer (scsi.ControllerLunToName ctx controller lun) w
        (resolve_start ctx controller lun ++ tr ++
         [Sys (ReadDir (sysfs controller lun "block")) r;
          Sys (CtxDone (cancel ctx)) true; Sys (CtxErr (cancel ctx)) e] ++
         resolve_end e)
        w4 (EmptyString, e)) /\
  (forall w3 u w4,
      answer _ (CtxDone (cancel ctx)) w2 = (false, w3) ->
      answer _ (TimeSleep (10 * Millisecond)%Z) w3 = (u, w4) ->
      waits answer (ReadDir (sysfs controller lun "block")) transient (cancel ctx) (S k) w
        = Some (tr ++ [Sys (ReadDir (sysfs controller lun "block")) r;
                       Sys (CtxDone (cancel ctx)) false;
                       Sys (TimeSleep (10 * Millisecond)%Z) tt], w4) /\
      forall tr' w' res,
        returns answer (scsi.ControllerLunToName ctx controller lun) w tr' w' res ->
        exists r' rest,
          tr' = resolve_start ctx controller lun ++ tr ++
                [Sys (ReadDir (sysfs controller lun "block")) r;
                 Sys (CtxDone (cancel ctx)) false;
                 Sys (TimeSleep (10 * Millisecond)%Z) tt] ++
                Sys (ReadDir (sysfs controller lun "block")) r' :: rest) /\
  (forall I : W -> Prop,
      (forall v, I v -> exists t v',
          waits answer (ReadDir (sysfs controller lun "block")) transient (cancel ctx) 1 v
            = Some (t, v') /\ I v') ->
      I w1 -> diverges answer (scsi.ControllerLunToName ctx controller lun) w).
Proof.
  intros Hk Hread Ht. split; [|split].
  - intros w3 e w4 Hd He.
    exact (resolve_after_waits _ answer ctx controller lun k w tr w1 _ w4
             (inl e) Hk
             (readBlock_done _ answer _ _ _ _ _ _ _ _ Hread Ht Hd He)).
  - intros w3 u w4 Hd Hs.
    pose proof (waits_snoc _ answer _ _ _ _ k w tr w1 r w2 w3 w4 u Hk Hread Ht Hd Hs) as HS.
    split; [exact HS|].
    intros tr' w' res H. apply ControllerLunToName_iff in H.
    destruct H as (trl & x & Hl & _ & ->).
    destruct (resolve_loop_waited _ answer ctx controller lun (S k) _ _ _ _ _ _ HS Hl)
      as (tr2 & -> & Hl2).
    apply returns_iter_inv in Hl2.
    destruct Hl2 as (tr3 & w5 & lr & tr4 & -> & H1 & _).
    apply readBlock_reads in H1. destruct H1 as (r' & rest & ->).
    exists r'. eexists. unfold waited. rewrite <- !app_assoc. cbn [app]. reflexivity.
  - intros I Hinv Hw1.
    exact (ControllerLunToName_forever answer ctx controller lun I Hinv k w tr w1 Hk Hw1).
Qed.

(** ** [Mount] *)

Section Mounting.

Variable W : Type.
Variable answer : forall T : Type, sysE T -> W -> T * W.
Local Abbreviation returns := (returns answer).

Section MountOnce.

Variables (ctx : Context) (source target : string) (readonly : bool).
Local Abbreviation q := (mount_call source target readonly).
Local Abbreviation once :=
  (scsi.mountOnce ctx source target (scsi.mountFlags readonly) (scsi.mountData readonly)).

Lemma mountOnce_waits w a w1 w2 w3 u :
  answer _ q w = (a, w1) -> not_yet a = true ->
  answer _ (CtxDone (cancel ctx)) w1 = (false, w2) ->
  answer _ (TimeSleep (10 * Millisecond)%Z) w2 = (u, w3) ->
  returns (once tt) w (waited q a (cancel ctx)) w3 (inl tt).
Proof.
  intros Ha Hn Hd Hs. unfold scsi.mountOnce, waited, Done.
  eapply sys_then; [exact Ha|].
  destruct a as [e|]; [|discriminate]. cbn [not_yet] in Hn.
  cbv beta iota. rewrite Hn.
  eapply sys_then; [exact Hd|]. cbv iota. destruct u.
  eapply sys_then; [exact Hs|]. apply returns_Ret.
Qed.

Lemma mountOnce_done w a w1 w2 e w3 :
  answer _ q w = (a, w1) -> not_yet a = true ->
  answer _ (CtxDone (cancel ctx)) w1 = (true, w2) ->
  answer _ (CtxErr (cancel ctx)) w2 = (e, w3) ->
  returns (once tt) w
    [Sys q a; Sys (CtxDone (cancel ctx)) true; Sys (CtxErr (cancel ctx)) e] w3 (inr e).
Proof.
  intros Ha Hn Hd He. unfold scsi.mountOnce, Done, CtxErrOf.
  eapply sys_then; [exact Ha|].
  destruct a as [e0|]; [|discriminate]. cbn [not_yet] in Hn.
  cbv beta iota. rewrite Hn.
  eapply sys_then; [exact Hd|]. cbv iota.
  eapply sys_then; [exact He|]. apply returns_Ret.
Qed.

Lemma mountOnce_ends w a w1 :
  answer _ q w = (a, w1) -> not_yet a = false ->
  returns (once tt) w [Sys q a] w1 (inr a).
Proof.
  intros Ha Hn. unfold scsi.mountOnce.
  eapply sys_then; [exact Ha|].
  destruct a as [e|]; cbn [not_yet] in Hn; cbv beta iota;
    [rewrite Hn|]; apply returns_Ret.
Qed.

(** Every turn starts with a mount call. *)
Lemma mountOnce_mounts w tr w' x :
  returns (once tt) w tr w' x -> exists a rest, tr = Sys q a :: rest.
Proof.
  intros H. unfold scsi.mountOnce in H.
  destruct (answer _ q w) as [a w1] eqn:Ha.
  apply (returns_sys_bind _ answer _ _ _ _ _ _ _ _ Ha) in H.
  destruct H as (rest & -> & _). now exists a, rest.
Qed.

End MountOnce.

Section MountRuns.

Variables (ctx : Context) (controller lun : uint8) (target : string) (readonly : bool).
Local Abbreviation ctx' := (in_span ctx mount_span).

Lemma rollback_iff err w tr w' :
  returns (rollback target err) w tr w' tt <->
  match err with
  | Some _ => exists ra, answer _ (RemoveAll target) w = (ra, w') /\
                         tr = [Sys (RemoveAll target) ra]
  | None => tr = [] /\ w' = w
  end.
Proof.
  unfold rollback. destruct err as [e|].
  - destruct (answer _ (RemoveAll target) w) as [ra w1] eqn:Hr.
    rewrite (returns_sys_bind _ answer _ _ _ _ _ _ _ _ Hr). split.
    + intros (tr' & -> & H). apply returns_Ret_inv in H. destruct H as (-> & -> & _).
      now exists ra.
    + intros (ra' & [= <- <-] & ->). eexists. split; [reflexivity | apply returns_Ret].
  - split.
    + intros H. apply returns_Ret_inv in H. tauto.
    + intros (-> & ->). apply returns_Ret.
Qed.

(** [Mount] is the creation of the target and, if that succeeds, the part
    under the deferred removal and then the removal, between the opening
    and the closing of its span. *)
Lemma Mount_iff w tr w' res :
  returns (scsi.Mount ctx controller lun target readonly) w tr w' res <->
  exists a w1,
    answer _ (MkdirAll target 448) w = (a, w1) /\
    match a with
    | Some _ =>
        res = a /\ w' = w1 /\
        tr = mount_start ctx controller lun ++ [Sys (MkdirAll target 448) a]
             ++ mount_end res
    | None =>
        exists trb w2 tre,
          returns (mounting ctx' controller lun target readonly) w1 trb w2 res /\
          returns (rollback target res) w2 tre w' tt /\
          tr = mount_start ctx controller lun ++ [Sys (MkdirAll target 448) None]
               ++ trb ++ tre ++ mount_end res
    end.
Proof.
  unfold scsi.Mount. rewrite returns_StartSpan_bind.
  cbv beta iota. fold mount_span.
  destruct (answer _ (MkdirAll target 448) w) as [a w1] eqn:Hm. split.
  - intros (tr1 & -> & H).
    apply (returns_spanned _ answer mount_span (fun r => r)) in H.
    destruct H as (tr2 & -> & H).
    apply returns_emit_bind in H. destruct H as (tr3 & -> & H).
    apply (returns_sys_bind _ answer _ _ _ _ _ _ _ _ Hm) in H.
    destruct H as (tr4 & -> & H).
    exists a, w1. split; [reflexivity|]. destruct a as [e|].
    + apply returns_Ret_inv in H. destruct H as (-> & -> & ->). auto.
    + apply returns_defer in H. destruct H as (trb & w2 & tre & -> & Hb & Hr).
      exists trb, w2, tre. repeat split; [exact Hb | exact Hr |].
      unfold mount_start, mount_end. cbn [app]. now rewrite <- !app_assoc.
  - intros (a' & w1' & [= <- <-] & H). destruct a as [e|].
    + destruct H as (-> & -> & ->). eexists. split; [reflexivity|].
      eapply returns_eq.
      * apply (spanned_then _ answer mount_span (fun r => r)). apply emit_then.
        eapply sys_then; [exact Hm|]. apply returns_Ret.
      * reflexivity.
    + destruct H as (trb & w2 & tre & Hb & Hr & ->). eexists. split; [reflexivity|].
      eapply returns_eq.
      * apply (spanned_then _ answer mount_span (fun r => r)). apply emit_then.
        eapply sys_then; [exact Hm|]. cbv beta iota.
        eapply (defer_then _ answer (rollback target)
                  (mounting ctx' controller lun target readonly)); eassumption.
      * unfold mount_end. cbn [app]. now rewrite <- !app_assoc.
Qed.

(** The part under the deferred removal is the resolution and, if it
    succeeds, the loop of mount calls. *)
Lemma mounting_iff w tr w' res :
  returns (mounting ctx' controller lun target readonly) w tr w' res <->
  exists trr w1 source rerr,
    returns (scsi.ControllerLunToName ctx' controller lun) w trr w1 (source, rerr) /\
    match rerr with
    | Some _ => res = rerr /\ w' = w1 /\ tr = trr
    | None =>
        exists trm,
          returns (ITree.iter (scsi.mountOnce ctx' source target
                                 (scsi.mountFlags readonly) (scsi.mountData readonly)) tt)
            w1 trm w' res /\
          tr = trr ++ trm
    end.
Proof.
  unfold mounting. split.
  - intros H. apply returns_bind_inv in H.
    destruct H as (trr & w1 & [source rerr] & tr2 & -> & Hr & H).
    exists trr, w1, source, rerr. split; [exact Hr|].
    destruct rerr as [e|].
    + apply returns_Ret_inv in H. destruct H as (-> & -> & ->).
      now rewrite app_nil_r.
    + now exists tr2.
  - intros (trr & w1 & source & rerr & Hr & H).
    destruct rerr as [e|].
    + destruct H as (-> & -> & ->). rewrite <- (app_nil_r trr).
      eapply returns_bind; [exact Hr|]. apply returns_Ret.
    + destruct H as (trm & Hm & ->). eapply returns_bind; [exact Hr|]. exact Hm.
Qed.

End MountRuns.

End Mounting.

(** ** What a run may hold *)

Section Safety.

Variable W : Type.
Variable answer : forall T : Type, sysE T -> W -> T * W.
Local Abbreviation run := (run answer).
Local Abbreviation calls := (calls answer).
Local Abbreviation always := (always answer).
Variable P : entry -> Prop.

Lemma calls_observe {R} (t u : itree scsiE R) n w :
  observe t = observe u -> calls n t w = calls n u w.
Proof. intros H. destruct n; simpl; [reflexivity | now rewrite H]. Qed.

(** The record of a run that returns is the record of its steps. *)
Lemma calls_run {R} n : forall (t : itree scsiE R) w tr w' r,
  run n t w = Some (tr, w', r) -> calls n t w = tr.
Proof.
  induction n as [|n IH]; intros t w tr w' r H; [discriminate|].
  simpl in *. destruct (observe t) as [r0 | t' | X e k].
  - now injection H as <- _ _.
  - eapply IH; eassumption.
  - destruct e as [o | s].
    + destruct o.
      destruct (run n (k tt) w) as [[[tr0 w0] r0]|] eqn:E; [|discriminate].
      injection H as <- _ _. now rewrite (IH _ _ _ _ _ E).
    + destruct (answer _ s w) as [a w1].
      destruct (run n (k a) w1) as [[[tr0 w0] r0]|] eqn:E; [|discriminate].
      injection H as <- _ _. now rewrite (IH _ _ _ _ _ E).
Qed.

Lemma always_returns {R} (t : itree scsiE R) w tr w' r :
  always P t w -> returns answer t w tr w' r -> Forall P tr.
Proof. intros Ha [n H]. rewrite <- (calls_run _ _ _ _ _ _ H). apply Ha. Qed.

Lemma always_Ret {R} (r : R) w : always P (Ret r) w.
Proof. intros [|n]; constructor. Qed.

Lemma always_emit o w : P (Obs o) -> always P (emit o) w.
Proof. intros H [|[|n]]; simpl; repeat constructor; assumption. Qed.

Lemma always_sys {T} (e : sysE T) w : (forall a, P (Sys e a)) -> always P (sys e) w.
Proof.
  intros H [|[|n]]; simpl; [constructor | |];
    destruct (answer T e w); repeat constructor; apply H.
Qed.

Lemma calls_bind_Forall {R U} (k : R -> itree scsiE U) n : forall (t : itree scsiE R) w,
  always P t w ->
  (forall r w' m, m <= n -> Forall P (calls m (k r) w')) ->
  Forall P (calls n (ITree.bind t k) w).
Proof.
  induction n as [|n IH]; intros t w Ht Hk; [constructor|].
  rewrite (calls_observe _ _ _ _ (observe_bind t k)).
  destruct (observe t) as [r | t' | X e ke] eqn:Et.
  - apply Hk. lia.
  - simpl. apply IH.
    + intros m. specialize (Ht (S m)). simpl in Ht. now rewrite Et in Ht.
    + intros r w' m Hm. apply Hk. lia.
  - simpl. destruct e as [o | s].
    + destruct o. constructor.
      * specialize (Ht 1). simpl in Ht. rewrite Et in Ht. now inversion Ht.
      * apply IH.
        -- intros m. specialize (Ht (S m)). simpl in Ht. rewrite Et in Ht.
           now inversion Ht.
        -- intros r w' m Hm. apply Hk. lia.
    + destruct (answer _ s w) as [a w1] eqn:Ea. constructor.
      * specialize (Ht 1). simpl in Ht. rewrite Et, Ea in Ht. now inversion Ht.
      * apply IH.
        -- intros m. specialize (Ht (S m)). simpl in Ht. rewrite Et, Ea in Ht.
           now inversion Ht.
        -- intros r w' m Hm. apply Hk. lia.
Qed.

Lemma always_bind {R U} (t : itree scsiE R) (k : R -> itree scsiE U) w :
  always P t w -> (forall r w', always P (k r) w') -> always P (ITree.bind t k) w.
Proof. intros Ht Hk n. apply calls_bind_Forall; [exact Ht|]. intros r w' m _. apply Hk. Qed.

Lemma always_iter {A B} (f : A -> itree scsiE (A + B)) :
  (forall x w, always P (f x) w) -> forall x w, always P (ITree.iter f x) w.
Proof.
  intros Hf x w n. revert x w.
  induction n as [n IH] using lt_wf_ind. intros x w.
  rewrite (calls_observe _ _ _ _ (observe_iter f x)). unfold turn.
  apply calls_bind_Forall; [apply Hf|].
  intros [l | r] w' m Hm.
  - destruct m as [|m]; [constructor|]. simpl. apply IH. lia.
  - apply always_Ret.
Qed.

Lemma always_defer {R} (d : R -> itree scsiE unit) (rest : itree scsiE R) w :
  always P rest w -> (forall r w', always P (d r) w') -> always P (defer d rest) w.
Proof.
  intros Hr Hd. unfold defer. apply always_bind; [exact Hr|].
  intros r w'. apply always_bind; [apply Hd|]. intros. apply always_Ret.
Qed.

End Safety.

Ltac safe_step :=
  first
    [ apply always_Ret
    | apply always_emit
    | apply always_sys; intros
    | apply always_defer; [|intros]
    | apply always_iter; intros
    | apply always_bind; [|intros]
    | match goal with
      | |- always _ _ (match ?x with _ => _ end) _ => destruct x
      | |- always _ _ (if ?x then _ else _) _ => destruct x
      end ].

Section SafetyOfPackage.

Variable W : Type.
Variable answer : forall T : Type, sysE T -> W -> T * W.

Lemma always_StartSpan P ctx name w :
  P (Obs (SpanStart ctx name)) -> always answer P (StartSpan ctx name) w.
Proof.
  intros H. unfold StartSpan.
  apply always_bind; [now apply always_emit|]. intros. apply always_Ret.
Qed.

(** [ControllerLunToName] reads the listing, asks its cancellation source
    and sleeps, and makes no other call. *)
Lemma ControllerLunToName_calls ctx controller lun w :
  always answer (fun en => resolver_entry en = true)
    (scsi.ControllerLunToName ctx controller lun) w.
Proof.
  unfold scsi.ControllerLunToName.
  apply always_bind; [now apply always_StartSpan|]. intros [ctx' span] w1.
  unfold scsi.readBlock, Done, CtxErrOf.
  repeat (safe_step; try reflexivity).
Qed.

Lemma always_mono {R} (P Q : entry -> Prop) (t : itree scsiE R) w :
  (forall en, P en -> Q en) -> always answer P t w -> always answer Q t w.
Proof. intros H Ha n. eapply Forall_impl; [exact H | apply Ha]. Qed.

Lemma resolver_entry_issued target readonly en :
  resolver_entry en = true -> issued_as target readonly en.
Proof. destruct en as [o | T e a]; [easy|]. destruct e; easy. Qed.

Lemma resolver_entry_no_removal en :
  resolver_entry en = true -> is_RemoveAll en = false.
Proof. destruct en as [o | T e a]; [easy|]. destruct e; easy. Qed.

Lemma mounter_entry_no_removal en :
  mounter_entry en = true -> is_RemoveAll en = false.
Proof. destruct en as [o | T e a]; [easy|]. destruct e; easy. Qed.

(** The loop of [Mount] mounts, asks its cancellation source and sleeps,
    and makes no other call. *)
Lemma mountOnce_calls ctx source target flags data w :
  always answer (fun en => mounter_entry en = true)
    (ITree.iter (scsi.mountOnce ctx source target flags data) tt) w.
Proof.
  apply always_iter. intros [] w1. unfold scsi.mountOnce, Done, CtxErrOf.
  repeat (safe_step; try reflexivity).
Qed.

End SafetyOfPackage.

(** ** What a call gets done *)

Section Progress.

Variable W : Type.
Variable answer : forall T : Type, sysE T -> W -> T * W.
Local Abbreviation run := (run answer).
Local Abbreviation calls := (calls answer).
Local Abbreviation returns := (returns answer).
Local Abbreviation begins := (begins answer).

(** What a call has done, a call that goes on after it has done. *)
Lemma calls_bind_prefix {R U} (k : R -> itree scsiE U) n : forall (t : itree scsiE R) w,
  exists rest, calls n (ITree.bind t k) w = calls n t w ++ rest.
Proof.
  induction n as [|n IH]; intros t w; [now exists []|].
  rewrite (calls_observe _ answer _ _ _ _ (observe_bind t k)).
  simpl. destruct (observe t) as [r | t' | X e ke].
  - eexists. reflexivity.
  - apply IH.
  - destruct e as [o | s].
    + destruct o. destruct (IH (ke tt) w) as [rest Hr]. exists rest.
      simpl. now rewrite Hr.
    + simpl. destruct (answer _ s w) as [a w1].
      destruct (IH (ke a) w1) as [rest Hr]. exists rest. simpl. now rewrite Hr.
Qed.

(** Once [t] has returned, the record goes on with the one of what
    follows. *)
Lemma calls_bind_run {R U} (k : R -> itree scsiE U) m n : forall (t : itree scsiE R) w tr w' r,
  run n t w = Some (tr, w', r) ->
  exists fuel, calls fuel (ITree.bind t k) w = tr ++ calls m (k r) w'.
Proof.
  induction n as [|n IH]; intros t w tr w' r H; [discriminate|].
  simpl in H. destruct (observe t) as [r0 | t' | X e ke] eqn:Et.
  - injection H as <- <- <-. exists m.
    apply calls_observe. rewrite observe_bind, Et. reflexivity.
  - destruct (IH _ _ _ _ _ H) as [fuel Hf]. exists (S fuel).
    rewrite (calls_observe _ answer _ _ _ _ (observe_bind t k)). rewrite Et. exact Hf.
  - destruct e as [o | s].
    + destruct o.
      destruct (run n (ke tt) w) as [[[tr0 w0] r0]|] eqn:E; [|discriminate].
      injection H as <- <- <-.
      destruct (IH _ _ _ _ _ E) as [fuel Hf]. exists (S fuel).
      rewrite (calls_observe _ answer _ _ _ _ (observe_bind t k)). rewrite Et.
      simpl. now rewrite Hf.
    + destruct (answer _ s w) as [a w1] eqn:Ea.
      destruct (run n (ke a) w1) as [[[tr0 w0] r0]|] eqn:E; [|discriminate].
      injection H as <- <- <-.
      destruct (IH _ _ _ _ _ E) as [fuel Hf]. exists (S fuel).
      rewrite (calls_observe _ answer _ _ _ _ (observe_bind t k)). rewrite Et.
      simpl. rewrite Ea. now rewrite Hf.
Qed.

Lemma begins_observe {R} (t u : itree scsiE R) w tr :
  observe t = observe u -> begins t w tr -> begins u w tr.
Proof.
  intros H (fuel & rest & Hc). exists fuel, rest.
  now rewrite <- (calls_observe _ answer _ _ _ _ H).
Qed.

(** What [t] gets done, [t] followed by [k] gets done. *)
Lemma begins_bind_left {R U} (t : itree scsiE R) (k : R -> itree scsiE U) w tr :
  begins t w tr -> begins (ITree.bind t k) w tr.
Proof.
  intros (fuel & rest & Hc).
  destruct (calls_bind_prefix k fuel t w) as [rest' Hb].
  exists fuel, (rest ++ rest'). now rewrite Hb, Hc, app_assoc.
Qed.

(** After what [t] did before it returned comes what [k] gets done. *)
Lemma begins_bind {R U} (t : itree scsiE R) (k : R -> itree scsiE U) w tr w' r tr' :
  returns t w tr w' r -> begins (k r) w' tr' -> begins (ITree.bind t k) w (tr ++ tr').
Proof.
  intros [n H] (m & rest & Hc).
  destruct (calls_bind_run k m n t w tr w' r H) as [fuel Hf].
  exists fuel, rest. now rewrite Hf, Hc, app_assoc.
Qed.

Lemma begins_defer {R} (d : R -> itree scsiE unit) (rest : itree scsiE R) w tr :
  begins rest w tr -> begins (defer d rest) w tr.
Proof. apply begins_bind_left. Qed.

Lemma begins_iter {A B} (f : A -> itree scsiE (A + B)) x w tr :
  begins (f x) w tr -> begins (ITree.iter f x) w tr.
Proof.
  intros H. apply (begins_observe (turn f x)); [symmetry; apply observe_iter|].
  now apply begins_bind_left.
Qed.

(** A call that is made is in the record, with the answer it got. *)
Lemma begins_sys_bind {T U} (e : sysE T) (k : T -> itree scsiE U) w :
  begins (ITree.bind (sys e) k) w [Sys e (fst (answer _ e w))].
Proof.
  exists 1, []. simpl. now destruct (answer T e w).
Qed.

End Progress.

(** C7: every mount call [Mount] makes, on any run and however long the
    run, has the target it was given and the type [ext4]; with [readonly]
    set it has the flag [MS_RDONLY] and the option [noload], and without it
    no flag and the empty option string.  And the mount is issued: once the
    target is created and the resolution has given [source], the next call
    of [Mount] is the mount of [source] on the target, of type [ext4], with
    these flags and this option. *)
Theorem Mount_parameters {W} (answer : forall T : Type, sysE T -> W -> T * W)
  ctx controller lun target readonly (w : W) :
  always answer (issued_as target readonly)
    (scsi.Mount ctx controller lun target readonly) w /\
  (forall w1 trr w2 source,
      answer _ (MkdirAll target 448) w = (None, w1) ->
      returns answer (scsi.ControllerLunToName (in_span ctx mount_span) controller lun)
        w1 trr w2 (source, None) ->
      begins answer (scsi.Mount ctx controller lun target readonly) w
        (mount_start ctx controller lun ++ [Sys (MkdirAll target 448) None] ++ trr ++
         [Sys (UnixMount source target "ext4"
                 (if readonly then MS_RDONLY else 0%Z)
                 (if readonly then "noload"%string else EmptyString))
              (fst (answer _ (UnixMount source target "ext4"
                                (if readonly then MS_RDONLY else 0%Z)
                                (if readonly then "noload"%string else EmptyString))
                      w2))])).
Proof.
  split.
  - unfold scsi.Mount.
    apply always_bind; [now apply always_StartSpan|]. intros [ctx' span] w1.
    apply always_defer; [|intros; now apply always_emit].
    apply always_defer; [|intros; now apply always_emit].
    apply always_bind; [now apply always_emit|]. intros _ w2.
    apply always_bind; [now apply always_sys|]. intros [e|] w3; [apply always_Ret|].
    apply always_defer.
    2:{ intros [e|] w4; [|apply always_Ret].
        apply always_bind; [now apply always_sys | intros; apply always_Ret]. }
    apply always_bind.
    { eapply always_mono; [|apply ControllerLunToName_calls].
      apply resolver_entry_issued. }
    intros [source [e|]] w4; [apply always_Ret|].
    apply always_iter. intros [] w5. unfold scsi.mountOnce, Done, CtxErrOf.
    apply always_bind.
    { apply always_sys. intros a. destruct readonly; repeat split. }
    intros [e|] w6; [|apply always_Ret].
    repeat (safe_step; try exact I).
  - intros w1 trr w2 source Hm Hr. unfold scsi.Mount, mount_start.
    apply (begins_bind _ answer _ _ w [Obs (SpanStart ctx mount_span)] w
             (in_span ctx mount_span, mount_span)); [now exists 3|].
    cbv beta iota.
    do 2 apply begins_defer.
    apply (begins_bind _ answer _ _ w [Obs (SpanAttrs mount_span (int64 controller) (int64 lun))]
             w tt); [apply returns_emit|].
    apply (begins_bind _ answer _ _ w [Sys (MkdirAll target 448) None] w1 None).
    { pose proof (returns_sys _ answer (MkdirAll target 448) w) as H.
      now rewrite Hm in H. }
    cbv beta iota. apply begins_defer.
    apply (begins_bind _ answer _ _ w1 trr w2 (source, None)); [exact Hr|].
    cbv beta iota zeta. apply begins_iter. unfold scsi.mountOnce.
    assert (Hf : scsi.mountFlags readonly = (if readonly then MS_RDONLY else 0%Z))
      by now destruct readonly.
    assert (Hd : scsi.mountData readonly = (if readonly then "noload"%string else EmptyString))
      by now destruct readonly.
    rewrite Hf, Hd. apply begins_sys_bind.
Qed.

Section MountClaims.

Variable W : Type.
Variable answer : forall T : Type, sysE T -> W -> T * W.
Local Abbreviation returns := (returns answer).
Variables (ctx : Context) (controller lun : uint8) (target : string) (readonly : bool).
Local Abbreviation ctx' := (in_span ctx mount_span).

Lemma Forall_not_existsb (p : entry -> bool) tr :
  Forall (fun en => p en = false) tr -> existsb p tr = false.
Proof. induction 1 as [|en tr H _ IH]; [reflexivity|]. simpl. now rewrite H, IH. Qed.

Lemma mounting_no_removal w :
  always answer (fun en => is_RemoveAll en = false)
    (mounting ctx' controller lun target readonly) w.
Proof.
  unfold mounting. apply always_bind.
  - eapply always_mono; [|apply ControllerLunToName_calls].
    apply resolver_entry_no_removal.
  - intros [source [e|]] w1; [apply always_Ret|].
    eapply always_mono; [|apply mountOnce_calls]. apply mounter_entry_no_removal.
Qed.

End MountClaims.

(** C1: if the creation of the target directory fails, [Mount] returns that
    error and removes nothing.  Once the creation has succeeded, every
    return of [Mount] with an error has the recursive removal of the target
    for its last call, and that removal is the only one; nothing is asked
    about the target before it, so it takes place whether or not the target
    was there before the call.  A return with no error has no removal. *)
Theorem Mount_rollback {W} (answer : forall T : Type, sysE T -> W -> T * W)
  ctx controller lun target readonly (w : W) :
  (forall e w1,
      answer _ (MkdirAll target 448) w = (Some e, w1) ->
      returns answer (scsi.Mount ctx controller lun target readonly) w
        (mount_start ctx controller lun ++ [Sys (MkdirAll target 448) (Some e)]
         ++ mount_end (Some e)) w1 (Some e)) /\
  (forall w1 tr w' e,
      answer _ (MkdirAll target 448) w = (None, w1) ->
      returns answer (scsi.Mount ctx controller lun target readonly) w tr w' (Some e) ->
      exists pre ra,
        tr = pre ++ [Sys (RemoveAll target) ra] ++ mount_end (Some e) /\
        existsb is_RemoveAll pre = false) /\
  (forall tr w',
      returns answer (scsi.Mount ctx controller lun target readonly) w tr w' None ->
      existsb is_RemoveAll tr = false).
Proof.
  split; [|split].
  - intros e w1 Hm. apply Mount_iff. exists (Some e), w1. auto.
  - intros w1 tr w' e Hm H. apply Mount_iff in H. destruct H as (a & w1' & Hm' & H).
    rewrite Hm in Hm'. injection Hm' as <- <-.
    destruct H as (trb & w2 & tre & Hb & Hr & ->).
    apply rollback_iff in Hr. destruct Hr as (ra & _ & ->).
    exists (mount_start ctx controller lun ++ [Sys (MkdirAll target 448) None] ++ trb), ra.
    split; [now rewrite <- !app_assoc|].
    rewrite !existsb_app. cbn [mount_start existsb is_RemoveAll orb].
    apply Forall_not_existsb.
    exact (always_returns _ answer _ _ _ _ _ _
             (mounting_no_removal _ answer ctx controller lun target readonly w1) Hb).
  - intros tr w' H. apply Mount_iff in H. destruct H as (a & w1 & Hm & H).
    destruct a as [e|]; [now destruct H|].
    destruct H as (trb & w2 & tre & Hb & Hr & ->).
    apply rollback_iff in Hr. destruct Hr as (-> & _).
    rewrite !existsb_app. cbn [mount_start mount_end existsb is_RemoveAll orb].
    rewrite orb_false_r. apply Forall_not_existsb.
    exact (always_returns _ answer _ _ _ _ _ _
             (mounting_no_removal _ answer ctx controller lun target readonly w1) Hb).
Qed.

Section MountLoop.

Variable W : Type.
Variable answer : forall T : Type, sysE T -> W -> T * W.
Local Abbreviation returns := (returns answer).
Variables (ctx : Context) (controller lun : uint8) (target : string) (readonly : bool).
Local Abbreviation ctx' := (in_span ctx mount_span).

Variables (w w1 w2 w3 : W) (trr trm : trace) (source : string) (k : nat).
Local Abbreviation q := (mount_call source target readonly).
Local Abbreviation once :=
  (scsi.mountOnce ctx' source target (scsi.mountFlags readonly) (scsi.mountData readonly)).

Hypothesis Hmkdir : answer _ (MkdirAll target 448) w = (None, w1).
Hypothesis Hresolve :
  returns (scsi.ControllerLunToName ctx' controller lun) w1 trr w2 (source, None).
Hypothesis Hwaits : waits answer q not_yet (cancel ctx) k w2 = Some (trm, w3).

Lemma once_waits v a v1 v2 v3 u :
  answer _ q v = (a, v1) -> not_yet a = true ->
  answer _ (CtxDone (cancel ctx)) v1 = (false, v2) ->
  answer _ (TimeSleep (10 * Millisecond)%Z) v2 = (u, v3) ->
  returns (once tt) v (waited q a (cancel ctx)) v3 (inl tt).
Proof. apply (mountOnce_waits _ answer ctx'). Qed.

(** [k] turns that wait, a turn that leaves the loop, and the deferred
    removal make a call. *)
Lemma Mount_after_waits last w4 res tre w5 :
  returns (once tt) w3 last w4 (inr res) ->
  returns (rollback target res) w4 tre w5 tt ->
  returns (scsi.Mount ctx controller lun target readonly) w
    (mount_start ctx controller lun ++ [Sys (MkdirAll target 448) None]
     ++ trr ++ trm ++ last ++ tre ++ mount_end res) w5 res.
Proof.
  intros Hlast Hroll. apply Mount_iff. exists None, w1. split; [exact Hmkdir|].
  exists (trr ++ trm ++ last), w4, tre. split; [|split; [exact Hroll|]].
  - apply mounting_iff. exists trr, w2, source, None. split; [exact Hresolve|].
    exists (trm ++ last). split; [|reflexivity].
    eapply (iter_waits _ answer _ _ q not_yet (cancel ctx) once once_waits);
      [exact Hwaits|].
    now apply returns_iter_stop.
  - now rewrite <- !app_assoc.
Qed.

(** A call that returns went through the turns the world has waited. *)
Lemma Mount_waited tr w' res :
  returns (scsi.Mount ctx controller lun target readonly) w tr w' res ->
  exists tr2 w4,
    tr = mount_start ctx controller lun ++ [Sys (MkdirAll target 448) None]
         ++ trr ++ trm ++ tr2 /\
    exists trl tre, tr2 = trl ++ tre ++ mount_end res /\
                    returns (ITree.iter once tt) w3 trl w4 res.
Proof.
  intros H. apply Mount_iff in H. destruct H as (a & v1 & Hm & H).
  rewrite Hmkdir in Hm. injection Hm as <- <-.
  destruct H as (trb & v2 & tre & Hb & Hr & ->).
  apply mounting_iff in Hb. destruct Hb as (trr' & v3 & source' & rerr & Hres & Hb).
  destruct (returns_det _ _ _ _ _ _ _ _ _ _ Hres Hresolve) as (-> & -> & [= -> ->]).
  destruct Hb as (trl & Hl & ->).
  destruct (iter_waited _ answer _ _ q not_yet (cancel ctx) once once_waits
              k _ _ _ _ _ _ Hwaits Hl) as (tr3 & -> & Hl3).
  exists (tr3 ++ tre ++ mount_end res), v2. split; [now rewrite <- !app_assoc|].
  now exists tr3, tre.
Qed.

(** In a world that has the mount wait for ever, the call never returns. *)
Lemma Mount_forever (I : W -> Prop) :
  (forall v, I v -> exists t v',
      waits answer q not_yet (cancel ctx) 1 v = Some (t, v') /\ I v') ->
  I w3 -> diverges answer (scsi.Mount ctx controller lun target readonly) w.
Proof.
  intros Hinv Hw3. apply never_returns_diverges. intros tr w' res H.
  apply Mount_waited in H. destruct H as (_ & w4 & _ & trl & _ & _ & Hl).
  revert Hl. apply diverges_not_returns.
  exact (iter_waits_forever _ answer _ _ q not_yet (cancel ctx) once once_waits
           I Hinv w3 Hw3).
Qed.

End MountLoop.

Lemma not_yet_ENOENT : not_yet (Some ENOENT) = true.
Proof. reflexivity. Qed.

Lemma not_yet_other e : e <> ENOENT -> not_yet (Some e) = false.
Proof.
  intros H. destruct e; try reflexivity. cbn [not_yet Err_eqb ENOENT].
  apply Z.eqb_neq. intros ->. now apply H.
Qed.

(** C6: once the target is created and the resolution has given [source],
    every mount call of [Mount] is [mount_call source target readonly], of
    type [ext4].  After any number of turns that waited: a mount that
    succeeds ends the call with no error; a mount that fails with an error
    other than [ENOENT] ends it with that error, after the removal of the
    target, and is not tried again; a mount that fails with [ENOENT] has the
    cancellation source asked: if it is done, its error is the result, after
    the removal of the target; if not, the call sleeps 10 ms and mounts
    again.  Nothing else ends the retries: in a world that has the mount
    wait turn after turn, the call never returns. *)
Theorem Mount_retries {W} (answer : forall T : Type, sysE T -> W -> T * W)
  ctx controller lun target readonly (w w1 w2 w3 : W) (trr trm : trace)
  (source : string) (k : nat) :
  answer _ (MkdirAll target 448) w = (None, w1) ->
  returns answer (scsi.ControllerLunToName (in_span ctx mount_span) controller lun)
    w1 trr w2 (source, None) ->
  waits answer (mount_call source target readonly) not_yet (cancel ctx) k w2
    = Some (trm, w3) ->
  (forall w4,
      answer _ (mount_call source target readonly) w3 = (None, w4) ->
      returns answer (scsi.Mount ctx controller lun target readonly) w
        (mount_start ctx controller lun ++ [Sys (MkdirAll target 448) None]
         ++ trr ++ trm ++
         [Sys (mount_call source target readonly) None] ++ mount_end None)
        w4 None) /\
  (forall e w4 ra w5,
      answer _ (mount_call source target readonly) w3 = (Some e, w4) ->
      e <> ENOENT ->
      answer _ (RemoveAll target) w4 = (ra, w5) ->
      returns answer (scsi.Mount ctx controller lun target readonly) w
        (mount_start ctx controller lun ++ [Sys (MkdirAll target 448) None]
         ++ trr ++ trm ++
         [Sys (mount_call source target readonly) (Some e);
          Sys (RemoveAll target) ra] ++ mount_end (Some e))
        w5 (Some e)) /\
  (forall w4 w5 ce w6 ra w7,
      answer _ (mount_call source target readonly) w3 = (Some ENOENT, w4) ->
      answer _ (CtxDone (cancel ctx)) w4 = (true, w5) ->
      answer _ (CtxErr (cancel ctx)) w5 = (Some ce, w6) ->
      answer _ (RemoveAll target) w6 = (ra, w7) ->
      returns answer (scsi.Mount ctx controller lun target readonly) w
        (mount_start ctx controller lun ++ [Sys (MkdirAll target 448) None]
         ++ trr ++ trm ++
         [Sys (mount_call source target readonly) (Some ENOENT);
          Sys (CtxDone (cancel ctx)) true; Sys (CtxErr (cancel ctx)) (Some ce);
          Sys (RemoveAll target) ra] ++ mount_end (Some ce))
        w7 (Some ce)) /\
  (forall w4 w5 u w6,
      answer _ (mount_call source target readonly) w3 = (Some ENOENT, w4) ->
      answer _ (CtxDone (cancel ctx)) w4 = (false, w5) ->
      answer _ (TimeSleep (10 * Millisecond)%Z) w5 = (u, w6) ->
      waits answer (mount_call source target readonly) not_yet (cancel ctx) (S k) w2
        = Some (trm ++ [Sys (mount_call source target readonly) (Some ENOENT);
                        Sys (CtxDone (cancel ctx)) false;
                        Sys (TimeSleep (10 * Millisecond)%Z) tt], w6) /\
      forall tr' w' res,
        returns answer (scsi.Mount ctx controller lun target readonly) w tr' w' res ->
        exists a' rest,
          tr' = mount_start ctx controller lun ++ [Sys (MkdirAll target 448) None]
                ++ trr ++ trm ++
                [Sys (mount_call source target readonly) (Some ENOENT);
                 Sys (CtxDone (cancel ctx)) false;
                 Sys (TimeSleep (10 * Millisecond)%Z) tt] ++
                Sys (mount_call source target readonly) a' :: rest) /\
  (forall I : W -> Prop,
      (forall v, I v -> exists t v',
          waits answer (mount_call source target readonly) not_yet (cancel ctx) 1 v
            = Some (t, v') /\ I v') ->
      I w3 -> diverges answer (scsi.Mount ctx controller lun target readonly) w).
Proof.
  intros Hmkdir Hresolve Hwaits. split; [|split; [|split; [|split]]].
  - intros w4 Hq.
    exact (Mount_after_waits _ answer ctx controller lun target readonly
             w w1 w2 w3 trr trm source k Hmkdir Hresolve Hwaits
             _ w4 None [] w4
             (mountOnce_ends _ answer _ _ _ _ _ _ _ Hq eq_refl)
             (returns_Ret _ answer tt w4)).
  - intros e w4 ra w5 Hq Hne Hrm.
    pose proof (Mount_after_waits _ answer ctx controller lun target readonly
             w w1 w2 w3 trr trm source k Hmkdir Hresolve Hwaits
             _ w4 (Some e) [Sys (RemoveAll target) ra] w5
             (mountOnce_ends _ answer _ _ _ _ _ _ _ Hq (not_yet_other e Hne))) as H.
    apply H. apply rollback_iff. now exists ra.
  - intros w4 w5 ce w6 ra w7 Hq Hd He Hrm.
    pose proof (Mount_after_waits _ answer ctx controller lun target readonly
             w w1 w2 w3 trr trm source k Hmkdir Hresolve Hwaits
             _ w6 (Some ce) [Sys (RemoveAll target) ra] w7
             (mountOnce_done _ answer (in_span ctx mount_span) _ _ _ _ _ _ _ _ _
                Hq not_yet_ENOENT Hd He)) as H.
    apply H. apply rollback_iff. now exists ra.
  - intros w4 w5 u w6 Hq Hd Hs.
    pose proof (waits_snoc _ answer _ _ _ _ k w2 trm w3 _ w4 w5 w6 u
                  Hwaits Hq not_yet_ENOENT Hd Hs) as HS.
    split; [exact HS|].
    intros tr' w' res H.
    apply (Mount_waited _ answer ctx controller lun target readonly
             w w1 w2 w6 trr _ source (S k) Hmkdir Hresolve HS) in H.
    destruct H as (tr2 & v & -> & trl & tre & -> & Hl).
    apply returns_iter_inv in Hl.
    destruct Hl as (tr3 & v5 & lr & tr4 & -> & H1 & _).
    apply mountOnce_mounts in H1. destruct H1 as (a' & rest & ->).
    exists a'. eexists. unfold waited. rewrite <- !app_assoc. cbn [app]. reflexivity.
  - intros I Hinv Hw3.
    exact (Mount_forever _ answer ctx controller lun target readonly
             w w1 w2 w3 trr trm source k Hmkdir Hresolve Hwaits I Hinv Hw3).
Qed.

(** ** The claims on the scripted guest *)

(** On the guest whose kernel log refuses writes, the control file exists,
    the write of the trigger succeeds, and [UnplugDevice] returns an
    error all the same. *)
Lemma UnplugDevice_write_ok_yet_error :
  ~ (forall tr g' res,
        returns Guest.answer
          (scsi.UnplugDevice Guest.nanoseconds Guest.background Byte.x00 Byte.x03)
          Guest.kmsg_closed tr g' res ->
        In (Sys (FileWrite 7 ("1" ++ newline)%string) (2%Z, None)) tr ->
        res = None).
Proof.
  intros H.
  assert (Hrun : exists tr g',
    returns Guest.answer
      (scsi.UnplugDevice Guest.nanoseconds Guest.background Byte.x00 Byte.x03)
      Guest.kmsg_closed tr g' (Some (PathError "open" "/dev/kmsg" EACCES)) /\
    In (Sys (FileWrite 7 ("1" ++ newline)%string) (2%Z, None)) tr).
  { do 2 eexists. split.
    - exists 40. vm_compute. reflexivity.
    - do 7 right. left. reflexivity. }
  destruct Hrun as (tr & g' & Hr & Hin).
  specialize (H tr g' _ Hr Hin). discriminate H.
Qed.

Lemma UnplugDevice_write_witness :
  exists tr g',
    returns Guest.answer
      (scsi.UnplugDevice Guest.nanoseconds Guest.background Byte.x00 Byte.x03)
      Guest.boot tr g' None.
Proof.
  do 2 eexists.
  refine (UnplugDevice_write Guest.answer Guest.nanoseconds Guest.background
            Byte.x00 Byte.x03 Guest.boot _ _ _ _ _ _ _ _ _ _ None
            _ _ _ _ _ _ _ None _ _ _ _ _ _ _ _ _);
    reflexivity.
Defined.

Lemma UnplugDevice_gone_is_success_witness :
  exists tr,
    returns Guest.answer
      (successive 3 (scsi.UnplugDevice Guest.nanoseconds Guest.background Byte.x00 Byte.x03))
      Guest.detached tr
      (Nat.iter 3 (tried Guest.answer Byte.x00 Byte.x03) Guest.detached)
      (repeat None 3) /\
    existsb is_write tr = false.
Proof.
  apply (UnplugDevice_gone_is_success Guest.answer Guest.nanoseconds Guest.background
           Byte.x00 Byte.x03 3 Guest.detached).
  intros i Hi.
  destruct i as [|[|[|i]]]; [| | | lia];
    (eexists; split; [vm_compute; reflexivity | reflexivity]).
Defined.

Lemma ControllerLunToName_single_witness :
  exists tr g',
    returns Guest.answer (scsi.ControllerLunToName Guest.background Byte.x00 Byte.x03)
      Guest.attached tr g' ("/dev/sda", None).
Proof.
  do 2 eexists.
  apply (ControllerLunToName_single Guest.answer Guest.background Byte.x00 Byte.x03
           Guest.attached _ "sda"); reflexivity.
Defined.

Lemma ControllerLunToName_ambiguous_witness :
  exists tr g',
    returns Guest.answer (scsi.ControllerLunToName Guest.background Byte.x00 Byte.x03)
      Guest.doubled tr g'
      (EmptyString, Some (scsi.errAmbiguous "0:0:0:3")).
Proof.
  do 2 eexists.
  eapply (ControllerLunToName_ambiguous Guest.answer Guest.background Byte.x00 Byte.x03
            1 Guest.doubled); reflexivity.
Defined.

Lemma ControllerLunToName_read_error_witness :
  exists tr g',
    returns Guest.answer (scsi.ControllerLunToName Guest.background Byte.x00 Byte.x03)
      Guest.unreadable tr g'
      (EmptyString,
       Some (PathError "open" "/sys/bus/scsi/devices/0:0:0:3/block" EACCES)).
Proof.
  do 2 eexists.
  eapply (ControllerLunToName_read_error Guest.answer Guest.background Byte.x00 Byte.x03
            1 Guest.unreadable); reflexivity.
Defined.

Lemma ControllerLunToName_waits_witness :
  (exists tr g',
     returns Guest.answer (scsi.ControllerLunToName Guest.background Byte.x00 Byte.x03)
       Guest.late tr g' (EmptyString, Some DeadlineExceeded) /\
     count is_Sleep tr = 1) /\
  (exists tr g',
     waits Guest.answer (ReadDir (sysfs Byte.x00 Byte.x03 "block")) transient 0 2
       Guest.boot = Some (tr, g') /\
     count is_Sleep tr = 2) /\
  diverges Guest.answer (scsi.ControllerLunToName Guest.background Byte.x00 Byte.x03)
    Guest.never.
Proof.
  split; [|split].
  - do 2 eexists. split.
    + eapply (proj1 (ControllerLunToName_waits Guest.answer Guest.background
                       Byte.x00 Byte.x03 1 Guest.late _ _ _ _
                       eq_refl eq_refl eq_refl)); reflexivity.
    + reflexivity.
  - do 2 eexists. split.
    + apply (proj1 (proj2 (ControllerLunToName_waits Guest.answer Guest.background
                             Byte.x00 Byte.x03 1 Guest.boot _ _ _ _
                             eq_refl eq_refl eq_refl)) _ tt _ eq_refl eq_refl).
    + reflexivity.
  - apply (proj2 (proj2 (ControllerLunToName_waits Guest.answer Guest.background
                           Byte.x00 Byte.x03 0 Guest.never _ _ _ _
                           eq_refl eq_refl eq_refl))
             (fun g => Guest.listing g = [] /\ Guest.polls g = None /\
                       Guest.block g = "/sys/bus/scsi/devices/0:0:0:3/block")).
    + intros [ds mk bl li ms ct op wr km cl po re] (Hl & Hp & Hb).
      simpl in Hl, Hp, Hb. subst li po bl.
      do 2 eexists. split; [reflexivity|]. simpl. auto.
    + simpl. auto.
Defined.

Lemma Mount_retries_witness :
  exists tr g',
    returns Guest.answer
      (scsi.Mount Guest.background Byte.x00 Byte.x03 "/run/c1" true)
      Guest.boot tr g' None /\
    count is_UnixMount tr = 2 /\ count is_Sleep tr = 3.
Proof.
  pose (g1 := Guest.set_dirs ["/run/c1"; "/run"] Guest.boot).
  assert (H1 : Guest.answer _ (MkdirAll "/run/c1" 448) Guest.boot = (None, g1))
    by reflexivity.
  eassert (H2 : returns Guest.answer
            (scsi.ControllerLunToName (in_span Guest.background mount_span)
               Byte.x00 Byte.x03) g1 _ _ ("/dev/sda", None))
    by (exists 40; vm_compute; reflexivity).
  match type of H2 with
  | returns _ _ _ _ ?g2 _ =>
      eassert (H3 : waits Guest.answer (mount_call "/dev/sda" "/run/c1" true) not_yet
                      (cancel Guest.background) 1 g2 = Some (_, _))
        by (vm_compute; reflexivity)
  end.
  do 2 eexists. split.
  - eapply (proj1 (Mount_retries Guest.answer Guest.background Byte.x00 Byte.x03
                     "/run/c1" true Guest.boot _ _ _ _ _ "/dev/sda" 1 H1 H2 H3)).
    vm_compute. reflexivity.
  - split; vm_compute; reflexivity.
Defined.

Lemma Mount_rollback_witness :
  exists tr g' e pre ra,
    returns Guest.answer
      (scsi.Mount Guest.background Byte.x00 Byte.x03 "/run/c1" false)
      Guest.occupied tr g' (Some e) /\
    existsb (String.eqb "/run/c1") (Guest.dirs Guest.occupied) = true /\
    existsb (String.eqb "/run/c1") (Guest.dirs g') = false /\
    tr = pre ++ [Sys (RemoveAll "/run/c1") ra] ++ mount_end (Some e) /\
    existsb is_RemoveAll pre = false.
Proof.
  eassert (Hrun : returns Guest.answer
            (scsi.Mount Guest.background Byte.x00 Byte.x03 "/run/c1" false)
            Guest.occupied _ _ (Some _))
    by (exists 40; vm_compute; reflexivity).
  destruct (proj1 (proj2 (Mount_rollback Guest.answer Guest.background Byte.x00 Byte.x03
                            "/run/c1" false Guest.occupied))
              _ _ _ _ eq_refl Hrun) as (pre & ra & Heq & Hno).
  do 3 eexists. exists pre, ra.
  split; [exact Hrun|]. split; [reflexivity|]. split; [vm_compute; reflexivity|].
  split; [exact Heq | exact Hno].
Defined.

Lemma Mount_parameters_witness :
  exists pre a,
    begins Guest.answer
      (scsi.Mount Guest.background Byte.x00 Byte.x03 "/run/c1" true) Guest.boot
      (pre ++ [Sys (UnixMount "/dev/sda" "/run/c1" "ext4" 1 "noload") a]).
Proof.
  pose (g1 := Guest.set_dirs ["/run/c1"; "/run"] Guest.boot).
  assert (H1 : Guest.answer _ (MkdirAll "/run/c1" 448) Guest.boot = (None, g1))
    by reflexivity.
  eassert (H2 : returns Guest.answer
            (scsi.ControllerLunToName (in_span Guest.background mount_span)
               Byte.x00 Byte.x03) g1 _ _ ("/dev/sda", None))
    by (exists 40; vm_compute; reflexivity).
  pose proof (proj2 (Mount_parameters Guest.answer Guest.background Byte.x00 Byte.x03
                       "/run/c1" true Guest.boot) _ _ _ _ H1 H2) as H.
  rewrite !app_assoc in H. do 2 eexists. exact H.
Defined.

(** * Further properties *)


(** ** The sysfs paths *)

Lemma address_of_sysfs leaf controller lun :
  leaf = "block" \/ leaf = "delete" ->
  address_of (sysfs controller lun leaf) = (Byte.to_N controller * 256 + Byte.to_N lun)%N.
Proof.
  intros Hleaf. apply N.eqb_eq. revert lun. apply forall_uint8. revert controller.
  apply (forall_uint8 (fun c => forallb (fun l =>
    N.eqb (address_of (sysfs c l leaf)) (Byte.to_N c * 256 + Byte.to_N l)) all_uint8)).
  destruct Hleaf as [-> | ->]; vm_compute; reflexivity.
Qed.

Lemma address_injective a b a' b' :
  (Byte.to_N a * 256 + Byte.to_N b = Byte.to_N a' * 256 + Byte.to_N b')%N ->
  a = a' /\ b = b'.
Proof.
  intros H.
  pose proof (Byte.to_N_bounded a). pose proof (Byte.to_N_bounded b).
  pose proof (Byte.to_N_bounded a'). pose proof (Byte.to_N_bounded b').
  assert (Byte.to_N a = Byte.to_N a' /\ Byte.to_N b = Byte.to_N b') as [Ha Hb] by lia.
  split.
  - apply (f_equal Byte.of_N) in Ha. rewrite !Byte.of_to_N in Ha. congruence.
  - apply (f_equal Byte.of_N) in Hb. rewrite !Byte.of_to_N in Hb. congruence.
Qed.

(** X1: two addresses with the same listing path, or the same control
    path, are the same address; and no listing path is a control path. *)
Theorem sysfs_paths_apart controller lun controller' lun' :
  (scsi.blockPath controller lun = scsi.blockPath controller' lun' ->
   controller = controller' /\ lun = lun') /\
  (scsi.deletePath controller lun = scsi.deletePath controller' lun' ->
   controller = controller' /\ lun = lun') /\
  scsi.blockPath controller lun <> scsi.deletePath controller' lun'.
Proof.
  rewrite !blockPath_eq, !deletePath_eq. split; [|split].
  - intros H. apply address_injective.
    rewrite <- !(address_of_sysfs "block") by auto. now rewrite H.
  - intros H. apply address_injective.
    rewrite <- !(address_of_sysfs "delete") by auto. now rewrite H.
  - intros H.
    assert (Ha : controller = controller' /\ lun = lun').
    { apply address_injective.
      rewrite <- (address_of_sysfs "block" controller lun) by auto.
      rewrite <- (address_of_sysfs "delete" controller' lun') by auto.
      now rewrite H. }
    destruct Ha as [<- <-].
    assert (Hne : String.eqb (sysfs controller lun "block")
                    (sysfs controller lun "delete") = false).
    { apply negb_true_iff. clear H. revert lun. apply (forall_uint8 (fun l =>
        negb (String.eqb (sysfs controller l "block") (sysfs controller l "delete")))).
      revert controller. apply (forall_uint8 (fun c => forallb (fun l =>
        negb (String.eqb (sysfs c l "block") (sysfs c l "delete"))) all_uint8)).
      vm_compute. reflexivity. }
    apply String.eqb_neq in Hne. now apply Hne.
Qed.

(** ** What the package asks of the world, and of whom *)

Lemma always_StartSpan_bind {W U} (answer : forall T : Type, sysE T -> W -> T * W)
  (P : entry -> Prop) ctx name (k : Context * Span -> itree scsiE U) (w : W) :
  P (Obs (SpanStart ctx name)) ->
  always answer P (k (in_span ctx name, name)) w ->
  always answer P (ITree.bind (StartSpan ctx name) k) w.
Proof.
  intros Ho Hk [|n]; [constructor|].
  simpl. constructor; [exact Ho|].
  rewrite (calls_observe _ answer _ (k (in_span ctx name, name))); [apply Hk | reflexivity].
Qed.

Lemma resolver_lines {W} (answer : forall T : Type, sysE T -> W -> T * W)
  ctx controller lun (w : W) :
  always answer (resolver_line (cancel ctx) (sysfs controller lun "block"))
    (scsi.ControllerLunToName ctx controller lun) w.
Proof.
  unfold scsi.ControllerLunToName.
  apply always_StartSpan_bind; [exact I|]. cbv beta iota.
  apply always_defer; [|intros; now apply always_emit].
  apply always_defer; [|intros; now apply always_emit].
  apply always_bind; [now apply always_emit|]. intros _ w2.
  cbv zeta. rewrite blockPath_eq.
  apply always_bind.
  - apply always_iter. intros [] w3. unfold scsi.readBlock, Done, CtxErrOf.
    apply always_bind; [apply always_sys; intros; reflexivity|].
    intros r w4.
    destruct r as [[|fi rest]|e]; cbv beta iota.
    + apply always_bind; [apply always_sys; intros; reflexivity|].
      intros [|] w5.
      * apply always_bind; [apply always_sys; intros; reflexivity|].
        intros. apply always_Ret.
      * apply always_bind; [apply always_sys; intros; reflexivity|].
        intros. apply always_Ret.
    + apply always_Ret.
    + destruct (negb (IsNotExist (Some e))); [apply always_Ret|].
      apply always_bind; [apply always_sys; intros; reflexivity|].
      intros [|] w5.
      * apply always_bind; [apply always_sys; intros; reflexivity|].
        intros. apply always_Ret.
      * apply always_bind; [apply always_sys; intros; reflexivity|].
        intros. apply always_Ret.
  - intros [err | [|first [|second rest]]] w3; try apply always_Ret.
    apply always_bind; [now apply always_emit|]. intros. apply always_Ret.
Qed.

(** X2: on every run, however long, [ControllerLunToName] reads no listing
    but the one of its address, asks no cancellation source but the one of
    the context it was given, sleeps 10 ms at a time, and makes no other
    call: it creates, removes, mounts, opens and writes nothing. *)
Theorem ControllerLunToName_asks_only {W} (answer : forall T : Type, sysE T -> W -> T * W)
  ctx controller lun (w : W) (fuel : nat) :
  Forall (resolver_line (cancel ctx) (sysfs controller lun "block"))
    (calls answer fuel (scsi.ControllerLunToName ctx controller lun) w).
Proof. apply resolver_lines. Qed.



(** X4: on every run, [UnplugDevice] opens no file but the control file of
    its address, for writing only; what it writes to an open file is the
    trigger, the digit 1 and a newline; the only other file it writes is
    [/dev/kmsg]; it reads no listing, creates, removes and mounts nothing,
    never sleeps and asks no cancellation source. *)
Theorem UnplugDevice_asks_only {W} (answer : forall T : Type, sysE T -> W -> T * W)
  Duration_String ctx controller lun (w : W) (fuel : nat) :
  Forall (unplug_line (sysfs controller lun "delete"))
    (calls answer fuel (scsi.UnplugDevice Duration_String ctx controller lun) w).
Proof.
  revert fuel.
  change (always answer (unplug_line (sysfs controller lun "delete"))
            (scsi.UnplugDevice Duration_String ctx controller lun) w).
  unfold scsi.UnplugDevice.
  apply always_StartSpan_bind; [exact I|]. cbv beta iota.
  apply always_defer; [|intros; now apply always_emit].
  apply always_defer; [|intros; now apply always_emit].
  apply always_bind; [now apply always_emit|]. intros _ w2. cbv zeta.
  apply always_bind; [apply always_sys; intros; exact I|]. intros t w3.
  rewrite deletePath_eq.
  apply always_bind; [apply always_sys; intros; now split|].
  intros [f|e] w4.
  2:{ destruct (IsNotExist (Some e)); apply always_Ret. }
  apply always_bind; [apply always_sys; intros; exact I|]. intros d w5.
  apply always_bind; [now apply always_emit|]. intros _ w6.
  apply always_defer.
  2:{ intros r w7. apply always_bind; [apply always_sys; intros; exact I|].
      intros; apply always_Ret. }
  apply always_bind; [apply always_sys; intros; exact I|]. intros t' w7.
  apply always_bind; [apply always_sys; intros; reflexivity|].
  intros [n [e|]] w8; [apply always_Ret|].
  apply always_bind; [apply always_sys; intros; exact I|]. intros d2 w9.
  apply always_bind; [apply always_sys; intros; reflexivity|].
  intros [e|] w10; [apply always_Ret|].
  apply always_bind; [apply always_sys; intros; exact I|]. intros d3 w11.
  apply always_bind; [now apply always_emit|]. intros. apply always_Ret.
Qed.

(** ** More of [ControllerLunToName] *)

(** X5: when the listing of the address holds exactly one entry, a
    well-formed name, at a read that comes after any number of turns that
    waited, [ControllerLunToName] returns [/dev/] followed by that name and
    no error; the record holds the turns that waited, that read, and
    nothing after it but the log line and the closing of the span: the call
    returns as soon as the entry shows, and not before. *)
Theorem ControllerLunToName_eventually {W} (answer : forall T : Type, sysE T -> W -> T * W)
  ctx controller lun (k : nat) (w w1 w2 : W) (tr : trace) (name : string) :
  waits answer (ReadDir (sysfs controller lun "block")) transient (cancel ctx) k w
    = Some (tr, w1) ->
  answer _ (ReadDir (sysfs controller lun "block")) w1 = (Ok [mkFileInfo name], w2) ->
  filepath.entry_name name = true ->
  returns answer (scsi.ControllerLunToName ctx controller lun) w
    (resolve_start ctx controller lun ++ tr ++
     [Sys (ReadDir (sysfs controller lun "block")) (Ok [mkFileInfo name]);
      Obs (LogDebug (in_span ctx resolve_span) "devicePath"
             (VString ("/dev/" ++ name)%string) "found device path")] ++
     resolve_end None)
    w2 (("/dev/" ++ name)%string, None) /\
  count is_ReadDir tr = k /\ count is_Sleep tr = k.
Proof.
  intros Hk Hread Hname. split.
  - pose proof (resolve_after_waits _ answer ctx controller lun k w tr w1 _ w2
                  (inr [mkFileInfo name]) Hk
                  (readBlock_finds _ answer _ _ _ _ _ _ Hread)) as H.
    cbn [resolved fst snd Name] in H. rewrite (Join_dev_entry name Hname) in H.
    exact H.
  - clear Hread. revert w tr Hk. induction k as [|k IH]; intros w tr Hk.
    + injection Hk as <- _. split; reflexivity.
    + apply waits_S_inv in Hk.
      destruct Hk as (a & v1 & v2 & u & v3 & trk & _ & _ & _ & _ & Hk & ->).
      destruct (IH _ _ Hk) as [Hr Hs]. unfold count in *.
      cbn [waited app filter is_ReadDir is_Sleep List.length].
      rewrite Hr, Hs. split; reflexivity.
Qed.

(** The four ways a turn of the loop of [ControllerLunToName] can go. *)
Lemma readBlock_inv {W} (answer : forall T : Type, sysE T -> W -> T * W)
  ctx path (w : W) tr w' x :
  returns answer (scsi.readBlock ctx path tt) w tr w' x ->
  exists r w1,
    answer _ (ReadDir path) w = (r, w1) /\
    ((transient r = true /\ x = inl tt /\
      tr = waited (ReadDir path) r (cancel ctx)) \/
     (transient r = true /\ exists e,
        x = inr (inl e) /\
        tr = [Sys (ReadDir path) r; Sys (CtxDone (cancel ctx)) true;
              Sys (CtxErr (cancel ctx)) e]) \/
     (exists e, r = Fail e /\ IsNotExist (Some e) = false /\
        x = inr (inl (Some e)) /\ tr = [Sys (ReadDir path) r] /\ w' = w1) \/
     (exists first rest, r = Ok (first :: rest) /\
        x = inr (inr (first :: rest)) /\ tr = [Sys (ReadDir path) r] /\ w' = w1)).
Proof.
  intros H.
  destruct (answer _ (ReadDir path) w) as [r w1] eqn:Hr. exists r, w1.
  split; [reflexivity|].
  destruct (transient r) eqn:Ht.
  - destruct (answer _ (CtxDone (cancel ctx)) w1) as [[|] w2] eqn:Hd.
    + destruct (answer _ (CtxErr (cancel ctx)) w2) as [e w3] eqn:He.
      pose proof (readBlock_done _ answer ctx path _ _ _ _ _ _ Hr Ht Hd He) as H'.
      destruct (returns_det _ _ _ _ _ _ _ _ _ _ H H') as (-> & -> & ->).
      right; left. split; [reflexivity|]. now exists e.
    + destruct (answer _ (TimeSleep (10 * Millisecond)%Z) w2) as [u w3] eqn:Hs.
      pose proof (readBlock_waits _ answer ctx path _ _ _ _ _ _ Hr Ht Hd Hs) as H'.
      destruct (returns_det _ _ _ _ _ _ _ _ _ _ H H') as (-> & -> & ->).
      left. auto.
  - destruct r as [[|first rest]|e]; [discriminate | |].
    + pose proof (readBlock_finds _ answer ctx path _ _ _ _ Hr) as H'.
      destruct (returns_det _ _ _ _ _ _ _ _ _ _ H H') as (-> & -> & ->).
      right; right; right. exists first, rest. auto.
    + pose proof (readBlock_fails _ answer ctx path _ _ _ Hr Ht) as H'.
      destruct (returns_det _ _ _ _ _ _ _ _ _ _ H H') as (-> & -> & ->).
      right; right; left. exists e. auto.
Qed.

(** What the loop of [ControllerLunToName] leaves with comes from its
    record. *)
Lemma resolve_loop_result {W} (answer : forall T : Type, sysE T -> W -> T * W)
  ctx path (w : W) tr w' r :
  returns answer (ITree.iter (scsi.readBlock ctx path) tt) w tr w' r ->
  match r with
  | inl (Some x) =>
      In (Sys (ReadDir path) (Fail x)) tr \/ In (Sys (CtxErr (cancel ctx)) (Some x)) tr
  | inl None => In (Sys (CtxErr (cancel ctx)) None) tr
  | inr names => names <> [] /\ In (Sys (ReadDir path) (Ok names)) tr
  end.
Proof.
  revert w tr w' r.
  assert (Hgen : forall (u : unit) w tr w' r,
    returns answer (ITree.iter (scsi.readBlock ctx path) u) w tr w' r ->
    match r with
    | inl (Some x) =>
        In (Sys (ReadDir path) (Fail x)) tr \/ In (Sys (CtxErr (cancel ctx)) (Some x)) tr
    | inl None => In (Sys (CtxErr (cancel ctx)) None) tr
    | inr names => names <> [] /\ In (Sys (ReadDir path) (Ok names)) tr
    end); [|intros; now apply (Hgen tt w tr w')].
  apply (returns_iter_ind _ answer (scsi.readBlock ctx path)
           (fun _ _ tr _ r =>
              match r with
              | inl (Some x) =>
                  In (Sys (ReadDir path) (Fail x)) tr \/
                  In (Sys (CtxErr (cancel ctx)) (Some x)) tr
              | inl None => In (Sys (CtxErr (cancel ctx)) None) tr
              | inr names => names <> [] /\ In (Sys (ReadDir path) (Ok names)) tr
              end)).
  - intros [] w tr w1 r H. apply readBlock_inv in H.
    destruct H as (a & v & _ & [(_ & [=] & _) | [(_ & e & [= ->] & ->) |
                   [(e & -> & _ & [= ->] & -> & _) | (f & rest & -> & [= ->] & -> & _)]]]).
    + destruct e as [x|]; [right|]; right; right; left; reflexivity.
    + left. left. reflexivity.
    + split; [discriminate | left; reflexivity].
  - intros [] w tr1 w1 l tr2 w2 r _ _ IH.
    destruct r as [[x|]|names].
    + destruct IH; [left | right]; apply in_or_app; now right.
    + apply in_or_app; now right.
    + destruct IH as [Hne Hin]. split; [exact Hne | apply in_or_app; now right].
Qed.

(** X6: whatever [ControllerLunToName] returns comes from its record.  A
    path that is not empty comes with no error and is [/dev] joined with
    the name of the one entry of a listing that was read.  An error comes
    with the empty path and is, as it is, the error of a read of the
    listing or the error of the cancellation source, or else the
    ambiguous-device error after a listing of two entries or more. *)
Theorem ControllerLunToName_result {W} (answer : forall T : Type, sysE T -> W -> T * W)
  ctx controller lun (w : W) tr w' (devicePath : string) (err : error) :
  returns answer (scsi.ControllerLunToName ctx controller lun) w tr w' (devicePath, err) ->
  (devicePath <> EmptyString ->
   err = None /\
   exists first,
     In (Sys (ReadDir (sysfs controller lun "block")) (Ok [first])) tr /\
     devicePath = filepath.Join ["/dev"; Name first]) /\
  (forall x, err = Some x ->
   devicePath = EmptyString /\
   (In (Sys (ReadDir (sysfs controller lun "block")) (Fail x)) tr \/
    In (Sys (CtxErr (cancel ctx)) (Some x)) tr \/
    (x = scsi.errAmbiguous (scsi.scsiID controller lun) /\
     exists first second rest,
       In (Sys (ReadDir (sysfs controller lun "block")) (Ok (first :: second :: rest))) tr))).
Proof.
  intros H. apply ControllerLunToName_iff in H.
  destruct H as (trl & r & Hl & Hres & ->).
  apply resolve_loop_result in Hl.
  assert (Hin : forall en, In en trl ->
            In en (resolve_start ctx controller lun ++ trl
                   ++ fst (resolved (in_span ctx resolve_span)
                             (scsi.scsiID controller lun) r)
                   ++ resolve_end (snd (devicePath, err)))).
  { intros en Hen. apply in_or_app. right. apply in_or_app. now left. }
  destruct r as [[x|] | [|first [|second rest]]]; cbn [resolved snd] in Hres;
    injection Hres as -> ->.
  - split; [congruence|]. intros x' [= <-]. split; [reflexivity|].
    destruct Hl as [Hl | Hl]; [left | right; left]; now apply Hin.
  - split; [congruence | discriminate].
  - now destruct Hl.
  - destruct Hl as [_ Hl]. split; [|discriminate].
    intros _. split; [reflexivity|]. exists first. split; [now apply Hin | reflexivity].
  - destruct Hl as [_ Hl]. split; [congruence|].
    intros x' [= <-]. split; [reflexivity|]. right; right. split; [reflexivity|].
    exists first, second, rest. now apply Hin.
Qed.

(** ** More of [Mount] *)

(** X7: when the target has been created and the resolution fails,
    [Mount] removes the target and returns the error of the resolution as
    it is; no mount call is made. *)
Theorem Mount_resolution_fails {W} (answer : forall T : Type, sysE T -> W -> T * W)
  ctx controller lun target readonly (w w1 w2 w3 : W) (trr : trace)
  (source : string) (e : Err) (ra : error) :
  answer _ (MkdirAll target 448) w = (None, w1) ->
  returns answer (scsi.ControllerLunToName (in_span ctx mount_span) controller lun)
    w1 trr w2 (source, Some e) ->
  answer _ (RemoveAll target) w2 = (ra, w3) ->
  returns answer (scsi.Mount ctx controller lun target readonly) w
    (mount_start ctx controller lun ++ [Sys (MkdirAll target 448) None] ++ trr ++
     [Sys (RemoveAll target) ra] ++ mount_end (Some e))
    w3 (Some e) /\
  existsb is_UnixMount trr = false.
Proof.
  intros Hm Hr Hrm. split.
  - apply Mount_iff. exists None, w1. split; [exact Hm|].
    exists trr, w2, [Sys (RemoveAll target) ra]. split; [|split; [|reflexivity]].
    + apply mounting_iff. exists trr, w2, source, (Some e). auto.
    + apply rollback_iff. now exists ra.
  - apply Forall_not_existsb.
    eapply Forall_impl;
      [|exact (always_returns _ answer _ _ _ _ _ _
                 (ControllerLunToName_calls _ answer (in_span ctx mount_span)
                    controller lun w1) Hr)].
    intros [o | T s a]; [easy|]. destruct s; easy.
Qed.

(** The ways a turn of the loop of [Mount] can go. *)
Lemma mountOnce_inv {W} (answer : forall T : Type, sysE T -> W -> T * W)
  ctx source target readonly (w : W) tr w' x :
  returns answer
    (scsi.mountOnce ctx source target (scsi.mountFlags readonly)
       (scsi.mountData readonly) tt) w tr w' x ->
  exists a w1,
    answer _ (mount_call source target readonly) w = (a, w1) /\
    ((not_yet a = true /\ x = inl tt /\
      tr = waited (mount_call source target readonly) a (cancel ctx)) \/
     (not_yet a = true /\ exists e,
        x = inr e /\
        tr = [Sys (mount_call source target readonly) a;
              Sys (CtxDone (cancel ctx)) true; Sys (CtxErr (cancel ctx)) e]) \/
     (not_yet a = false /\ x = inr a /\
      tr = [Sys (mount_call source target readonly) a] /\ w' = w1)).
Proof.
  intros H.
  destruct (answer _ (mount_call source target readonly) w) as [a w1] eqn:Ha.
  exists a, w1. split; [reflexivity|].
  destruct (not_yet a) eqn:Hn.
  - destruct (answer _ (CtxDone (cancel ctx)) w1) as [[|] w2] eqn:Hd.
    + destruct (answer _ (CtxErr (cancel ctx)) w2) as [e w3] eqn:He.
      pose proof (mountOnce_done _ answer ctx source target readonly
                    _ _ _ _ _ _ Ha Hn Hd He) as H'.
      destruct (returns_det _ _ _ _ _ _ _ _ _ _ H H') as (-> & -> & ->).
      right; left. split; [reflexivity|]. now exists e.
    + destruct (answer _ (TimeSleep (10 * Millisecond)%Z) w2) as [u w3] eqn:Hs.
      pose proof (mountOnce_waits _ answer ctx source target readonly
                    _ _ _ _ _ _ Ha Hn Hd Hs) as H'.
      destruct (returns_det _ _ _ _ _ _ _ _ _ _ H H') as (-> & -> & ->).
      left. auto.
  - pose proof (mountOnce_ends _ answer ctx source target readonly _ _ _ Ha Hn) as H'.
    destruct (returns_det _ _ _ _ _ _ _ _ _ _ H H') as (-> & -> & ->).
    right; right. auto.
Qed.

Lemma not_yet_false_Some x : not_yet (Some x) = false -> x <> ENOENT.
Proof. intros H ->. discriminate. Qed.

(** What the loop of [Mount] leaves with comes from its record. *)
Lemma mount_loop_result {W} (answer : forall T : Type, sysE T -> W -> T * W)
  ctx source target readonly (u : unit) (w : W) tr w' r :
  returns answer
    (ITree.iter (scsi.mountOnce ctx source target (scsi.mountFlags readonly)
                   (scsi.mountData readonly)) u) w tr w' r ->
  match r with
  | Some x =>
      (x <> ENOENT /\ In (Sys (mount_call source target readonly) (Some x)) tr) \/
      In (Sys (CtxErr (cancel ctx)) (Some x)) tr
  | None =>
      In (Sys (mount_call source target readonly) None) tr \/
      In (Sys (CtxErr (cancel ctx)) None) tr
  end.
Proof.
  revert u w tr w' r.
  apply (returns_iter_ind _ answer
           (scsi.mountOnce ctx source target (scsi.mountFlags readonly)
              (scsi.mountData readonly))
           (fun _ _ tr _ r =>
              match r with
              | Some x =>
                  (x <> ENOENT /\
                   In (Sys (mount_call source target readonly) (Some x)) tr) \/
                  In (Sys (CtxErr (cancel ctx)) (Some x)) tr
              | None =>
                  In (Sys (mount_call source target readonly) None) tr \/
                  In (Sys (CtxErr (cancel ctx)) None) tr
              end)).
  - intros [] w tr w1 r H. apply mountOnce_inv in H.
    destruct H as (a & v & _ & [(_ & [=] & _) | [(_ & e & [= ->] & ->) |
                                (Hn & [= ->] & -> & _)]]).
    + destruct e as [x|]; right; right; right; left; reflexivity.
    + destruct a as [x|].
      * left. split; [now apply not_yet_false_Some | left; reflexivity].
      * left. left. reflexivity.
  - intros [] w tr1 w1 l tr2 w2 r _ _ IH.
    destruct r as [x|].
    + destruct IH as [[Hne Hin] | Hin]; [left; split; [exact Hne|] | right];
        apply in_or_app; now right.
    + destruct IH as [Hin | Hin]; [left | right]; apply in_or_app; now right.
Qed.

(** X8: whatever [Mount] returns comes from its record.  An error is, as it
    is, the error of the creation of the target, of a read of the listing,
    of the cancellation source, or of a mount call that failed with
    something other than [ENOENT], or else it is the ambiguous-device
    error.  No error means that the target was created and that a mount
    call succeeded (or that the cancellation source, done, gave no error). *)
Theorem Mount_result {W} (answer : forall T : Type, sysE T -> W -> T * W)
  ctx controller lun target readonly (w : W) tr w' (res : error) :
  returns answer (scsi.Mount ctx controller lun target readonly) w tr w' res ->
  match res with
  | Some x =>
      In (Sys (MkdirAll target 448) (Some x)) tr \/
      In (Sys (ReadDir (sysfs controller lun "block")) (Fail x)) tr \/
      In (Sys (CtxErr (cancel ctx)) (Some x)) tr \/
      x = scsi.errAmbiguous (scsi.scsiID controller lun) \/
      (x <> ENOENT /\
       exists source, In (Sys (mount_call source target readonly) (Some x)) tr)
  | None =>
      In (Sys (MkdirAll target 448) None) tr /\
      ((exists source, In (Sys (mount_call source target readonly) None) tr) \/
       In (Sys (CtxErr (cancel ctx)) None) tr)
  end.
Proof.
  intros H. apply Mount_iff in H. destruct H as (a & w1 & Hm & H).
  destruct a as [e|].
  { destruct H as (-> & _ & ->). left.
    apply in_or_app. right. left. reflexivity. }
  destruct H as (trb & w2 & tre & Hb & _ & ->).
  assert (Hmk : In (Sys (MkdirAll target 448) None)
                  (mount_start ctx controller lun ++ [Sys (MkdirAll target 448) None]
                   ++ trb ++ tre ++ mount_end res)).
  { apply in_or_app. right. left. reflexivity. }
  assert (Hin : forall en, In en trb ->
                  In en (mount_start ctx controller lun
                         ++ [Sys (MkdirAll target 448) None]
                         ++ trb ++ tre ++ mount_end res)).
  { intros en Hen. rewrite !in_app_iff. tauto. }
  apply mounting_iff in Hb. destruct Hb as (trr & v & source & rerr & Hr & Hb).
  destruct rerr as [x|].
  - destruct Hb as (-> & _ & ->).
    apply ControllerLunToName_iff in Hr. destruct Hr as (trl & r & Hl & Hres & ->).
    apply resolve_loop_result in Hl. change (cancel (in_span ctx mount_span)) with (cancel ctx) in Hl.
    assert (Hin' : forall en, In en trl ->
              In en (resolve_start (in_span ctx mount_span) controller lun ++ trl
                     ++ fst (resolved (in_span (in_span ctx mount_span) resolve_span)
                               (scsi.scsiID controller lun) r)
                     ++ resolve_end (snd (source, Some x)))).
    { intros en Hen. rewrite !in_app_iff. tauto. }
    destruct r as [[y|] | [|first [|second rest]]]; cbn [resolved snd] in Hres;
      try discriminate Hres; injection Hres as -> ->.
    + destruct Hl as [Hl | Hl]; [right; left | right; right; left];
        apply Hin, Hin', Hl.
    + now destruct Hl.
    + right; right; right; left. reflexivity.
  - destruct Hb as (trm & Hloop & ->).
    apply mount_loop_result in Hloop.
    change (cancel (in_span ctx mount_span)) with (cancel ctx) in Hloop.
    assert (Hin' : forall en, In en trm -> In en (trr ++ trm)).
    { intros en Hen. apply in_or_app. now right. }
    destruct res as [x|].
    + destruct Hloop as [[Hne Hl] | Hl].
      * right; right; right; right. split; [exact Hne|]. exists source.
        apply Hin, Hin', Hl.
      * right; right; left. apply Hin, Hin', Hl.
    + split; [exact Hmk|]. destruct Hloop as [Hl | Hl].
      * left. exists source. apply Hin, Hin', Hl.
      * right. apply Hin, Hin', Hl.
Qed.

(** ** More of [UnplugDevice] *)

(** X9: when the control file cannot be opened for a reason other than
    its absence, [UnplugDevice] returns the error of the open as it is;
    the open is its last call: nothing is written and nothing is closed. *)
Theorem UnplugDevice_open_error {W} (answer : forall T : Type, sysE T -> W -> T * W)
  Duration_String ctx controller lun (w w1 w2 : W) (t : Time) (e : Err) :
  answer _ TimeNow w = (t, w1) ->
  answer _ (OpenFile (sysfs controller lun "delete") O_WRONLY 420) w1 = (Fail e, w2) ->
  IsNotExist (Some e) = false ->
  returns answer (scsi.UnplugDevice Duration_String ctx controller lun) w
    [Obs (SpanStart ctx unplug_span);
     Obs (SpanAttrs unplug_span (int64 controller) (int64 lun));
     Sys TimeNow t;
     Sys (OpenFile (sysfs controller lun "delete") O_WRONLY 420) (Fail e);
     Obs (SpanStatus unplug_span (Some e));
     Obs (SpanEnd unplug_span)]
    w2 (Some e).
Proof.
  intros Hnow Hopen Hne.
  pose proof (Unplug_open_fails _ answer Duration_String ctx controller lun
                w t w1 e w2 Hnow Hopen) as H.
  rewrite Hne in H. exact H.
Qed.

(** X10: [UnplugDevice] closes the file it opened, once, as its last call,
    whatever became of the writes and whatever the closing answers; and it
    closes nothing when the open failed. *)
Theorem UnplugDevice_closes {W} (answer : forall T : Type, sysE T -> W -> T * W)
  Duration_String ctx controller lun (w : W) :
  exists tr w' res,
    returns answer (scsi.UnplugDevice Duration_String ctx controller lun) w tr w' res /\
    match fst (answer _ (OpenFile (sysfs controller lun "delete") O_WRONLY 420)
                 (snd (answer _ TimeNow w))) with
    | Ok f =>
        exists pre cerr,
          tr = pre ++ [Sys (FileClose f) cerr; Obs (SpanStatus unplug_span res);
                       Obs (SpanEnd unplug_span)] /\
          existsb is_FileClose pre = false
    | Fail _ => existsb is_FileClose tr = false
    end.
Proof.
  destruct (answer _ TimeNow w) as [t w1] eqn:Hnow. cbn [snd].
  destruct (answer _ (OpenFile (sysfs controller lun "delete") O_WRONLY 420) w1)
    as [[f|e] w2] eqn:Hopen; cbn [fst].
  2:{ do 3 eexists. split.
      - eapply (Unplug_open_fails _ answer Duration_String ctx); eassumption.
      - reflexivity. }
  destruct (answer _ (TimeSince t) w2) as [d w3] eqn:Hsince.
  destruct (answer _ TimeNow w3) as [t' w4] eqn:Hnow'.
  destruct (answer _ (FileWrite f ("1" ++ newline)%string) w4) as [[n werr] w5] eqn:Hwrite.
  assert (Hshape : forall rest w6 w7 cerr res,
    returns answer (scsi.UnplugDevice Duration_String ctx controller lun) w
      (unplug_opened ctx controller lun t f d t' (n, werr) ++ rest ++
       [Sys (FileClose f) cerr; Obs (SpanStatus unplug_span res);
        Obs (SpanEnd unplug_span)]) w7 res ->
    existsb is_FileClose rest = false ->
    answer _ (FileClose f) w6 = (cerr, w7) ->
    exists tr w' res,
      returns answer (scsi.UnplugDevice Duration_String ctx controller lun) w tr w' res /\
      exists pre cerr,
        tr = pre ++ [Sys (FileClose f) cerr; Obs (SpanStatus unplug_span res);
                     Obs (SpanEnd unplug_span)] /\
        existsb is_FileClose pre = false).
  { intros rest w6 w7 cerr res Hr Hrest _. do 3 eexists. split; [exact Hr|].
    exists (unplug_opened ctx controller lun t f d t' (n, werr) ++ rest), cerr.
    split; [now rewrite <- app_assoc|].
    rewrite existsb_app, Hrest. reflexivity. }
  destruct werr as [e|].
  { destruct (answer _ (FileClose f) w5) as [cerr w6] eqn:Hclose.
    eapply (Hshape [] w5 w6 cerr (Some e)); [|reflexivity | exact Hclose].
    eapply (Unplug_opened _ answer Duration_String ctx); try eassumption.
    apply returns_Ret. }
  destruct (answer _ (TimeSince t') w5) as [d2 w6] eqn:Hsince2.
  destruct (answer _ (WriteFile "/dev/kmsg"
              ("Time for scsi unplug: " ++ Duration_String d2)%string 420) w6)
    as [kerr w7] eqn:Hkmsg.
  destruct kerr as [e|].
  { destruct (answer _ (FileClose f) w7) as [cerr w8] eqn:Hclose.
    eapply (Hshape [_; _] w7 w8 cerr (Some e));
      [eapply (Unplug_opened _ answer Duration_String ctx); try eassumption;
       (eapply sys_then; [exact Hsince2|]); (eapply sys_then; [exact Hkmsg|]);
       apply returns_Ret
      | reflexivity | exact Hclose]. }
  destruct (answer _ (TimeSince t') w7) as [d3 w8] eqn:Hsince3.
  destruct (answer _ (FileClose f) w8) as [cerr w9] eqn:Hclose.
  eapply (Hshape [_; _; _; _] w8 w9 cerr None);
    [eapply (Unplug_opened _ answer Duration_String ctx); try eassumption;
     (eapply sys_then; [exact Hsince2|]); (eapply sys_then; [exact Hkmsg|]);
     cbv beta iota;
     (eapply sys_then; [exact Hsince3|]); apply emit_then; apply returns_Ret
    | reflexivity | exact Hclose].
Qed.

(** ** A context that is done from the start *)

Lemma count_app p tr1 tr2 : count p (tr1 ++ tr2) = count p tr1 + count p tr2.
Proof. unfold count. now rewrite filter_app, length_app. Qed.

(** What every answer keeps, a run keeps. *)
Lemma run_keeps {W R} (answer : forall T : Type, sysE T -> W -> T * W)
  (I : W -> Prop) :
  (forall T (e : sysE T) v, I v -> I (snd (answer _ e v))) ->
  forall n (t : itree scsiE R) w tr w' r,
    run answer n t w = Some (tr, w', r) -> I w -> I w'.
Proof.
  intros Hkeep. induction n as [|n IH]; intros t w tr w' r H Hw; [discriminate|].
  simpl in H. destruct (observe t) as [r0 | t' | X e k].
  - now injection H as _ <- _.
  - eapply IH; eassumption.
  - destruct e as [o | s].
    + destruct o.
      destruct (run answer n (k tt) w) as [[[tr0 w0] r0]|] eqn:E; [|discriminate].
      injection H as _ <- _. eapply IH; eassumption.
    + pose proof (Hkeep _ s w Hw) as Hw1.
      destruct (answer _ s w) as [a w1].
      destruct (run answer n (k a) w1) as [[[tr0 w0] r0]|] eqn:E; [|discriminate].
      injection H as _ <- _. eapply IH; eassumption.
Qed.

(** With a cancellation source that is done whenever it is asked,
    [ControllerLunToName] returns after one read and no sleep. *)
Lemma resolver_when_done {W} (answer : forall T : Type, sysE T -> W -> T * W)
  ctx controller lun (I : W -> Prop) :
  (forall T (e : sysE T) v, I v -> I (snd (answer _ e v))) ->
  (forall v, I v -> fst (answer _ (CtxDone (cancel ctx)) v) = true) ->
  forall w, I w -> exists tr w' res,
    returns answer (scsi.ControllerLunToName ctx controller lun) w tr w' res /\
    count is_ReadDir tr = 1 /\ count is_Sleep tr = 0 /\ count is_UnixMount tr = 0.
Proof.
  intros Hkeep Hdone w Hw.
  pose proof (Hkeep _ (ReadDir (sysfs controller lun "block")) w Hw) as Hw1.
  destruct (answer _ (ReadDir (sysfs controller lun "block")) w) as [r w1] eqn:Hr.
  assert (Hgo : forall last w2 x,
    returns answer (scsi.readBlock (in_span ctx resolve_span)
                      (sysfs controller lun "block") tt) w last w2 (inr x) ->
    count is_ReadDir last = 1 -> count is_Sleep last = 0 ->
    count is_UnixMount last = 0 ->
    exists tr w' res,
      returns answer (scsi.ControllerLunToName ctx controller lun) w tr w' res /\
      count is_ReadDir tr = 1 /\ count is_Sleep tr = 0 /\ count is_UnixMount tr = 0).
  { intros last w2 x Hlast H1 H2 H3. do 3 eexists. split.
    - exact (resolve_after_waits _ answer ctx controller lun 0 w [] w last w2 x
               eq_refl Hlast).
    - rewrite !count_app, H1, H2, H3.
      destruct x as [err | [|first [|second rest]]]; repeat split; reflexivity. }
  destruct (transient r) eqn:Ht.
  - destruct (answer _ (CtxDone (cancel ctx)) w1) as [d w2] eqn:Hd.
    cbn [snd] in Hw1.
    pose proof (Hdone w1 Hw1) as Hd1. rewrite Hd in Hd1. cbn [fst] in Hd1. subst d.
    destruct (answer _ (CtxErr (cancel ctx)) w2) as [e w3] eqn:He.
    eapply Hgo;
      [exact (readBlock_done _ answer (in_span ctx resolve_span) _ _ _ _ _ _ _
                Hr Ht Hd He) | reflexivity ..].
  - destruct r as [[|first rest]|e]; [discriminate | |].
    + eapply Hgo;
        [exact (readBlock_finds _ answer (in_span ctx resolve_span) _ _ _ _ _ Hr)
        | reflexivity ..].
    + eapply Hgo;
        [exact (readBlock_fails _ answer (in_span ctx resolve_span) _ _ _ _ Hr Ht)
        | reflexivity ..].
Qed.


(** X12: with a context whose cancellation source is done whenever it is
    asked ([I] holds of the states the world can be in, and of [w]),
    [Mount] returns, without sleeping, after at most one read of the
    listing and at most one mount call. *)
Theorem Mount_when_done {W} (answer : forall T : Type, sysE T -> W -> T * W)
  ctx controller lun target readonly (I : W -> Prop) (w : W) :
  (forall T (e : sysE T) v, I v -> I (snd (answer _ e v))) ->
  (forall v, I v -> fst (answer _ (CtxDone (cancel ctx)) v) = true) ->
  I w ->
  exists tr w' res,
    returns answer (scsi.Mount ctx controller lun target readonly) w tr w' res /\
    count is_Sleep tr = 0 /\ count is_ReadDir tr <= 1 /\ count is_UnixMount tr <= 1.
Proof.
  intros Hkeep Hdone Hw.
  pose proof (Hkeep _ (MkdirAll target 448) w Hw) as Hw1.
  destruct (answer _ (MkdirAll target 448) w) as [[e|] w1] eqn:Hm; cbn [snd] in Hw1.
  { do 3 eexists. split.
    - apply Mount_iff. exists (Some e), w1. split; [exact Hm|]. repeat split.
    - cbv. repeat split; lia. }
  destruct (resolver_when_done answer (in_span ctx mount_span) controller lun
              I Hkeep Hdone w1 Hw1) as (trr & w2 & [source rerr] & Hr & Hr1 & Hr2 & Hr3).
  assert (Hw2 : I w2) by (destruct Hr as [n Hn]; exact (run_keeps answer I Hkeep _ _ _ _ _ _ Hn Hw1)).
  assert (Hroll : forall res v, exists tre v',
            returns answer (rollback target res) v tre v' tt /\
            count is_Sleep tre = 0 /\ count is_ReadDir tre = 0 /\
            count is_UnixMount tre = 0).
  { intros [x|] v.
    - destruct (answer _ (RemoveAll target) v) as [ra v'] eqn:Hrm.
      exists [Sys (RemoveAll target) ra], v'. split; [|repeat split].
      apply rollback_iff. now exists ra.
    - exists [], v. split; [|repeat split]. now apply rollback_iff. }
  destruct rerr as [x|].
  { destruct (Hroll (Some x) w2) as (tre & w3 & Hre & Ht1 & Ht2 & Ht3).
    do 3 eexists. split.
    - apply Mount_iff. exists None, w1. split; [exact Hm|].
      exists trr, w2, tre. split; [|split; [exact Hre | reflexivity]].
      apply mounting_iff. exists trr, w2, source, (Some x). auto.
    - rewrite !count_app, Hr1, Hr2, Hr3, Ht1, Ht2, Ht3. cbv. repeat split; lia. }
  assert (Hgo : forall last w3 res,
    returns answer
      (scsi.mountOnce (in_span ctx mount_span) source target
         (scsi.mountFlags readonly) (scsi.mountData readonly) tt) w2 last w3 (inr res) ->
    count is_Sleep last = 0 -> count is_ReadDir last = 0 ->
    count is_UnixMount last = 1 ->
    exists tr w' res,
      returns answer (scsi.Mount ctx controller lun target readonly) w tr w' res /\
      count is_Sleep tr = 0 /\ count is_ReadDir tr <= 1 /\ count is_UnixMount tr <= 1).
  { intros last w3 res Hlast H1 H2 H3.
    destruct (Hroll res w3) as (tre & w4 & Hre & Ht1 & Ht2 & Ht3).
    do 3 eexists. split.
    - exact (Mount_after_waits _ answer ctx controller lun target readonly
               w w1 w2 w2 trr [] source 0 Hm Hr eq_refl last w3 res tre w4 Hlast Hre).
    - rewrite !count_app, Hr1, Hr2, Hr3, H1, H2, H3, Ht1, Ht2, Ht3.
      cbv. repeat split; lia. }
  pose proof (Hkeep _ (mount_call source target readonly) w2 Hw2) as Hw3.
  destruct (answer _ (mount_call source target readonly) w2) as [a w3] eqn:Ha.
  cbn [snd] in Hw3.
  destruct (not_yet a) eqn:Hn.
  - destruct (answer _ (CtxDone (cancel ctx)) w3) as [d w4] eqn:Hd.
    pose proof (Hdone w3 Hw3) as Hd1. rewrite Hd in Hd1. cbn [fst] in Hd1. subst d.
    destruct (answer _ (CtxErr (cancel ctx)) w4) as [e w5] eqn:He.
    eapply Hgo;
      [exact (mountOnce_done _ answer (in_span ctx mount_span) source target readonly
                _ _ _ _ _ _ Ha Hn Hd He) | reflexivity ..].
  - eapply Hgo;
      [exact (mountOnce_ends _ answer (in_span ctx mount_span) source target readonly
                _ _ _ Ha Hn) | reflexivity ..].
Qed.

(** ** [ParseOptions] *)

Section ParseOptions.

Variable h : client.Host.

Lemma option_value_split v key value :
  option_value h key v = Some value ->
  exists k, strings.SplitN_2 v "=" = [k; value] /\ client.ToLower h k = key.
Proof.
  unfold option_value. intros H.
  destruct (strings.SplitN_2 v "=") as [|k [|value' [|x rest]]]; try discriminate.
  destruct (String.eqb (client.ToLower h k) key) eqn:E; [|discriminate].
  injection H as ->. apply String.eqb_eq in E. now exists k.
Qed.

(** One turn of the loop, by what the option is. *)
Lemma parseLoop_cons rOpts v rest :
  client.parseLoop h rOpts (v :: rest) =
  match option_value h "lcow.kirdpath" v with
  | Some value => client.parseLoop h (client.set_KirdPath value rOpts) rest
  | None =>
      match option_value h "lcow.bootparameters" v with
      | Some value => client.parseLoop h (client.set_BootParameters value rOpts) rest
      | None =>
          match option_value h "lcow.timeout" v with
          | Some value =>
              let (n, err) := strconv.Atoi (client.intSize h) value in
              match err with
              | Some _ => inr (client.set_TimeoutSeconds n rOpts, client.errTimeoutNotInteger)
              | None =>
                  if (n <? 0)%Z
                  then inr (client.set_TimeoutSeconds n rOpts, client.errTimeoutNegative)
                  else client.parseLoop h (client.set_TimeoutSeconds n rOpts) rest
              end
          | None => client.parseLoop h rOpts rest
          end
      end
  end.
Proof.
  unfold option_value. cbn [client.parseLoop].
  destruct (strings.SplitN_2 v "=") as [|k [|value [|x l]]]; try reflexivity.
  destruct (String.eqb (client.ToLower h k) "lcow.kirdpath") eqn:E1; [reflexivity|].
  destruct (String.eqb (client.ToLower h k) "lcow.bootparameters") eqn:E2; [reflexivity|].
  destruct (String.eqb (client.ToLower h k) "lcow.timeout") eqn:E3; reflexivity.
Qed.

Lemma option_value_one key key' v value :
  option_value h key v = Some value -> key <> key' -> option_value h key' v = None.
Proof.
  intros H Hne. apply option_value_split in H. destruct H as (k & Hs & Hk).
  unfold option_value. rewrite Hs, Hk.
  destruct (String.eqb key key') eqn:E; [|reflexivity].
  apply String.eqb_eq in E. contradiction.
Qed.

Lemma last_value_acc key options acc :
  fold_left (fun acc v =>
               match option_value h key v with
               | Some value => Some value
               | None => acc
               end) options acc =
  match last_value h key options with
  | Some value => Some value
  | None => acc
  end.
Proof.
  unfold last_value. revert acc. induction options as [|v rest IH]; intros acc.
  - reflexivity.
  - cbn [fold_left]. rewrite (IH (match option_value h key v with
                                  | Some value => Some value | None => acc end)).
    rewrite (IH (match option_value h key v with
                 | Some value => Some value | None => None end)).
    destruct (fold_left _ rest None); [reflexivity|].
    destruct (option_value h key v); reflexivity.
Qed.

Lemma last_value_cons key v rest :
  last_value h key (v :: rest) =
  match last_value h key rest with
  | Some value => Some value
  | None => option_value h key v
  end.
Proof.
  unfold last_value at 1. cbn [fold_left]. rewrite last_value_acc.
  destruct (last_value h key rest); [reflexivity|].
  destruct (option_value h key v); reflexivity.
Qed.

(** The loop runs through exactly when every timeout option is a numeral
    of a non-negative integer. *)
Lemma parseLoop_through options : forall rOpts,
  (exists rOpts', client.parseLoop h rOpts options = inl rOpts') <->
  Forall (fun v => forall value,
            option_value h "lcow.timeout" v = Some value -> timeout_ok h value = true)
    options.
Proof.
  induction options as [|v rest IH]; intros rOpts.
  - split; [constructor | now exists rOpts].
  - rewrite parseLoop_cons, Forall_cons_iff.
    destruct (option_value h "lcow.kirdpath" v) as [x|] eqn:E1.
    { rewrite IH. rewrite (option_value_one _ _ _ _ E1) by discriminate.
      split; [intros H; split; [discriminate | exact H] | tauto]. }
    destruct (option_value h "lcow.bootparameters" v) as [x|] eqn:E2.
    { rewrite IH. rewrite (option_value_one _ _ _ _ E2) by discriminate.
      split; [intros H; split; [discriminate | exact H] | tauto]. }
    destruct (option_value h "lcow.timeout" v) as [x|] eqn:E3.
    2:{ rewrite IH. split; [intros H; split; [discriminate | exact H] | tauto]. }
    unfold timeout_ok.
    destruct (strconv.Atoi (client.intSize h) x) as [n [e|]] eqn:Ea.
    + split; [intros [o [=]]|]. intros [H _]. specialize (H x eq_refl).
      rewrite Ea in H. discriminate H.
    + destruct (n <? 0)%Z eqn:En.
      * split; [intros [o [=]]|]. intros [H _]. specialize (H x eq_refl).
        rewrite Ea in H. apply Z.leb_le in H. apply Z.ltb_lt in En. lia.
      * rewrite IH. split; [|tauto]. intros H. split; [|exact H].
        intros x' [= <-]. rewrite Ea. apply Z.leb_le. apply Z.ltb_ge in En. exact En.
Qed.

(** What the loop leaves in the options when it runs through: for each
    key the value of the last option with that key, or what was there. *)
Lemma parseLoop_last options : forall rOpts rOpts',
  client.parseLoop h rOpts options = inl rOpts' ->
  client.KirdPath rOpts' =
    match last_value h "lcow.kirdpath" options with
    | Some value => value
    | None => client.KirdPath rOpts
    end /\
  client.BootParameters rOpts' =
    match last_value h "lcow.bootparameters" options with
    | Some value => value
    | None => client.BootParameters rOpts
    end /\
  client.TimeoutSeconds rOpts' =
    match last_value h "lcow.timeout" options with
    | Some value => fst (strconv.Atoi (client.intSize h) value)
    | None => client.TimeoutSeconds rOpts
    end.
Proof.
  induction options as [|v rest IH]; intros rOpts rOpts' H.
  - injection H as <-. auto.
  - rewrite parseLoop_cons in H. rewrite !last_value_cons.
    destruct (option_value h "lcow.kirdpath" v) as [x|] eqn:E1.
    { rewrite (option_value_one _ "lcow.bootparameters" _ _ E1) by discriminate.
      rewrite (option_value_one _ "lcow.timeout" _ _ E1) by discriminate.
      apply IH in H. destruct H as (H1 & H2 & H3). rewrite H1, H2, H3.
      clear IH H1 H2 H3.
      destruct (last_value h "lcow.kirdpath" rest),
        (last_value h "lcow.bootparameters" rest),
        (last_value h "lcow.timeout" rest); repeat split; reflexivity. }
    destruct (option_value h "lcow.bootparameters" v) as [x|] eqn:E2.
    { rewrite (option_value_one _ "lcow.timeout" _ _ E2) by discriminate.
      apply IH in H. destruct H as (H1 & H2 & H3). rewrite H1, H2, H3.
      clear IH H1 H2 H3.
      destruct (last_value h "lcow.kirdpath" rest),
        (last_value h "lcow.bootparameters" rest),
        (last_value h "lcow.timeout" rest); repeat split; reflexivity. }
    destruct (option_value h "lcow.timeout" v) as [x|] eqn:E3.
    2:{ apply IH in H. destruct H as (H1 & H2 & H3). rewrite H1, H2, H3.
        clear IH H1 H2 H3.
      destruct (last_value h "lcow.kirdpath" rest),
        (last_value h "lcow.bootparameters" rest),
        (last_value h "lcow.timeout" rest); repeat split; reflexivity. }
    destruct (strconv.Atoi (client.intSize h) x) as [n [e|]] eqn:Ea; [discriminate|].
    destruct (n <? 0)%Z; [discriminate|].
    apply IH in H. destruct H as (H1 & H2 & H3). rewrite H1, H2, H3.
    clear IH H1 H2 H3.
    destruct (last_value h "lcow.kirdpath" rest),
      (last_value h "lcow.bootparameters" rest),
      (last_value h "lcow.timeout" rest); repeat split; try reflexivity;
      cbv beta iota; rewrite Ea; reflexivity.
Qed.

End ParseOptions.

(** X13: [ParseOptions] returns no error exactly when every option with
    the key [lcow.timeout], in any case of letters, has for value the
    numeral of a non-negative integer; an error is one of its two
    messages about [lcow.timeout]. *)
Theorem ParseOptions_error (h : client.Host) (options : list string) :
  (snd (client.ParseOptions h options) = None <->
   Forall (fun v => forall value,
             option_value h "lcow.timeout" v = Some value -> timeout_ok h value = true)
     options) /\
  (forall e, snd (client.ParseOptions h options) = Some e ->
             e = client.errTimeoutNotInteger \/ e = client.errTimeoutNegative).
Proof.
  split.
  - rewrite <- (parseLoop_through h options (client.mkOptions EmptyString 0 EmptyString)).
    unfold client.ParseOptions.
    destruct (client.parseLoop h _ options) as [o | [o e]]; cbn [snd].
    + split; [now exists o | reflexivity].
    + split; [discriminate | intros [o' [=]]].
  - unfold client.ParseOptions.
    generalize (client.mkOptions EmptyString 0 EmptyString).
    induction options as [|v rest IH]; intros o e.
    + cbn. discriminate.
    + rewrite parseLoop_cons.
      destruct (option_value h "lcow.kirdpath" v); [apply IH|].
      destruct (option_value h "lcow.bootparameters" v); [apply IH|].
      destruct (option_value h "lcow.timeout" v) as [x|]; [|apply IH].
      destruct (strconv.Atoi (client.intSize h) x) as [n [e'|]].
      * cbn. intros [= <-]. now left.
      * destruct (n <? 0)%Z; [|apply IH]. cbn. intros [= <-]. now right.
Qed.

Lemma ParseOptions_timeout_nonneg (h : client.Host) (options : list string)
  (rOpts : client.Options) :
  client.ParseOptions h options = (rOpts, None) ->
  (0 <= client.TimeoutSeconds rOpts)%Z.
Proof.
  unfold client.ParseOptions. intros H.
  destruct (client.parseLoop h (client.mkOptions EmptyString 0 EmptyString) options)
    as [o | [o e]] eqn:E; [|discriminate].
  assert (Hthrough : exists o', client.parseLoop h
             (client.mkOptions EmptyString 0 EmptyString) options = inl o')
    by now exists o.
  apply parseLoop_through in Hthrough.
  apply parseLoop_last in E. destruct E as (_ & _ & H3).
  cbn [client.TimeoutSeconds] in H3. injection H as <-.
  replace (client.TimeoutSeconds
             (if String.eqb (client.KirdPath o) EmptyString
              then client.set_KirdPath (client.defaultKirdPath h) o else o))
    with (client.TimeoutSeconds o)
    by (destruct (String.eqb (client.KirdPath o) EmptyString); reflexivity).
  rewrite H3.
  assert (Hlast : forall value, last_value h "lcow.timeout" options = Some value ->
                    timeout_ok h value = true).
  { clear - Hthrough. induction Hthrough as [|v rest Hv _ IH]; [discriminate|].
    intros value. rewrite last_value_cons.
    destruct (last_value h "lcow.timeout" rest) as [x|]; [intros [= <-]; now apply IH|].
    apply Hv. }
  destruct (last_value h "lcow.timeout" options) as [value|]; [|lia].
  specialize (Hlast value eq_refl). unfold timeout_ok in Hlast.
  destruct (strconv.Atoi (client.intSize h) value) as [n [e|]]; [discriminate|].
  now apply Z.leb_le.
Qed.

(** X14: when [ParseOptions] returns no error, each option it returns is
    the value of the last option of the list with its key: the kird path,
    unless that value is empty or there is none, in which case it is the
    default path under [ProgramFiles]; the boot parameters, empty if there
    are none; the timeout, zero if there is none, and never negative. *)
Theorem ParseOptions_last_wins (h : client.Host) (options : list string)
  (rOpts : client.Options) :
  client.ParseOptions h options = (rOpts, None) ->
  client.KirdPath rOpts =
    match last_value h "lcow.kirdpath" options with
    | Some value => if String.eqb value EmptyString then client.defaultKirdPath h else value
    | None => client.defaultKirdPath h
    end /\
  client.BootParameters rOpts =
    match last_value h "lcow.bootparameters" options with
    | Some value => value
    | None => EmptyString
    end /\
  client.TimeoutSeconds rOpts =
    match last_value h "lcow.timeout" options with
    | Some value => fst (strconv.Atoi (client.intSize h) value)
    | None => 0%Z
    end /\
  (0 <= client.TimeoutSeconds rOpts)%Z.
Proof.
  intros H0. pose proof (ParseOptions_timeout_nonneg h options rOpts H0) as Hpos.
  revert H0. unfold client.ParseOptions. intros H.
  destruct (client.parseLoop h (client.mkOptions EmptyString 0 EmptyString) options)
    as [o | [o e]] eqn:E; [|discriminate].
  apply parseLoop_last in E. destruct E as (H1 & H2 & H3).
  cbn [client.KirdPath client.BootParameters client.TimeoutSeconds] in H1, H2, H3.
  injection H as <-. split; [|split; [|split; [|exact Hpos]]].
  - destruct (String.eqb (client.KirdPath o) EmptyString) eqn:Ek.
    + cbn [client.set_KirdPath client.KirdPath]. rewrite H1 in Ek.
      destruct (last_value h "lcow.kirdpath" options) as [value|];
        [now rewrite Ek | reflexivity].
    + rewrite H1 in Ek |- *.
      destruct (last_value h "lcow.kirdpath" options) as [value|];
        [now rewrite Ek | discriminate].
  - rewrite <- H2. destruct (String.eqb (client.KirdPath o) EmptyString); reflexivity.
  - rewrite <- H3. destruct (String.eqb (client.KirdPath o) EmptyString); reflexivity.
Qed.

(** X15: an option without the sign [=], or with a key that is none of
    the three, changes nothing: [ParseOptions] gives the same options and
    the same error with it and without it, wherever it stands. *)
Theorem ParseOptions_ignores (h : client.Host) (before after : list string) (v : string) :
  option_value h "lcow.kirdpath" v = None ->
  option_value h "lcow.bootparameters" v = None ->
  option_value h "lcow.timeout" v = None ->
  client.ParseOptions h (before ++ v :: after) = client.ParseOptions h (before ++ after).
Proof.
  intros H1 H2 H3. unfold client.ParseOptions.
  enough (Hloop : forall o, client.parseLoop h o (before ++ v :: after)
                            = client.parseLoop h o (before ++ after))
    by now rewrite Hloop.
  induction before as [|b rest IH]; intros o.
  - cbn [app]. rewrite parseLoop_cons, H1, H2, H3. reflexivity.
  - cbn [app]. rewrite !parseLoop_cons.
    destruct (option_value h "lcow.kirdpath" b); [apply IH|].
    destruct (option_value h "lcow.bootparameters" b); [apply IH|].
    destruct (option_value h "lcow.timeout" b) as [x|]; [|apply IH].
    destruct (strconv.Atoi (client.intSize h) x) as [n [e|]]; [reflexivity|].
    destruct (n <? 0)%Z; [reflexivity | apply IH].
Qed.

(** ** [GenerateDefault] *)

(** [GenerateDefault] in terms of the two things it reads. *)
Lemma GenerateDefault_eq (h : client.Host) (config : client.Config) (options : list string) :
  client.GenerateDefault h config options =
  let (opts, err) := client.ParseOptions h options in
  let config' := client.set_Opts opts config in
  match err with
  | Some _ => (config', err)
  | None =>
      match client.Getenv h "OPENGCS_UVM_TIMEOUT_SECONDS" with
      | EmptyString =>
          (client.set_UvmTimeoutSeconds
             (if (client.TimeoutSeconds opts =? 0)%Z
              then client.defaultUvmTimeoutSeconds else client.TimeoutSeconds opts)
             config', None)
      | value =>
          match strconv.Atoi (client.intSize h) value with
          | (_, Some _) => (config', Some client.errEnvNotInteger)
          | (n, None) =>
              if (n <? 0)%Z then (config', Some client.errEnvNegative)
              else
                (client.set_UvmTimeoutSeconds
                   (if (client.TimeoutSeconds opts =? 0)%Z
                    then (if (n =? 0)%Z then client.defaultUvmTimeoutSeconds else n)
                    else client.TimeoutSeconds opts)
                   config', None)
          end
      end
  end.
Proof.
  unfold client.GenerateDefault.
  destruct (client.ParseOptions h options) as [opts [e|]]; [reflexivity|].
  cbv zeta. cbn [client.Opts client.set_Opts].
  destruct (client.Getenv h "OPENGCS_UVM_TIMEOUT_SECONDS") as [|ch rest].
  - cbn [String.length Nat.ltb Nat.leb].
    destruct (client.TimeoutSeconds opts =? 0)%Z; reflexivity.
  - cbn [String.length Nat.ltb Nat.leb].
    destruct (strconv.Atoi (client.intSize h) (String ch rest)) as [n [e|]]; [reflexivity|].
    destruct (n <? 0)%Z; [reflexivity|].
    destruct (client.TimeoutSeconds opts =? 0)%Z; [|reflexivity].
    destruct (n =? 0)%Z; reflexivity.
Qed.

(** X16: when [GenerateDefault] returns no error, the timeout of the
    utility VM is the one of the options if that is not zero, else the one
    of the environment if that is not zero, else five minutes; it is
    positive in every case.  The options are the parsed ones, and the name,
    the VM and the disks of the configuration are as they were. *)
Theorem GenerateDefault_timeout (h : client.Host) (config config' : client.Config)
  (options : list string) :
  client.GenerateDefault h config options = (config', None) ->
  client.UvmTimeoutSeconds config' =
    (if negb (client.TimeoutSeconds (fst (client.ParseOptions h options)) =? 0)%Z
     then client.TimeoutSeconds (fst (client.ParseOptions h options))
     else if negb (env_timeout h =? 0)%Z then env_timeout h
     else 300%Z) /\
  (0 < client.UvmTimeoutSeconds config')%Z /\
  client.Opts config' = fst (client.ParseOptions h options) /\
  same_vm config config'.
Proof.
  rewrite GenerateDefault_eq. unfold env_timeout.
  destruct (client.ParseOptions h options) as [opts [e|]] eqn:Ep; [discriminate|].
  pose proof (ParseOptions_timeout_nonneg h options opts Ep) as Hpos.
  cbn [fst].
  assert (Hfin : forall n : Z,
    (0 <= n)%Z ->
    let t := (if (client.TimeoutSeconds opts =? 0)%Z
              then (if (n =? 0)%Z then client.defaultUvmTimeoutSeconds else n)
              else client.TimeoutSeconds opts) in
    t = (if negb (client.TimeoutSeconds opts =? 0)%Z then client.TimeoutSeconds opts
         else if negb (n =? 0)%Z then n else 300%Z) /\ (0 < t)%Z).
  { intros n Hn t. subst t.
    destruct (client.TimeoutSeconds opts =? 0)%Z eqn:E; cbn [negb].
    - destruct (n =? 0)%Z eqn:E0; cbn [negb].
      + split; [reflexivity | reflexivity].
      + apply Z.eqb_neq in E0. split; [reflexivity | lia].
    - apply Z.eqb_neq in E. split; [reflexivity | lia]. }
  destruct (client.Getenv h "OPENGCS_UVM_TIMEOUT_SECONDS") as [|ch rest].
  - intros [= <-]. destruct (Hfin 0%Z ltac:(lia)) as [H1 H2].
    cbn [client.UvmTimeoutSeconds client.set_UvmTimeoutSeconds client.Opts
         client.set_Opts] in *.
    change (0 =? 0)%Z with true in H1, H2. cbv iota in H1, H2.
    repeat split; assumption.
  - destruct (strconv.Atoi (client.intSize h) (String ch rest)) as [n [e|]];
      [discriminate|].
    destruct (n <? 0)%Z eqn:En; [discriminate|]. apply Z.ltb_ge in En.
    intros [= <-]. destruct (Hfin n En) as [H1 H2].
    cbn [client.UvmTimeoutSeconds client.set_UvmTimeoutSeconds client.Opts
         client.set_Opts fst] in *.
    repeat split; assumption.
Qed.

(** X17: [GenerateDefault] returns no error exactly when [ParseOptions]
    returns none and the timeout of the environment, if the variable is set,
    is the numeral of a non-negative integer: a variable that is no such
    numeral is an error even when the options give a timeout.  On an error
    the timeout of the utility VM is as it was; the options are overwritten
    by what [ParseOptions] returned, and the name, the VM and the disks of
    the configuration are as they were. *)
Theorem GenerateDefault_error (h : client.Host) (config : client.Config)
  (options : list string) :
  (snd (client.GenerateDefault h config options) = None <->
   snd (client.ParseOptions h options) = None /\ env_ok h = true) /\
  (forall e, snd (client.GenerateDefault h config options) = Some e ->
     client.UvmTimeoutSeconds (fst (client.GenerateDefault h config options))
       = client.UvmTimeoutSeconds config /\
     client.Opts (fst (client.GenerateDefault h config options))
       = fst (client.ParseOptions h options) /\
     same_vm config (fst (client.GenerateDefault h config options))).
Proof.
  rewrite GenerateDefault_eq. unfold env_ok, timeout_ok, same_vm.
  destruct (client.ParseOptions h options) as [opts [e|]]; cbn [fst snd].
  { split; [split; [discriminate | intros [[=] _]]|].
    intros e' _. repeat split. }
  destruct (client.Getenv h "OPENGCS_UVM_TIMEOUT_SECONDS") as [|ch rest];
    cbn [fst snd].
  { split; [split; auto | discriminate]. }
  destruct (strconv.Atoi (client.intSize h) (String ch rest)) as [n [e|]];
    cbn [fst snd].
  { split; [split; [discriminate | intros [_ [=]]]|].
    intros e' _. repeat split. }
  destruct (n <? 0)%Z eqn:En; cbn [fst snd].
  - split; [split; [discriminate|]|].
    + intros [_ H]. apply Z.leb_le in H. apply Z.ltb_lt in En. lia.
    + intros e' _. repeat split.
  - split; [split; [intros _; split; [reflexivity|] | reflexivity] | discriminate].
    apply Z.leb_le. now apply Z.ltb_ge in En.
Qed.

(** ** [Validate] and [StartUtilityVM] *)

Lemma validateDisks_ok (h : client.Host) (disks : list client.MappedVirtualDisk) :
  client.validateDisks h disks = None <-> Forall (disk_ok h) disks.
Proof.
  unfold disk_ok. induction disks as [|mvd rest IH].
  - split; [constructor | reflexivity].
  - cbn [client.validateDisks]. rewrite Forall_cons_iff, <- IH.
    destruct (client.Stat h (client.HostPath mvd)) as [e|].
    + split; [discriminate | intros [[[=] _] _]].
    + destruct (String.eqb (client.ContainerPath mvd) EmptyString) eqn:E.
      * apply String.eqb_eq in E. split; [discriminate | intros [[_ H] _]; contradiction].
      * apply String.eqb_neq in E. tauto.
Qed.

Lemma validateDisks_first (h : client.Host) (disks : list client.MappedVirtualDisk) e :
  client.validateDisks h disks = Some e ->
  exists before mvd after,
    disks = before ++ mvd :: after /\
    Forall (disk_ok h) before /\ ~ disk_ok h mvd /\
    (e = client.errDiskNotFound (client.HostPath mvd) \/
     e = client.errDiskNoContainerPath (client.HostPath mvd)).
Proof.
  revert e. induction disks as [|mvd rest IH]; intros e H; [discriminate|].
  cbn [client.validateDisks] in H.
  destruct (client.Stat h (client.HostPath mvd)) as [e0|] eqn:Es.
  - injection H as <-. exists [], mvd, rest. repeat split; [constructor | | now left].
    unfold disk_ok. rewrite Es. intros [[=] _].
  - destruct (String.eqb (client.ContainerPath mvd) EmptyString) eqn:E.
    + injection H as <-. exists [], mvd, rest.
      repeat split; [constructor | | now right].
      apply String.eqb_eq in E. unfold disk_ok. intros [_ Hc]. contradiction.
    + destruct (IH e H) as (before & bad & after & -> & Hb & Hbad & He).
      exists (mvd :: before), bad, after. repeat split; try assumption.
      constructor; [|exact Hb]. apply String.eqb_neq in E. now split.
Qed.

Lemma Validate_ok_iff_aux (h : client.Host) (config : client.Config) :
  client.Validate h config = None <->
  windows.IsNotExist (client.Stat h (client.Join h
                [client.KirdPath (client.Opts config); "kernel"])) = false /\
  windows.IsNotExist (client.Stat h (client.Join h
                [client.KirdPath (client.Opts config); "initrd.img"])) = false /\
  Forall (disk_ok h) (client.MappedVirtualDisks config).
Proof.
  unfold client.Validate.
  destruct (windows.IsNotExist (client.Stat h (client.Join h
              [client.KirdPath (client.Opts config); "kernel"]))).
  { split; [discriminate | intros [[=] _]]. }
  destruct (windows.IsNotExist (client.Stat h (client.Join h
              [client.KirdPath (client.Opts config); "initrd.img"]))).
  { split; [discriminate | intros (_ & [=] & _)]. }
  rewrite validateDisks_ok. tauto.
Qed.

(** X18: [Validate] returns no error exactly when the stat of the kernel
    and the stat of the initrd do not say, as [os.IsNotExist] of Windows
    reads them, that the file, its directory or its network path does not
    exist, and every mapped virtual disk is there on the host and has a
    container path.  (A kernel whose stat fails for another reason passes;
    a disk whose stat fails for any reason does not.)  An error is about
    the kernel, about the initrd, or about the first disk of the list that
    is not accepted. *)
Theorem Validate_ok (h : client.Host) (config : client.Config) :
  (client.Validate h config = None <->
   windows.IsNotExist (client.Stat h (client.Join h
                 [client.KirdPath (client.Opts config); "kernel"])) = false /\
   windows.IsNotExist (client.Stat h (client.Join h
                 [client.KirdPath (client.Opts config); "initrd.img"])) = false /\
   Forall (disk_ok h) (client.MappedVirtualDisks config)) /\
  (forall e, client.Validate h config = Some e ->
     e = ErrorString ("kernel not found in " ++ client.KirdPath (client.Opts config))%string \/
     e = ErrorString ("initrd not found in " ++ client.KirdPath (client.Opts config))%string \/
     exists before mvd after,
       client.MappedVirtualDisks config = before ++ mvd :: after /\
       Forall (disk_ok h) before /\ ~ disk_ok h mvd /\
       (e = client.errDiskNotFound (client.HostPath mvd) \/
        e = client.errDiskNoContainerPath (client.HostPath mvd))).
Proof.
  split; [apply Validate_ok_iff_aux|].
  unfold client.Validate.
  destruct (windows.IsNotExist (client.Stat h (client.Join h
              [client.KirdPath (client.Opts config); "kernel"]))).
  { intros e [= <-]. now left. }
  destruct (windows.IsNotExist (client.Stat h (client.Join h
              [client.KirdPath (client.Opts config); "initrd.img"]))).
  { intros e [= <-]. right. now left. }
  intros e H. right. right. now apply validateDisks_first.
Qed.

(** X19: [StartUtilityVM] changes the configuration only when it returns
    no error, and then only by storing the VM it created and started.  An
    error is the error of [Validate], of the creation, or of the start, as
    it is, never the one of the termination.  A VM that was created is
    either the one stored, or was terminated after its start failed: none
    is left behind.  At most one VM is created. *)
Theorem StartUtilityVM_discipline {W} (h : client.Host) (hcs : client.HCS W)
  (config : client.Config) (w : W) :
  let '(config', err, _, log) := client.StartUtilityVM h hcs config w in
  match err with
  | None =>
      exists uvm,
        config' = client.set_Uvm (Some uvm) config /\
        In (client.Created (client.Name config) (client.configuration config) (Ok uvm)) log /\
        In (client.Started uvm None) log
  | Some e =>
      config' = config /\
      (client.Validate h config = Some e \/
       In (client.Created (client.Name config) (client.configuration config) (Fail e)) log \/
       exists uvm, In (client.Started uvm (Some e)) log)
  end /\
  (forall name c uvm,
      In (client.Created name c (Ok uvm)) log ->
      (err = None /\ client.Uvm config' = Some uvm) \/
      exists terr, In (client.Terminated uvm terr) log) /\
  List.length (filter is_Created log) <= 1.
Proof.
  unfold client.StartUtilityVM.
  destruct (client.Validate h config) as [e|] eqn:Ev.
  { split; [split; [reflexivity | now left]|]. split; [|cbn; lia].
    intros name c uvm [H|[]]. discriminate H. }
  destruct (client.CreateContainer hcs (client.Name config)
              (client.configuration config) w) as [[uvm|e] w1].
  2:{ split; [split; [reflexivity | right; left; cbn; tauto]|]. split; [|cbn; lia].
      cbn. intros name c uvm H. decompose [or] H; try discriminate; contradiction. }
  destruct (client.Start hcs uvm w1) as [[e|] w2].
  - destruct (client.Terminate hcs uvm w2) as [terr w3].
    split; [split; [reflexivity | right; right; exists uvm; cbn; tauto]|].
    split; [|cbn; lia].
    cbn. intros name c uvm' H. right. exists terr.
    decompose [or] H; try discriminate; try contradiction.
    match goal with Heq : client.Created _ _ _ = client.Created _ _ _ |- _ =>
      injection Heq as _ _ <- end.
    tauto.
  - split; [exists uvm; cbn; tauto|]. split; [|cbn; lia].
    cbn. intros name c uvm' H. left.
    decompose [or] H; try discriminate; try contradiction.
    match goal with Heq : client.Created _ _ _ = client.Created _ _ _ |- _ =>
      injection Heq as _ _ <- end.
    split; reflexivity.
Qed.

(** X20: whatever [StartUtilityVM] asks the service to create is what
    [Validate] accepted: [Validate] returned no error, the VM has the name
    of the configuration, runs in a Hyper-V partition, its kernel and its
    initrd are files of the image path whose stat does not say, as
    [os.IsNotExist] of Windows reads it, that they do not exist, and its
    disks are all there on the host with a container path. *)
Theorem StartUtilityVM_creates_validated {W} (h : client.Host) (hcs : client.HCS W)
  (config : client.Config) (w : W) name c r :
  In (client.Created name c r) (snd (client.StartUtilityVM h hcs config w)) ->
  client.Validate h config = None /\
  name = client.Name config /\
  client.HvPartition c = true /\
  windows.IsNotExist (client.Stat h (client.Join h
     [client.ImagePath (client.cfgHvRuntime c);
      client.LinuxKernelFile (client.cfgHvRuntime c)])) = false /\
  windows.IsNotExist (client.Stat h (client.Join h
     [client.ImagePath (client.cfgHvRuntime c);
      client.LinuxInitrdFile (client.cfgHvRuntime c)])) = false /\
  Forall (disk_ok h) (client.cfgMappedVirtualDisks c).
Proof.
  unfold client.StartUtilityVM.
  destruct (client.Validate h config) as [e|] eqn:Ev.
  { cbn. intros [H|[]]. discriminate H. }
  apply (proj1 (Validate_ok_iff_aux h config)) in Ev.
  assert (Hc : forall r',
            client.Created name c r =
            client.Created (client.Name config) (client.configuration config) r' ->
            name = client.Name config /\
            client.HvPartition c = true /\
            windows.IsNotExist (client.Stat h (client.Join h
               [client.ImagePath (client.cfgHvRuntime c);
                client.LinuxKernelFile (client.cfgHvRuntime c)])) = false /\
            windows.IsNotExist (client.Stat h (client.Join h
               [client.ImagePath (client.cfgHvRuntime c);
                client.LinuxInitrdFile (client.cfgHvRuntime c)])) = false /\
            Forall (disk_ok h) (client.cfgMappedVirtualDisks c)).
  { intros r' [= -> -> _]. cbn. tauto. }
  destruct (client.CreateContainer hcs (client.Name config)
              (client.configuration config) w) as [[uvm|e] w1].
  2:{ cbn. intros H. decompose [or] H; try discriminate; try contradiction.
      split; [reflexivity|]. eapply Hc. symmetry. eassumption. }
  destruct (client.Start hcs uvm w1) as [[e|] w2].
  - destruct (client.Terminate hcs uvm w2) as [terr w3].
    cbn. intros H. decompose [or] H; try discriminate; try contradiction.
    split; [reflexivity|]. eapply Hc. symmetry. eassumption.
  - cbn. intros H. decompose [or] H; try discriminate; try contradiction.
    split; [reflexivity|]. eapply Hc. symmetry. eassumption.
Qed.

(** ** The further properties on the scripted guest and host *)

Lemma ControllerLunToName_eventually_witness :
  exists tr g',
    returns Guest.answer (scsi.ControllerLunToName Guest.background Byte.x00 Byte.x03)
      Guest.boot tr g' ("/dev/sda", None).
Proof.
  do 2 eexists.
  eapply (proj1 (ControllerLunToName_eventually Guest.answer Guest.background
                   Byte.x00 Byte.x03 2 Guest.boot _ _ _ "sda"
                   eq_refl eq_refl eq_refl)).
Defined.

Lemma ControllerLunToName_result_witness :
  exists first, "/dev/sda" = filepath.Join ["/dev"; Name first].
Proof.
  eassert (Hrun : returns Guest.answer
            (scsi.ControllerLunToName Guest.background Byte.x00 Byte.x03)
            Guest.boot _ _ ("/dev/sda", None))
    by (exists 40; vm_compute; reflexivity).
  destruct (proj1 (ControllerLunToName_result Guest.answer Guest.background
                     Byte.x00 Byte.x03 Guest.boot _ _ _ _ Hrun))
    as (_ & first & _ & Hp); [discriminate|].
  now exists first.
Defined.

Lemma Mount_resolution_fails_witness :
  exists tr g',
    returns Guest.answer
      (scsi.Mount Guest.background Byte.x00 Byte.x03 "/run/c1" false)
      Guest.occupied tr g'
      (Some (PathError "open" "/sys/bus/scsi/devices/0:0:0:3/block" EACCES)).
Proof.
  eassert (Hr : returns Guest.answer
            (scsi.ControllerLunToName (in_span Guest.background mount_span)
               Byte.x00 Byte.x03) Guest.occupied _ _
            (EmptyString,
             Some (PathError "open" "/sys/bus/scsi/devices/0:0:0:3/block" EACCES)))
    by (exists 40; vm_compute; reflexivity).
  do 2 eexists.
  eapply (proj1 (Mount_resolution_fails Guest.answer Guest.background Byte.x00 Byte.x03
                   "/run/c1" false Guest.occupied Guest.occupied _ _ _ _ _ _
                   eq_refl Hr eq_refl)).
Defined.

Lemma Mount_result_witness :
  exists tr g',
    returns Guest.answer
      (scsi.Mount Guest.background Byte.x00 Byte.x03 "/run/c1" true) Guest.boot tr g' None /\
    In (Sys (MkdirAll "/run/c1" 448) None) tr.
Proof.
  eassert (Hrun : returns Guest.answer
            (scsi.Mount Guest.background Byte.x00 Byte.x03 "/run/c1" true)
            Guest.boot _ _ None)
    by (exists 40; vm_compute; reflexivity).
  pose proof (Mount_result Guest.answer Guest.background Byte.x00 Byte.x03
                "/run/c1" true Guest.boot _ _ _ Hrun) as [H _].
  do 2 eexists. split; [exact Hrun | exact H].
Defined.

Lemma UnplugDevice_open_error_witness :
  exists tr g',
    returns Guest.answer
      (scsi.UnplugDevice Guest.nanoseconds Guest.background Byte.x00 Byte.x03)
      locked tr g'
      (Some (PathError "open" "/sys/bus/scsi/devices/0:0:0:3/delete" EACCES)).
Proof.
  do 2 eexists.
  eapply (UnplugDevice_open_error Guest.answer Guest.nanoseconds Guest.background
            Byte.x00 Byte.x03 locked); reflexivity.
Defined.

Lemma expired_stays_done :
  (forall T (e : sysE T) v,
      Guest.polls v = Some 0 -> Guest.polls (snd (Guest.answer _ e v)) = Some 0) /\
  (forall v, Guest.polls v = Some 0 ->
             fst (Guest.answer _ (CtxDone (cancel Guest.background)) v) = true).
Proof.
  split.
  - intros T e [ds mk bl li ms ct op wr km cl po re] Hp. cbn in Hp. subst po.
    destruct e; cbn;
      repeat match goal with
        | |- context [match ?x with _ => _ end] => destruct x; cbn
        end; reflexivity.
  - intros [ds mk bl li ms ct op wr km cl po re] Hp. cbn in Hp. subst po. reflexivity.
Defined.


Lemma Mount_when_done_witness :
  exists tr g' res,
    returns Guest.answer
      (scsi.Mount Guest.background Byte.x00 Byte.x03 "/run/c1" false) expired tr g' res /\
    count is_Sleep tr = 0 /\ count is_ReadDir tr <= 1 /\ count is_UnixMount tr <= 1.
Proof.
  exact (Mount_when_done Guest.answer Guest.background Byte.x00 Byte.x03 "/run/c1" false
           (fun g => Guest.polls g = Some 0) expired
           (proj1 expired_stays_done) (proj2 expired_stays_done) eq_refl).
Defined.

Lemma ParseOptions_last_wins_witness :
  client.KirdPath
    (fst (client.ParseOptions a_host
            ["lcow.kirdpath=C:\old"; "verbose"; "LCOW.KirdPath=C:\kird";
             "lcow.timeout=30"])) = "C:\kird".
Proof.
  exact (proj1 (ParseOptions_last_wins a_host
                  ["lcow.kirdpath=C:\old"; "verbose"; "LCOW.KirdPath=C:\kird";
                   "lcow.timeout=30"] _ eq_refl)).
Defined.

Lemma ParseOptions_ignores_witness :
  client.ParseOptions a_host ["lcow.timeout=30"; "verbose"; "lcow.kirdpath=C:\kird"]
  = client.ParseOptions a_host ["lcow.timeout=30"; "lcow.kirdpath=C:\kird"].
Proof.
  exact (ParseOptions_ignores a_host ["lcow.timeout=30"] ["lcow.kirdpath=C:\kird"]
           "verbose" eq_refl eq_refl eq_refl).
Defined.

Lemma GenerateDefault_timeout_witness :
  client.UvmTimeoutSeconds
    (fst (client.GenerateDefault a_host a_config ["lcow.bootparameters=quiet"]))
  = 300%Z.
Proof.
  exact (proj1 (GenerateDefault_timeout a_host a_config _
                  ["lcow.bootparameters=quiet"] eq_refl)).
Defined.

Lemma StartUtilityVM_creates_validated_witness :
  Forall (disk_ok a_host)
    (client.cfgMappedVirtualDisks (client.configuration a_config)).
Proof.
  refine (proj2 (proj2 (proj2 (proj2 (proj2
            (StartUtilityVM_creates_validated a_host a_service a_config 0
               (client.Name a_config) (client.configuration a_config) (Ok 0) _)))))).
  vm_compute. tauto.
Defined.

(** ** The definitions of package [client] at work *)

(** [strconv.Atoi] on 64 bits: the two ends of the range, a value past
    each, a digit that overflows before a character that is no digit, and
    strings that are no numerals. *)
Example Atoi_64 :
  strconv.Atoi 64 "9223372036854775807" = (9223372036854775807%Z, None) /\
  strconv.Atoi 64 "-9223372036854775808" = ((-9223372036854775808)%Z, None) /\
  strconv.Atoi 64 "9223372036854775808"
    = (9223372036854775807%Z, Some strconv.ErrRange) /\
  strconv.Atoi 64 "-9223372036854775809"
    = ((-9223372036854775808)%Z, Some strconv.ErrRange) /\
  strconv.Atoi 64 "99999999999999999999x"
    = (9223372036854775807%Z, Some strconv.ErrRange) /\
  strconv.Atoi 64 "12x" = (0%Z, Some strconv.ErrSyntax) /\
  strconv.Atoi 64 "+" = (0%Z, Some strconv.ErrSyntax) /\
  strconv.Atoi 64 EmptyString = (0%Z, Some strconv.ErrSyntax) /\
  strconv.Atoi 64 "+007" = (7%Z, None).
Proof. repeat split; vm_compute; reflexivity. Qed.

(** A file whose directory is missing does not exist, as a file that is
    missing itself; a file that may not be read does exist. *)
Example IsNotExist_windows :
  windows.IsNotExist (Some (PathError "CreateFile" "C:\nodir\kernel"
                              windows.ERROR_PATH_NOT_FOUND)) = true /\
  windows.IsNotExist (Some (PathError "CreateFile" "\\host\share\kernel"
                              windows.ERROR_BAD_NETPATH)) = true /\
  windows.IsNotExist (Some (PathError "CreateFile" "C:\kird\kernel"
                              windows.ERROR_FILE_NOT_FOUND)) = true /\
  windows.IsNotExist (Some (PathError "CreateFile" "C:\kird\kernel" (Errno 5))) = false.
Proof. repeat split. Qed.

(** With the directory of the kernel missing, [Validate] says that the
    kernel is not found, and [StartUtilityVM] asks the service for
    nothing. *)
Example StartUtilityVM_no_kird :
  client.Validate a_host no_kird = Some (ErrorString "kernel not found in C:\nodir") /\
  client.StartUtilityVM a_host a_service no_kird 0
  = (no_kird, Some (ErrorString "kernel not found in C:\nodir"), 0,
     [client.Debugf "opengcs: StartUtilityVM: %+v" [client.AConfig no_kird]]).
Proof. split; vm_compute; reflexivity. Qed.
